(** * BeatFindr lead scraper: a shallow embedding of [main.py]

    The development follows the layout of the program: Python string
    primitives, the matching helpers and lexicons, the ledger (the first
    worksheet of the spreadsheet), the two ingestion pipelines, the e-mail
    sender and [run_once].

    Modelling conventions.
    - A Python [str] is a sequence of code points.  The pipelines work on
      [string], which holds the code points below 256; [Unicode.normalize]
      is the normalizer on all code points, with the character database of
      CPython written out, and agrees with [normalize] on strings.  The
      [in] operator on strings is literal substring search.
    - A field that may be missing or [None] ([d.get("title")],
      [getattr(entry, "link", "")]) is an [option string].
    - A [Set[str]] that is only iterated by [any] is the list of its
      elements ([contains_any_ext] shows that neither order nor repetition
      matters); the seen-URL set, which is tested and grown, is a
      [gset string].
    - The worksheet is the list of its rows, each up to its last cell that
      is not empty; [get_all_values] pads them to the widest, as gspread
      does.  The mailbox is the list of the messages sent, and the wall
      clock a function from the number of readings taken so far to the
      formatted time. *)

From Stdlib Require Import Ascii String.
From stdpp Require Import gmap strings list.

(* [set_solver] clears hypotheses by name; silence its notices. *)
#[local] Set Warnings "-clear-no-such-hyp".

(** * Python string primitives *)

Module PyStr.

(** [s.startswith(t)]: [t] is a prefix of [s]. *)
Fixpoint startswith (t s : string) : bool :=
  match t, s with
  | EmptyString, _ => true
  | String a t', String b s' =>
      if Ascii.eqb a b then startswith t' s' else false
  | String _ _, EmptyString => false
  end.

(** [t in s]: [t] occurs in [s] at some offset. *)
Fixpoint str_in (t s : string) : bool :=
  startswith t s ||
  match s with
  | EmptyString => false
  | String _ s' => str_in t s'
  end.

(** The relation the operator decides: [s] is [l + t + r]. *)
Definition Substring (t s : string) : Prop :=
  ∃ l r : string, s = l +:+ t +:+ r.

(** Truthiness of a string: [bool(s)]. *)
Definition truthy (s : string) : bool :=
  match s with
  | EmptyString => false
  | String _ _ => true
  end.

(** [x or d] for an [x] that is a string or missing/[None]. *)
Definition or_default (x : option string) (d : string) : string :=
  match x with
  | Some s => if truthy s then s else d
  | None => d
  end.

End PyStr.

Import PyStr.

(** * Smart matching lexicons *)

Definition INTENT_TERMS : list string :=
  [ "buy"; "buying"; "purchase"; "pay"; "paying"; "budget"; "usd"; "$";
    "need"; "looking for"; "seeking"; "request"; "requests"; "commission";
    "hire"; "hiring"; "brief"; "placement"; "sync"; "licensing"; "supervisor";
    "exclusive rights"; "non-exclusive"; "nonexclusive"; "custom" ].

Definition ASSET_TERMS : list string :=
  [ "beat"; "beats"; "instrumental"; "instrumentals"; "track"; "tracks";
    "music"; "cue"; "cues"; "score"; "soundtrack" ].

Definition GENRE_TERMS : list string :=
  [ "trap"; "hip hop"; "hip-hop"; "rap"; "drill"; "boom bap";
    "cinematic"; "orchestral"; "dark"; "epic"; "cinematic hip hop";
    "orchestral hip hop" ].

Definition USE_CASE_TERMS : list string :=
  [ "for video"; "for film"; "for movie"; "for short film"; "for youtube";
    "for tiktok"; "for ad"; "for trailer"; "for commercial"; "for podcast";
    "for game"; "for tv"; "for tv show" ].

Definition NEGATIVE_TERMS : list string :=
  [ "check my beat"; "my new beat"; "free beats"; "i sell beats";
    "selling beats"; "beat store"; "beatstars.com"; "airbit.com";
    "type beat pack"; "beat pack"; "prod by"; "producer tag";
    "stream my beat" ].

(** The literal sets written inline in [looks_like_buyer] and
    [search_sync_rss]. *)
Definition SYNC_HINTS : list string :=
  [ "sync"; "licensing"; "placement"; "brief" ].

Definition RSS_INTENT : list string :=
  [ "sync"; "licensing"; "placement"; "brief"; "supervisor";
    "call for submissions"; "music wanted" ].

Definition RSS_STYLE : list string := [ "hiphop"; "urban" ].

(** * Matching helpers *)

(** [any(t in text for t in terms)] *)
Definition contains_any (text : string) (terms : list string) : bool :=
  existsb (λ t, str_in t text) terms.

Definition looks_like_buyer (text : string) : bool :=
  let intent := contains_any text INTENT_TERMS || str_in "$" text in
  let asset := contains_any text ASSET_TERMS in
  let style := contains_any text GENRE_TERMS in
  let syncy :=
    contains_any text USE_CASE_TERMS || contains_any text SYNC_HINTS in
  asset && intent && (style || syncy).

Definition is_noise (text : string) : bool :=
  contains_any text NEGATIVE_TERMS.

(** The variant of [looks_like_buyer] whose intent conjunct is
    [contains_any(text, INTENT_TERMS)] alone. *)
Definition looks_like_buyer_lexicon_only (text : string) : bool :=
  let intent := contains_any text INTENT_TERMS in
  let asset := contains_any text ASSET_TERMS in
  let style := contains_any text GENRE_TERMS in
  let syncy :=
    contains_any text USE_CASE_TERMS || contains_any text SYNC_HINTS in
  asset && intent && (style || syncy).

(** The acceptance test of [search_sync_rss]:
    [intentish and styleish]. *)
Definition rss_accepts (tl : string) : bool :=
  let intentish := contains_any tl RSS_INTENT in
  let styleish := contains_any tl GENRE_TERMS || contains_any tl RSS_STYLE in
  intentish && styleish.

(** * The normalizer

    [re.sub(r"\s+", " ", (text or "").lower()).strip()].  The three string
    operations are first written over an arbitrary character type, with the
    character tables they consult as parameters: the whitespace class (the
    same one for [\s] and for [strip]) and the case mapping.  [normalize]
    then instantiates them with the tables of CPython. *)

Module Normalizer.

Section Ops.
Context {A : Type}.
Variable isspace : A → bool.
Variable space : A.

(** [re.sub(r"\s+", " ", s)]: every maximal run of whitespace becomes one
    [space]. [in_run] tells that the run being scanned has already been
    replaced. *)
Fixpoint collapse (in_run : bool) (s : list A) : list A :=
  match s with
  | [] => []
  | c :: r =>
      if isspace c
      then if in_run then collapse true r else space :: collapse true r
      else c :: collapse false r
  end.

Definition re_sub_ws (s : list A) : list A := collapse false s.

Fixpoint lstrip (s : list A) : list A :=
  match s with
  | [] => []
  | c :: r => if isspace c then lstrip r else s
  end.

Fixpoint rstrip (s : list A) : list A :=
  match s with
  | [] => []
  | c :: r =>
      match rstrip r with
      | [] => if isspace c then [] else [c]
      | r' => c :: r'
      end
  end.

(** [s.strip()] *)
Definition strip (s : list A) : list A := rstrip (lstrip s).

Variable lower : list A → list A.

Definition normalize_chars (s : list A) : list A :=
  strip (re_sub_ws (lower s)).

(** Shape of a normalized text: whitespace only as a single [space]
    followed by a character that is not whitespace. *)
Definition head_nonspace (s : list A) : Prop :=
  match s with
  | [] => True
  | d :: _ => isspace d = false
  end.

Fixpoint tidy (s : list A) : Prop :=
  match s with
  | [] => True
  | c :: r => (isspace c = true → c = space ∧ head_nonspace r) ∧ tidy r
  end.
End Ops.

(** The character tables of CPython for the code points below 256, which
    are the characters of a [string].  [str.isspace], which is also the class
    [\s] of a [str] pattern, holds of TAB, LF, VT, FF, CR, the separators
    FS, GS, RS, US, the blank, NEL (133) and the no-break space (160).
    [str.lower] adds 32 to [A-Z] and to the capital letters of Latin-1,
    192 to 222 without the multiplication sign 215. *)
Definition py_isspace (c : ascii) : bool :=
  let n := N_of_ascii c in
  ((9 <=? n) && (n <=? 13) || (28 <=? n) && (n <=? 32)
   || (n =? 133) || (n =? 160))%N.

Definition py_lower_char (c : ascii) : ascii :=
  let n := N_of_ascii c in
  if ((65 <=? n) && (n <=? 90)
      || (192 <=? n) && (n <=? 222) && negb (n =? 215))%N
  then ascii_of_N (n + 32) else c.

Definition py_lower (s : list ascii) : list ascii := map py_lower_char s.

Definition blank : ascii := ascii_of_N 32.

End Normalizer.

Definition normalize (text : option string) : string :=
  string_of_list_ascii
    (Normalizer.normalize_chars Normalizer.py_isspace Normalizer.blank
       Normalizer.py_lower
       (list_ascii_of_string (or_default text ""))).

(** * The normalizer on every Python string

    A [str] is a sequence of code points, of which a [string] holds those
    below 256 only.  Here the three operations run on lists of code points,
    with the character database of CPython 3.11 (Unicode 14.0) written out:
    the full lower-case mapping of [_PyUnicode_ToLowerFull], the whitespace
    class of [Py_UNICODE_ISSPACE] (which a [str] pattern also uses for [\s]),
    and the classes Cased and Case_Ignorable that [str.lower] consults to
    choose between the two small sigmas. *)

Module Unicode.

Definition str := list N.

(** The code points that [lower] changes, each with what it becomes;
    capital sigma, U+03A3, is handled apart. *)
Definition LOWER : list (N * list N) :=
  [
    (0x41, [0x61]); (0x42, [0x62]); (0x43, [0x63]); (0x44, [0x64]);
    (0x45, [0x65]); (0x46, [0x66]); (0x47, [0x67]); (0x48, [0x68]);
    (0x49, [0x69]); (0x4A, [0x6A]); (0x4B, [0x6B]); (0x4C, [0x6C]);
    (0x4D, [0x6D]); (0x4E, [0x6E]); (0x4F, [0x6F]); (0x50, [0x70]);
    (0x51, [0x71]); (0x52, [0x72]); (0x53, [0x73]); (0x54, [0x74]);
    (0x55, [0x75]); (0x56, [0x76]); (0x57, [0x77]); (0x58, [0x78]);
    (0x59, [0x79]); (0x5A, [0x7A]); (0xC0, [0xE0]); (0xC1, [0xE1]);
    (0xC2, [0xE2]); (0xC3, [0xE3]); (0xC4, [0xE4]); (0xC5, [0xE5]);
    (0xC6, [0xE6]); (0xC7, [0xE7]); (0xC8, [0xE8]); (0xC9, [0xE9]);
    (0xCA, [0xEA]); (0xCB, [0xEB]); (0xCC, [0xEC]); (0xCD, [0xED]);
    (0xCE, [0xEE]); (0xCF, [0xEF]); (0xD0, [0xF0]); (0xD1, [0xF1]);
    (0xD2, [0xF2]); (0xD3, [0xF3]); (0xD4, [0xF4]); (0xD5, [0xF5]);
    (0xD6, [0xF6]); (0xD8, [0xF8]); (0xD9, [0xF9]); (0xDA, [0xFA]);
    (0xDB, [0xFB]); (0xDC, [0xFC]); (0xDD, [0xFD]); (0xDE, [0xFE]);
    (0x100, [0x101]); (0x102, [0x103]); (0x104, [0x105]); (0x106, [0x107]);
    (0x108, [0x109]); (0x10A, [0x10B]); (0x10C, [0x10D]); (0x10E, [0x10F]);
    (0x110, [0x111]); (0x112, [0x113]); (0x114, [0x115]); (0x116, [0x117]);
    (0x118, [0x119]); (0x11A, [0x11B]); (0x11C, [0x11D]); (0x11E, [0x11F]);
    (0x120, [0x121]); (0x122, [0x123]); (0x124, [0x125]); (0x126, [0x127]);
    (0x128, [0x129]); (0x12A, [0x12B]); (0x12C, [0x12D]); (0x12E, [0x12F]);
    (0x130, [0x69; 0x307]); (0x132, [0x133]); (0x134, [0x135]);
    (0x136, [0x137]); (0x139, [0x13A]); (0x13B, [0x13C]); (0x13D, [0x13E]);
    (0x13F, [0x140]); (0x141, [0x142]); (0x143, [0x144]); (0x145, [0x146]);
    (0x147, [0x148]); (0x14A, [0x14B]); (0x14C, [0x14D]); (0x14E, [0x14F]);
    (0x150, [0x151]); (0x152, [0x153]); (0x154, [0x155]); (0x156, [0x157]);
    (0x158, [0x159]); (0x15A, [0x15B]); (0x15C, [0x15D]); (0x15E, [0x15F]);
    (0x160, [0x161]); (0x162, [0x163]); (0x164, [0x165]); (0x166, [0x167]);
    (0x168, [0x169]); (0x16A, [0x16B]); (0x16C, [0x16D]); (0x16E, [0x16F]);
    (0x170, [0x171]); (0x172, [0x173]); (0x174, [0x175]); (0x176, [0x177]);
    (0x178, [0xFF]); (0x179, [0x17A]); (0x17B, [0x17C]); (0x17D, [0x17E]);
    (0x181, [0x253]); (0x182, [0x183]); (0x184, [0x185]); (0x186, [0x254]);
    (0x187, [0x188]); (0x189, [0x256]); (0x18A, [0x257]); (0x18B, [0x18C]);
    (0x18E, [0x1DD]); (0x18F, [0x259]); (0x190, [0x25B]); (0x191, [0x192]);
    (0x193, [0x260]); (0x194, [0x263]); (0x196, [0x269]); (0x197, [0x268]);
    (0x198, [0x199]); (0x19C, [0x26F]); (0x19D, [0x272]); (0x19F, [0x275]);
    (0x1A0, [0x1A1]); (0x1A2, [0x1A3]); (0x1A4, [0x1A5]); (0x1A6, [0x280]);
    (0x1A7, [0x1A8]); (0x1A9, [0x283]); (0x1AC, [0x1AD]); (0x1AE, [0x288]);
    (0x1AF, [0x1B0]); (0x1B1, [0x28A]); (0x1B2, [0x28B]); (0x1B3, [0x1B4]);
    (0x1B5, [0x1B6]); (0x1B7, [0x292]); (0x1B8, [0x1B9]); (0x1BC, [0x1BD]);
    (0x1C4, [0x1C6]); (0x1C5, [0x1C6]); (0x1C7, [0x1C9]); (0x1C8, [0x1C9]);
    (0x1CA, [0x1CC]); (0x1CB, [0x1CC]); (0x1CD, [0x1CE]); (0x1CF, [0x1D0]);
    (0x1D1, [0x1D2]); (0x1D3, [0x1D4]); (0x1D5, [0x1D6]); (0x1D7, [0x1D8]);
    (0x1D9, [0x1DA]); (0x1DB, [0x1DC]); (0x1DE, [0x1DF]); (0x1E0, [0x1E1]);
    (0x1E2, [0x1E3]); (0x1E4, [0x1E5]); (0x1E6, [0x1E7]); (0x1E8, [0x1E9]);
    (0x1EA, [0x1EB]); (0x1EC, [0x1ED]); (0x1EE, [0x1EF]); (0x1F1, [0x1F3]);
    (0x1F2, [0x1F3]); (0x1F4, [0x1F5]); (0x1F6, [0x195]); (0x1F7, [0x1BF]);
    (0x1F8, [0x1F9]); (0x1FA, [0x1FB]); (0x1FC, [0x1FD]); (0x1FE, [0x1FF]);
    (0x200, [0x201]); (0x202, [0x203]); (0x204, [0x205]); (0x206, [0x207]);
    (0x208, [0x209]); (0x20A, [0x20B]); (0x20C, [0x20D]); (0x20E, [0x20F]);
    (0x210, [0x211]); (0x212, [0x213]); (0x214, [0x215]); (0x216, [0x217]);
    (0x218, [0x219]); (0x21A, [0x21B]); (0x21C, [0x21D]); (0x21E, [0x21F]);
    (0x220, [0x19E]); (0x222, [0x223]); (0x224, [0x225]); (0x226, [0x227]);
    (0x228, [0x229]); (0x22A, [0x22B]); (0x22C, [0x22D]); (0x22E, [0x22F]);
    (0x230, [0x231]); (0x232, [0x233]); (0x23A, [0x2C65]);
    (0x23B, [0x23C]); (0x23D, [0x19A]); (0x23E, [0x2C66]);
    (0x241, [0x242]); (0x243, [0x180]); (0x244, [0x289]); (0x245, [0x28C]);
    (0x246, [0x247]); (0x248, [0x249]); (0x24A, [0x24B]); (0x24C, [0x24D]);
    (0x24E, [0x24F]); (0x370, [0x371]); (0x372, [0x373]); (0x376, [0x377]);
    (0x37F, [0x3F3]); (0x386, [0x3AC]); (0x388, [0x3AD]); (0x389, [0x3AE]);
    (0x38A, [0x3AF]); (0x38C, [0x3CC]); (0x38E, [0x3CD]); (0x38F, [0x3CE]);
    (0x391, [0x3B1]); (0x392, [0x3B2]); (0x393, [0x3B3]); (0x394, [0x3B4]);
    (0x395, [0x3B5]); (0x396, [0x3B6]); (0x397, [0x3B7]); (0x398, [0x3B8]);
    (0x399, [0x3B9]); (0x39A, [0x3BA]); (0x39B, [0x3BB]); (0x39C, [0x3BC]);
    (0x39D, [0x3BD]); (0x39E, [0x3BE]); (0x39F, [0x3BF]); (0x3A0, [0x3C0]);
    (0x3A1, [0x3C1]); (0x3A4, [0x3C4]); (0x3A5, [0x3C5]); (0x3A6, [0x3C6]);
    (0x3A7, [0x3C7]); (0x3A8, [0x3C8]); (0x3A9, [0x3C9]); (0x3AA, [0x3CA]);
    (0x3AB, [0x3CB]); (0x3CF, [0x3D7]); (0x3D8, [0x3D9]); (0x3DA, [0x3DB]);
    (0x3DC, [0x3DD]); (0x3DE, [0x3DF]); (0x3E0, [0x3E1]); (0x3E2, [0x3E3]);
    (0x3E4, [0x3E5]); (0x3E6, [0x3E7]); (0x3E8, [0x3E9]); (0x3EA, [0x3EB]);
    (0x3EC, [0x3ED]); (0x3EE, [0x3EF]); (0x3F4, [0x3B8]); (0x3F7, [0x3F8]);
    (0x3F9, [0x3F2]); (0x3FA, [0x3FB]); (0x3FD, [0x37B]); (0x3FE, [0x37C]);
    (0x3FF, [0x37D]); (0x400, [0x450]); (0x401, [0x451]); (0x402, [0x452]);
    (0x403, [0x453]); (0x404, [0x454]); (0x405, [0x455]); (0x406, [0x456]);
    (0x407, [0x457]); (0x408, [0x458]); (0x409, [0x459]); (0x40A, [0x45A]);
    (0x40B, [0x45B]); (0x40C, [0x45C]); (0x40D, [0x45D]); (0x40E, [0x45E]);
    (0x40F, [0x45F]); (0x410, [0x430]); (0x411, [0x431]); (0x412, [0x432]);
    (0x413, [0x433]); (0x414, [0x434]); (0x415, [0x435]); (0x416, [0x436]);
    (0x417, [0x437]); (0x418, [0x438]); (0x419, [0x439]); (0x41A, [0x43A]);
    (0x41B, [0x43B]); (0x41C, [0x43C]); (0x41D, [0x43D]); (0x41E, [0x43E]);
    (0x41F, [0x43F]); (0x420, [0x440]); (0x421, [0x441]); (0x422, [0x442]);
    (0x423, [0x443]); (0x424, [0x444]); (0x425, [0x445]); (0x426, [0x446]);
    (0x427, [0x447]); (0x428, [0x448]); (0x429, [0x449]); (0x42A, [0x44A]);
    (0x42B, [0x44B]); (0x42C, [0x44C]); (0x42D, [0x44D]); (0x42E, [0x44E]);
    (0x42F, [0x44F]); (0x460, [0x461]); (0x462, [0x463]); (0x464, [0x465]);
    (0x466, [0x467]); (0x468, [0x469]); (0x46A, [0x46B]); (0x46C, [0x46D]);
    (0x46E, [0x46F]); (0x470, [0x471]); (0x472, [0x473]); (0x474, [0x475]);
    (0x476, [0x477]); (0x478, [0x479]); (0x47A, [0x47B]); (0x47C, [0x47D]);
    (0x47E, [0x47F]); (0x480, [0x481]); (0x48A, [0x48B]); (0x48C, [0x48D]);
    (0x48E, [0x48F]); (0x490, [0x491]); (0x492, [0x493]); (0x494, [0x495]);
    (0x496, [0x497]); (0x498, [0x499]); (0x49A, [0x49B]); (0x49C, [0x49D]);
    (0x49E, [0x49F]); (0x4A0, [0x4A1]); (0x4A2, [0x4A3]); (0x4A4, [0x4A5]);
    (0x4A6, [0x4A7]); (0x4A8, [0x4A9]); (0x4AA, [0x4AB]); (0x4AC, [0x4AD]);
    (0x4AE, [0x4AF]); (0x4B0, [0x4B1]); (0x4B2, [0x4B3]); (0x4B4, [0x4B5]);
    (0x4B6, [0x4B7]); (0x4B8, [0x4B9]); (0x4BA, [0x4BB]); (0x4BC, [0x4BD]);
    (0x4BE, [0x4BF]); (0x4C0, [0x4CF]); (0x4C1, [0x4C2]); (0x4C3, [0x4C4]);
    (0x4C5, [0x4C6]); (0x4C7, [0x4C8]); (0x4C9, [0x4CA]); (0x4CB, [0x4CC]);
    (0x4CD, [0x4CE]); (0x4D0, [0x4D1]); (0x4D2, [0x4D3]); (0x4D4, [0x4D5]);
    (0x4D6, [0x4D7]); (0x4D8, [0x4D9]); (0x4DA, [0x4DB]); (0x4DC, [0x4DD]);
    (0x4DE, [0x4DF]); (0x4E0, [0x4E1]); (0x4E2, [0x4E3]); (0x4E4, [0x4E5]);
    (0x4E6, [0x4E7]); (0x4E8, [0x4E9]); (0x4EA, [0x4EB]); (0x4EC, [0x4ED]);
    (0x4EE, [0x4EF]); (0x4F0, [0x4F1]); (0x4F2, [0x4F3]); (0x4F4, [0x4F5]);
    (0x4F6, [0x4F7]); (0x4F8, [0x4F9]); (0x4FA, [0x4FB]); (0x4FC, [0x4FD]);
    (0x4FE, [0x4FF]); (0x500, [0x501]); (0x502, [0x503]); (0x504, [0x505]);
    (0x506, [0x507]); (0x508, [0x509]); (0x50A, [0x50B]); (0x50C, [0x50D]);
    (0x50E, [0x50F]); (0x510, [0x511]); (0x512, [0x513]); (0x514, [0x515]);
    (0x516, [0x517]); (0x518, [0x519]); (0x51A, [0x51B]); (0x51C, [0x51D]);
    (0x51E, [0x51F]); (0x520, [0x521]); (0x522, [0x523]); (0x524, [0x525]);
    (0x526, [0x527]); (0x528, [0x529]); (0x52A, [0x52B]); (0x52C, [0x52D]);
    (0x52E, [0x52F]); (0x531, [0x561]); (0x532, [0x562]); (0x533, [0x563]);
    (0x534, [0x564]); (0x535, [0x565]); (0x536, [0x566]); (0x537, [0x567]);
    (0x538, [0x568]); (0x539, [0x569]); (0x53A, [0x56A]); (0x53B, [0x56B]);
    (0x53C, [0x56C]); (0x53D, [0x56D]); (0x53E, [0x56E]); (0x53F, [0x56F]);
    (0x540, [0x570]); (0x541, [0x571]); (0x542, [0x572]); (0x543, [0x573]);
    (0x544, [0x574]); (0x545, [0x575]); (0x546, [0x576]); (0x547, [0x577]);
    (0x548, [0x578]); (0x549, [0x579]); (0x54A, [0x57A]); (0x54B, [0x57B]);
    (0x54C, [0x57C]); (0x54D, [0x57D]); (0x54E, [0x57E]); (0x54F, [0x57F]);
    (0x550, [0x580]); (0x551, [0x581]); (0x552, [0x582]); (0x553, [0x583]);
    (0x554, [0x584]); (0x555, [0x585]); (0x556, [0x586]);
    (0x10A0, [0x2D00]); (0x10A1, [0x2D01]); (0x10A2, [0x2D02]);
    (0x10A3, [0x2D03]); (0x10A4, [0x2D04]); (0x10A5, [0x2D05]);
    (0x10A6, [0x2D06]); (0x10A7, [0x2D07]); (0x10A8, [0x2D08]);
    (0x10A9, [0x2D09]); (0x10AA, [0x2D0A]); (0x10AB, [0x2D0B]);
    (0x10AC, [0x2D0C]); (0x10AD, [0x2D0D]); (0x10AE, [0x2D0E]);
    (0x10AF, [0x2D0F]); (0x10B0, [0x2D10]); (0x10B1, [0x2D11]);
    (0x10B2, [0x2D12]); (0x10B3, [0x2D13]); (0x10B4, [0x2D14]);
    (0x10B5, [0x2D15]); (0x10B6, [0x2D16]); (0x10B7, [0x2D17]);
    (0x10B8, [0x2D18]); (0x10B9, [0x2D19]); (0x10BA, [0x2D1A]);
    (0x10BB, [0x2D1B]); (0x10BC, [0x2D1C]); (0x10BD, [0x2D1D]);
    (0x10BE, [0x2D1E]); (0x10BF, [0x2D1F]); (0x10C0, [0x2D20]);
    (0x10C1, [0x2D21]); (0x10C2, [0x2D22]); (0x10C3, [0x2D23]);
    (0x10C4, [0x2D24]); (0x10C5, [0x2D25]); (0x10C7, [0x2D27]);
    (0x10CD, [0x2D2D]); (0x13A0, [0xAB70]); (0x13A1, [0xAB71]);
    (0x13A2, [0xAB72]); (0x13A3, [0xAB73]); (0x13A4, [0xAB74]);
    (0x13A5, [0xAB75]); (0x13A6, [0xAB76]); (0x13A7, [0xAB77]);
    (0x13A8, [0xAB78]); (0x13A9, [0xAB79]); (0x13AA, [0xAB7A]);
    (0x13AB, [0xAB7B]); (0x13AC, [0xAB7C]); (0x13AD, [0xAB7D]);
    (0x13AE, [0xAB7E]); (0x13AF, [0xAB7F]); (0x13B0, [0xAB80]);
    (0x13B1, [0xAB81]); (0x13B2, [0xAB82]); (0x13B3, [0xAB83]);
    (0x13B4, [0xAB84]); (0x13B5, [0xAB85]); (0x13B6, [0xAB86]);
    (0x13B7, [0xAB87]); (0x13B8, [0xAB88]); (0x13B9, [0xAB89]);
    (0x13BA, [0xAB8A]); (0x13BB, [0xAB8B]); (0x13BC, [0xAB8C]);
    (0x13BD, [0xAB8D]); (0x13BE, [0xAB8E]); (0x13BF, [0xAB8F]);
    (0x13C0, [0xAB90]); (0x13C1, [0xAB91]); (0x13C2, [0xAB92]);
    (0x13C3, [0xAB93]); (0x13C4, [0xAB94]); (0x13C5, [0xAB95]);
    (0x13C6, [0xAB96]); (0x13C7, [0xAB97]); (0x13C8, [0xAB98]);
    (0x13C9, [0xAB99]); (0x13CA, [0xAB9A]); (0x13CB, [0xAB9B]);
    (0x13CC, [0xAB9C]); (0x13CD, [0xAB9D]); (0x13CE, [0xAB9E]);
    (0x13CF, [0xAB9F]); (0x13D0, [0xABA0]); (0x13D1, [0xABA1]);
    (0x13D2, [0xABA2]); (0x13D3, [0xABA3]); (0x13D4, [0xABA4]);
    (0x13D5, [0xABA5]); (0x13D6, [0xABA6]); (0x13D7, [0xABA7]);
    (0x13D8, [0xABA8]); (0x13D9, [0xABA9]); (0x13DA, [0xABAA]);
    (0x13DB, [0xABAB]); (0x13DC, [0xABAC]); (0x13DD, [0xABAD]);
    (0x13DE, [0xABAE]); (0x13DF, [0xABAF]); (0x13E0, [0xABB0]);
    (0x13E1, [0xABB1]); (0x13E2, [0xABB2]); (0x13E3, [0xABB3]);
    (0x13E4, [0xABB4]); (0x13E5, [0xABB5]); (0x13E6, [0xABB6]);
    (0x13E7, [0xABB7]); (0x13E8, [0xABB8]); (0x13E9, [0xABB9]);
    (0x13EA, [0xABBA]); (0x13EB, [0xABBB]); (0x13EC, [0xABBC]);
    (0x13ED, [0xABBD]); (0x13EE, [0xABBE]); (0x13EF, [0xABBF]);
    (0x13F0, [0x13F8]); (0x13F1, [0x13F9]); (0x13F2, [0x13FA]);
    (0x13F3, [0x13FB]); (0x13F4, [0x13FC]); (0x13F5, [0x13FD]);
    (0x1C90, [0x10D0]); (0x1C91, [0x10D1]); (0x1C92, [0x10D2]);
    (0x1C93, [0x10D3]); (0x1C94, [0x10D4]); (0x1C95, [0x10D5]);
    (0x1C96, [0x10D6]); (0x1C97, [0x10D7]); (0x1C98, [0x10D8]);
    (0x1C99, [0x10D9]); (0x1C9A, [0x10DA]); (0x1C9B, [0x10DB]);
    (0x1C9C, [0x10DC]); (0x1C9D, [0x10DD]); (0x1C9E, [0x10DE]);
    (0x1C9F, [0x10DF]); (0x1CA0, [0x10E0]); (0x1CA1, [0x10E1]);
    (0x1CA2, [0x10E2]); (0x1CA3, [0x10E3]); (0x1CA4, [0x10E4]);
    (0x1CA5, [0x10E5]); (0x1CA6, [0x10E6]); (0x1CA7, [0x10E7]);
    (0x1CA8, [0x10E8]); (0x1CA9, [0x10E9]); (0x1CAA, [0x10EA]);
    (0x1CAB, [0x10EB]); (0x1CAC, [0x10EC]); (0x1CAD, [0x10ED]);
    (0x1CAE, [0x10EE]); (0x1CAF, [0x10EF]); (0x1CB0, [0x10F0]);
    (0x1CB1, [0x10F1]); (0x1CB2, [0x10F2]); (0x1CB3, [0x10F3]);
    (0x1CB4, [0x10F4]); (0x1CB5, [0x10F5]); (0x1CB6, [0x10F6]);
    (0x1CB7, [0x10F7]); (0x1CB8, [0x10F8]); (0x1CB9, [0x10F9]);
    (0x1CBA, [0x10FA]); (0x1CBD, [0x10FD]); (0x1CBE, [0x10FE]);
    (0x1CBF, [0x10FF]); (0x1E00, [0x1E01]); (0x1E02, [0x1E03]);
    (0x1E04, [0x1E05]); (0x1E06, [0x1E07]); (0x1E08, [0x1E09]);
    (0x1E0A, [0x1E0B]); (0x1E0C, [0x1E0D]); (0x1E0E, [0x1E0F]);
    (0x1E10, [0x1E11]); (0x1E12, [0x1E13]); (0x1E14, [0x1E15]);
    (0x1E16, [0x1E17]); (0x1E18, [0x1E19]); (0x1E1A, [0x1E1B]);
    (0x1E1C, [0x1E1D]); (0x1E1E, [0x1E1F]); (0x1E20, [0x1E21]);
    (0x1E22, [0x1E23]); (0x1E24, [0x1E25]); (0x1E26, [0x1E27]);
    (0x1E28, [0x1E29]); (0x1E2A, [0x1E2B]); (0x1E2C, [0x1E2D]);
    (0x1E2E, [0x1E2F]); (0x1E30, [0x1E31]); (0x1E32, [0x1E33]);
    (0x1E34, [0x1E35]); (0x1E36, [0x1E37]); (0x1E38, [0x1E39]);
    (0x1E3A, [0x1E3B]); (0x1E3C, [0x1E3D]); (0x1E3E, [0x1E3F]);
    (0x1E40, [0x1E41]); (0x1E42, [0x1E43]); (0x1E44, [0x1E45]);
    (0x1E46, [0x1E47]); (0x1E48, [0x1E49]); (0x1E4A, [0x1E4B]);
    (0x1E4C, [0x1E4D]); (0x1E4E, [0x1E4F]); (0x1E50, [0x1E51]);
    (0x1E52, [0x1E53]); (0x1E54, [0x1E55]); (0x1E56, [0x1E57]);
    (0x1E58, [0x1E59]); (0x1E5A, [0x1E5B]); (0x1E5C, [0x1E5D]);
    (0x1E5E, [0x1E5F]); (0x1E60, [0x1E61]); (0x1E62, [0x1E63]);
    (0x1E64, [0x1E65]); (0x1E66, [0x1E67]); (0x1E68, [0x1E69]);
    (0x1E6A, [0x1E6B]); (0x1E6C, [0x1E6D]); (0x1E6E, [0x1E6F]);
    (0x1E70, [0x1E71]); (0x1E72, [0x1E73]); (0x1E74, [0x1E75]);
    (0x1E76, [0x1E77]); (0x1E78, [0x1E79]); (0x1E7A, [0x1E7B]);
    (0x1E7C, [0x1E7D]); (0x1E7E, [0x1E7F]); (0x1E80, [0x1E81]);
    (0x1E82, [0x1E83]); (0x1E84, [0x1E85]); (0x1E86, [0x1E87]);
    (0x1E88, [0x1E89]); (0x1E8A, [0x1E8B]); (0x1E8C, [0x1E8D]);
    (0x1E8E, [0x1E8F]); (0x1E90, [0x1E91]); (0x1E92, [0x1E93]);
    (0x1E94, [0x1E95]); (0x1E9E, [0xDF]); (0x1EA0, [0x1EA1]);
    (0x1EA2, [0x1EA3]); (0x1EA4, [0x1EA5]); (0x1EA6, [0x1EA7]);
    (0x1EA8, [0x1EA9]); (0x1EAA, [0x1EAB]); (0x1EAC, [0x1EAD]);
    (0x1EAE, [0x1EAF]); (0x1EB0, [0x1EB1]); (0x1EB2, [0x1EB3]);
    (0x1EB4, [0x1EB5]); (0x1EB6, [0x1EB7]); (0x1EB8, [0x1EB9]);
    (0x1EBA, [0x1EBB]); (0x1EBC, [0x1EBD]); (0x1EBE, [0x1EBF]);
    (0x1EC0, [0x1EC1]); (0x1EC2, [0x1EC3]); (0x1EC4, [0x1EC5]);
    (0x1EC6, [0x1EC7]); (0x1EC8, [0x1EC9]); (0x1ECA, [0x1ECB]);
    (0x1ECC, [0x1ECD]); (0x1ECE, [0x1ECF]); (0x1ED0, [0x1ED1]);
    (0x1ED2, [0x1ED3]); (0x1ED4, [0x1ED5]); (0x1ED6, [0x1ED7]);
    (0x1ED8, [0x1ED9]); (0x1EDA, [0x1EDB]); (0x1EDC, [0x1EDD]);
    (0x1EDE, [0x1EDF]); (0x1EE0, [0x1EE1]); (0x1EE2, [0x1EE3]);
    (0x1EE4, [0x1EE5]); (0x1EE6, [0x1EE7]); (0x1EE8, [0x1EE9]);
    (0x1EEA, [0x1EEB]); (0x1EEC, [0x1EED]); (0x1EEE, [0x1EEF]);
    (0x1EF0, [0x1EF1]); (0x1EF2, [0x1EF3]); (0x1EF4, [0x1EF5]);
    (0x1EF6, [0x1EF7]); (0x1EF8, [0x1EF9]); (0x1EFA, [0x1EFB]);
    (0x1EFC, [0x1EFD]); (0x1EFE, [0x1EFF]); (0x1F08, [0x1F00]);
    (0x1F09, [0x1F01]); (0x1F0A, [0x1F02]); (0x1F0B, [0x1F03]);
    (0x1F0C, [0x1F04]); (0x1F0D, [0x1F05]); (0x1F0E, [0x1F06]);
    (0x1F0F, [0x1F07]); (0x1F18, [0x1F10]); (0x1F19, [0x1F11]);
    (0x1F1A, [0x1F12]); (0x1F1B, [0x1F13]); (0x1F1C, [0x1F14]);
    (0x1F1D, [0x1F15]); (0x1F28, [0x1F20]); (0x1F29, [0x1F21]);
    (0x1F2A, [0x1F22]); (0x1F2B, [0x1F23]); (0x1F2C, [0x1F24]);
    (0x1F2D, [0x1F25]); (0x1F2E, [0x1F26]); (0x1F2F, [0x1F27]);
    (0x1F38, [0x1F30]); (0x1F39, [0x1F31]); (0x1F3A, [0x1F32]);
    (0x1F3B, [0x1F33]); (0x1F3C, [0x1F34]); (0x1F3D, [0x1F35]);
    (0x1F3E, [0x1F36]); (0x1F3F, [0x1F37]); (0x1F48, [0x1F40]);
    (0x1F49, [0x1F41]); (0x1F4A, [0x1F42]); (0x1F4B, [0x1F43]);
    (0x1F4C, [0x1F44]); (0x1F4D, [0x1F45]); (0x1F59, [0x1F51]);
    (0x1F5B, [0x1F53]); (0x1F5D, [0x1F55]); (0x1F5F, [0x1F57]);
    (0x1F68, [0x1F60]); (0x1F69, [0x1F61]); (0x1F6A, [0x1F62]);
    (0x1F6B, [0x1F63]); (0x1F6C, [0x1F64]); (0x1F6D, [0x1F65]);
    (0x1F6E, [0x1F66]); (0x1F6F, [0x1F67]); (0x1F88, [0x1F80]);
    (0x1F89, [0x1F81]); (0x1F8A, [0x1F82]); (0x1F8B, [0x1F83]);
    (0x1F8C, [0x1F84]); (0x1F8D, [0x1F85]); (0x1F8E, [0x1F86]);
    (0x1F8F, [0x1F87]); (0x1F98, [0x1F90]); (0x1F99, [0x1F91]);
    (0x1F9A, [0x1F92]); (0x1F9B, [0x1F93]); (0x1F9C, [0x1F94]);
    (0x1F9D, [0x1F95]); (0x1F9E, [0x1F96]); (0x1F9F, [0x1F97]);
    (0x1FA8, [0x1FA0]); (0x1FA9, [0x1FA1]); (0x1FAA, [0x1FA2]);
    (0x1FAB, [0x1FA3]); (0x1FAC, [0x1FA4]); (0x1FAD, [0x1FA5]);
    (0x1FAE, [0x1FA6]); (0x1FAF, [0x1FA7]); (0x1FB8, [0x1FB0]);
    (0x1FB9, [0x1FB1]); (0x1FBA, [0x1F70]); (0x1FBB, [0x1F71]);
    (0x1FBC, [0x1FB3]); (0x1FC8, [0x1F72]); (0x1FC9, [0x1F73]);
    (0x1FCA, [0x1F74]); (0x1FCB, [0x1F75]); (0x1FCC, [0x1FC3]);
    (0x1FD8, [0x1FD0]); (0x1FD9, [0x1FD1]); (0x1FDA, [0x1F76]);
    (0x1FDB, [0x1F77]); (0x1FE8, [0x1FE0]); (0x1FE9, [0x1FE1]);
    (0x1FEA, [0x1F7A]); (0x1FEB, [0x1F7B]); (0x1FEC, [0x1FE5]);
    (0x1FF8, [0x1F78]); (0x1FF9, [0x1F79]); (0x1FFA, [0x1F7C]);
    (0x1FFB, [0x1F7D]); (0x1FFC, [0x1FF3]); (0x2126, [0x3C9]);
    (0x212A, [0x6B]); (0x212B, [0xE5]); (0x2132, [0x214E]);
    (0x2160, [0x2170]); (0x2161, [0x2171]); (0x2162, [0x2172]);
    (0x2163, [0x2173]); (0x2164, [0x2174]); (0x2165, [0x2175]);
    (0x2166, [0x2176]); (0x2167, [0x2177]); (0x2168, [0x2178]);
    (0x2169, [0x2179]); (0x216A, [0x217A]); (0x216B, [0x217B]);
    (0x216C, [0x217C]); (0x216D, [0x217D]); (0x216E, [0x217E]);
    (0x216F, [0x217F]); (0x2183, [0x2184]); (0x24B6, [0x24D0]);
    (0x24B7, [0x24D1]); (0x24B8, [0x24D2]); (0x24B9, [0x24D3]);
    (0x24BA, [0x24D4]); (0x24BB, [0x24D5]); (0x24BC, [0x24D6]);
    (0x24BD, [0x24D7]); (0x24BE, [0x24D8]); (0x24BF, [0x24D9]);
    (0x24C0, [0x24DA]); (0x24C1, [0x24DB]); (0x24C2, [0x24DC]);
    (0x24C3, [0x24DD]); (0x24C4, [0x24DE]); (0x24C5, [0x24DF]);
    (0x24C6, [0x24E0]); (0x24C7, [0x24E1]); (0x24C8, [0x24E2]);
    (0x24C9, [0x24E3]); (0x24CA, [0x24E4]); (0x24CB, [0x24E5]);
    (0x24CC, [0x24E6]); (0x24CD, [0x24E7]); (0x24CE, [0x24E8]);
    (0x24CF, [0x24E9]); (0x2C00, [0x2C30]); (0x2C01, [0x2C31]);
    (0x2C02, [0x2C32]); (0x2C03, [0x2C33]); (0x2C04, [0x2C34]);
    (0x2C05, [0x2C35]); (0x2C06, [0x2C36]); (0x2C07, [0x2C37]);
    (0x2C08, [0x2C38]); (0x2C09, [0x2C39]); (0x2C0A, [0x2C3A]);
    (0x2C0B, [0x2C3B]); (0x2C0C, [0x2C3C]); (0x2C0D, [0x2C3D]);
    (0x2C0E, [0x2C3E]); (0x2C0F, [0x2C3F]); (0x2C10, [0x2C40]);
    (0x2C11, [0x2C41]); (0x2C12, [0x2C42]); (0x2C13, [0x2C43]);
    (0x2C14, [0x2C44]); (0x2C15, [0x2C45]); (0x2C16, [0x2C46]);
    (0x2C17, [0x2C47]); (0x2C18, [0x2C48]); (0x2C19, [0x2C49]);
    (0x2C1A, [0x2C4A]); (0x2C1B, [0x2C4B]); (0x2C1C, [0x2C4C]);
    (0x2C1D, [0x2C4D]); (0x2C1E, [0x2C4E]); (0x2C1F, [0x2C4F]);
    (0x2C20, [0x2C50]); (0x2C21, [0x2C51]); (0x2C22, [0x2C52]);
    (0x2C23, [0x2C53]); (0x2C24, [0x2C54]); (0x2C25, [0x2C55]);
    (0x2C26, [0x2C56]); (0x2C27, [0x2C57]); (0x2C28, [0x2C58]);
    (0x2C29, [0x2C59]); (0x2C2A, [0x2C5A]); (0x2C2B, [0x2C5B]);
    (0x2C2C, [0x2C5C]); (0x2C2D, [0x2C5D]); (0x2C2E, [0x2C5E]);
    (0x2C2F, [0x2C5F]); (0x2C60, [0x2C61]); (0x2C62, [0x26B]);
    (0x2C63, [0x1D7D]); (0x2C64, [0x27D]); (0x2C67, [0x2C68]);
    (0x2C69, [0x2C6A]); (0x2C6B, [0x2C6C]); (0x2C6D, [0x251]);
    (0x2C6E, [0x271]); (0x2C6F, [0x250]); (0x2C70, [0x252]);
    (0x2C72, [0x2C73]); (0x2C75, [0x2C76]); (0x2C7E, [0x23F]);
    (0x2C7F, [0x240]); (0x2C80, [0x2C81]); (0x2C82, [0x2C83]);
    (0x2C84, [0x2C85]); (0x2C86, [0x2C87]); (0x2C88, [0x2C89]);
    (0x2C8A, [0x2C8B]); (0x2C8C, [0x2C8D]); (0x2C8E, [0x2C8F]);
    (0x2C90, [0x2C91]); (0x2C92, [0x2C93]); (0x2C94, [0x2C95]);
    (0x2C96, [0x2C97]); (0x2C98, [0x2C99]); (0x2C9A, [0x2C9B]);
    (0x2C9C, [0x2C9D]); (0x2C9E, [0x2C9F]); (0x2CA0, [0x2CA1]);
    (0x2CA2, [0x2CA3]); (0x2CA4, [0x2CA5]); (0x2CA6, [0x2CA7]);
    (0x2CA8, [0x2CA9]); (0x2CAA, [0x2CAB]); (0x2CAC, [0x2CAD]);
    (0x2CAE, [0x2CAF]); (0x2CB0, [0x2CB1]); (0x2CB2, [0x2CB3]);
    (0x2CB4, [0x2CB5]); (0x2CB6, [0x2CB7]); (0x2CB8, [0x2CB9]);
    (0x2CBA, [0x2CBB]); (0x2CBC, [0x2CBD]); (0x2CBE, [0x2CBF]);
    (0x2CC0, [0x2CC1]); (0x2CC2, [0x2CC3]); (0x2CC4, [0x2CC5]);
    (0x2CC6, [0x2CC7]); (0x2CC8, [0x2CC9]); (0x2CCA, [0x2CCB]);
    (0x2CCC, [0x2CCD]); (0x2CCE, [0x2CCF]); (0x2CD0, [0x2CD1]);
    (0x2CD2, [0x2CD3]); (0x2CD4, [0x2CD5]); (0x2CD6, [0x2CD7]);
    (0x2CD8, [0x2CD9]); (0x2CDA, [0x2CDB]); (0x2CDC, [0x2CDD]);
    (0x2CDE, [0x2CDF]); (0x2CE0, [0x2CE1]); (0x2CE2, [0x2CE3]);
    (0x2CEB, [0x2CEC]); (0x2CED, [0x2CEE]); (0x2CF2, [0x2CF3]);
    (0xA640, [0xA641]); (0xA642, [0xA643]); (0xA644, [0xA645]);
    (0xA646, [0xA647]); (0xA648, [0xA649]); (0xA64A, [0xA64B]);
    (0xA64C, [0xA64D]); (0xA64E, [0xA64F]); (0xA650, [0xA651]);
    (0xA652, [0xA653]); (0xA654, [0xA655]); (0xA656, [0xA657]);
    (0xA658, [0xA659]); (0xA65A, [0xA65B]); (0xA65C, [0xA65D]);
    (0xA65E, [0xA65F]); (0xA660, [0xA661]); (0xA662, [0xA663]);
    (0xA664, [0xA665]); (0xA666, [0xA667]); (0xA668, [0xA669]);
    (0xA66A, [0xA66B]); (0xA66C, [0xA66D]); (0xA680, [0xA681]);
    (0xA682, [0xA683]); (0xA684, [0xA685]); (0xA686, [0xA687]);
    (0xA688, [0xA689]); (0xA68A, [0xA68B]); (0xA68C, [0xA68D]);
    (0xA68E, [0xA68F]); (0xA690, [0xA691]); (0xA692, [0xA693]);
    (0xA694, [0xA695]); (0xA696, [0xA697]); (0xA698, [0xA699]);
    (0xA69A, [0xA69B]); (0xA722, [0xA723]); (0xA724, [0xA725]);
    (0xA726, [0xA727]); (0xA728, [0xA729]); (0xA72A, [0xA72B]);
    (0xA72C, [0xA72D]); (0xA72E, [0xA72F]); (0xA732, [0xA733]);
    (0xA734, [0xA735]); (0xA736, [0xA737]); (0xA738, [0xA739]);
    (0xA73A, [0xA73B]); (0xA73C, [0xA73D]); (0xA73E, [0xA73F]);
    (0xA740, [0xA741]); (0xA742, [0xA743]); (0xA744, [0xA745]);
    (0xA746, [0xA747]); (0xA748, [0xA749]); (0xA74A, [0xA74B]);
    (0xA74C, [0xA74D]); (0xA74E, [0xA74F]); (0xA750, [0xA751]);
    (0xA752, [0xA753]); (0xA754, [0xA755]); (0xA756, [0xA757]);
    (0xA758, [0xA759]); (0xA75A, [0xA75B]); (0xA75C, [0xA75D]);
    (0xA75E, [0xA75F]); (0xA760, [0xA761]); (0xA762, [0xA763]);
    (0xA764, [0xA765]); (0xA766, [0xA767]); (0xA768, [0xA769]);
    (0xA76A, [0xA76B]); (0xA76C, [0xA76D]); (0xA76E, [0xA76F]);
    (0xA779, [0xA77A]); (0xA77B, [0xA77C]); (0xA77D, [0x1D79]);
    (0xA77E, [0xA77F]); (0xA780, [0xA781]); (0xA782, [0xA783]);
    (0xA784, [0xA785]); (0xA786, [0xA787]); (0xA78B, [0xA78C]);
    (0xA78D, [0x265]); (0xA790, [0xA791]); (0xA792, [0xA793]);
    (0xA796, [0xA797]); (0xA798, [0xA799]); (0xA79A, [0xA79B]);
    (0xA79C, [0xA79D]); (0xA79E, [0xA79F]); (0xA7A0, [0xA7A1]);
    (0xA7A2, [0xA7A3]); (0xA7A4, [0xA7A5]); (0xA7A6, [0xA7A7]);
    (0xA7A8, [0xA7A9]); (0xA7AA, [0x266]); (0xA7AB, [0x25C]);
    (0xA7AC, [0x261]); (0xA7AD, [0x26C]); (0xA7AE, [0x26A]);
    (0xA7B0, [0x29E]); (0xA7B1, [0x287]); (0xA7B2, [0x29D]);
    (0xA7B3, [0xAB53]); (0xA7B4, [0xA7B5]); (0xA7B6, [0xA7B7]);
    (0xA7B8, [0xA7B9]); (0xA7BA, [0xA7BB]); (0xA7BC, [0xA7BD]);
    (0xA7BE, [0xA7BF]); (0xA7C0, [0xA7C1]); (0xA7C2, [0xA7C3]);
    (0xA7C4, [0xA794]); (0xA7C5, [0x282]); (0xA7C6, [0x1D8E]);
    (0xA7C7, [0xA7C8]); (0xA7C9, [0xA7CA]); (0xA7D0, [0xA7D1]);
    (0xA7D6, [0xA7D7]); (0xA7D8, [0xA7D9]); (0xA7F5, [0xA7F6]);
    (0xFF21, [0xFF41]); (0xFF22, [0xFF42]); (0xFF23, [0xFF43]);
    (0xFF24, [0xFF44]); (0xFF25, [0xFF45]); (0xFF26, [0xFF46]);
    (0xFF27, [0xFF47]); (0xFF28, [0xFF48]); (0xFF29, [0xFF49]);
    (0xFF2A, [0xFF4A]); (0xFF2B, [0xFF4B]); (0xFF2C, [0xFF4C]);
    (0xFF2D, [0xFF4D]); (0xFF2E, [0xFF4E]); (0xFF2F, [0xFF4F]);
    (0xFF30, [0xFF50]); (0xFF31, [0xFF51]); (0xFF32, [0xFF52]);
    (0xFF33, [0xFF53]); (0xFF34, [0xFF54]); (0xFF35, [0xFF55]);
    (0xFF36, [0xFF56]); (0xFF37, [0xFF57]); (0xFF38, [0xFF58]);
    (0xFF39, [0xFF59]); (0xFF3A, [0xFF5A]); (0x10400, [0x10428]);
    (0x10401, [0x10429]); (0x10402, [0x1042A]); (0x10403, [0x1042B]);
    (0x10404, [0x1042C]); (0x10405, [0x1042D]); (0x10406, [0x1042E]);
    (0x10407, [0x1042F]); (0x10408, [0x10430]); (0x10409, [0x10431]);
    (0x1040A, [0x10432]); (0x1040B, [0x10433]); (0x1040C, [0x10434]);
    (0x1040D, [0x10435]); (0x1040E, [0x10436]); (0x1040F, [0x10437]);
    (0x10410, [0x10438]); (0x10411, [0x10439]); (0x10412, [0x1043A]);
    (0x10413, [0x1043B]); (0x10414, [0x1043C]); (0x10415, [0x1043D]);
    (0x10416, [0x1043E]); (0x10417, [0x1043F]); (0x10418, [0x10440]);
    (0x10419, [0x10441]); (0x1041A, [0x10442]); (0x1041B, [0x10443]);
    (0x1041C, [0x10444]); (0x1041D, [0x10445]); (0x1041E, [0x10446]);
    (0x1041F, [0x10447]); (0x10420, [0x10448]); (0x10421, [0x10449]);
    (0x10422, [0x1044A]); (0x10423, [0x1044B]); (0x10424, [0x1044C]);
    (0x10425, [0x1044D]); (0x10426, [0x1044E]); (0x10427, [0x1044F]);
    (0x104B0, [0x104D8]); (0x104B1, [0x104D9]); (0x104B2, [0x104DA]);
    (0x104B3, [0x104DB]); (0x104B4, [0x104DC]); (0x104B5, [0x104DD]);
    (0x104B6, [0x104DE]); (0x104B7, [0x104DF]); (0x104B8, [0x104E0]);
    (0x104B9, [0x104E1]); (0x104BA, [0x104E2]); (0x104BB, [0x104E3]);
    (0x104BC, [0x104E4]); (0x104BD, [0x104E5]); (0x104BE, [0x104E6]);
    (0x104BF, [0x104E7]); (0x104C0, [0x104E8]); (0x104C1, [0x104E9]);
    (0x104C2, [0x104EA]); (0x104C3, [0x104EB]); (0x104C4, [0x104EC]);
    (0x104C5, [0x104ED]); (0x104C6, [0x104EE]); (0x104C7, [0x104EF]);
    (0x104C8, [0x104F0]); (0x104C9, [0x104F1]); (0x104CA, [0x104F2]);
    (0x104CB, [0x104F3]); (0x104CC, [0x104F4]); (0x104CD, [0x104F5]);
    (0x104CE, [0x104F6]); (0x104CF, [0x104F7]); (0x104D0, [0x104F8]);
    (0x104D1, [0x104F9]); (0x104D2, [0x104FA]); (0x104D3, [0x104FB]);
    (0x10570, [0x10597]); (0x10571, [0x10598]); (0x10572, [0x10599]);
    (0x10573, [0x1059A]); (0x10574, [0x1059B]); (0x10575, [0x1059C]);
    (0x10576, [0x1059D]); (0x10577, [0x1059E]); (0x10578, [0x1059F]);
    (0x10579, [0x105A0]); (0x1057A, [0x105A1]); (0x1057C, [0x105A3]);
    (0x1057D, [0x105A4]); (0x1057E, [0x105A5]); (0x1057F, [0x105A6]);
    (0x10580, [0x105A7]); (0x10581, [0x105A8]); (0x10582, [0x105A9]);
    (0x10583, [0x105AA]); (0x10584, [0x105AB]); (0x10585, [0x105AC]);
    (0x10586, [0x105AD]); (0x10587, [0x105AE]); (0x10588, [0x105AF]);
    (0x10589, [0x105B0]); (0x1058A, [0x105B1]); (0x1058C, [0x105B3]);
    (0x1058D, [0x105B4]); (0x1058E, [0x105B5]); (0x1058F, [0x105B6]);
    (0x10590, [0x105B7]); (0x10591, [0x105B8]); (0x10592, [0x105B9]);
    (0x10594, [0x105BB]); (0x10595, [0x105BC]); (0x10C80, [0x10CC0]);
    (0x10C81, [0x10CC1]); (0x10C82, [0x10CC2]); (0x10C83, [0x10CC3]);
    (0x10C84, [0x10CC4]); (0x10C85, [0x10CC5]); (0x10C86, [0x10CC6]);
    (0x10C87, [0x10CC7]); (0x10C88, [0x10CC8]); (0x10C89, [0x10CC9]);
    (0x10C8A, [0x10CCA]); (0x10C8B, [0x10CCB]); (0x10C8C, [0x10CCC]);
    (0x10C8D, [0x10CCD]); (0x10C8E, [0x10CCE]); (0x10C8F, [0x10CCF]);
    (0x10C90, [0x10CD0]); (0x10C91, [0x10CD1]); (0x10C92, [0x10CD2]);
    (0x10C93, [0x10CD3]); (0x10C94, [0x10CD4]); (0x10C95, [0x10CD5]);
    (0x10C96, [0x10CD6]); (0x10C97, [0x10CD7]); (0x10C98, [0x10CD8]);
    (0x10C99, [0x10CD9]); (0x10C9A, [0x10CDA]); (0x10C9B, [0x10CDB]);
    (0x10C9C, [0x10CDC]); (0x10C9D, [0x10CDD]); (0x10C9E, [0x10CDE]);
    (0x10C9F, [0x10CDF]); (0x10CA0, [0x10CE0]); (0x10CA1, [0x10CE1]);
    (0x10CA2, [0x10CE2]); (0x10CA3, [0x10CE3]); (0x10CA4, [0x10CE4]);
    (0x10CA5, [0x10CE5]); (0x10CA6, [0x10CE6]); (0x10CA7, [0x10CE7]);
    (0x10CA8, [0x10CE8]); (0x10CA9, [0x10CE9]); (0x10CAA, [0x10CEA]);
    (0x10CAB, [0x10CEB]); (0x10CAC, [0x10CEC]); (0x10CAD, [0x10CED]);
    (0x10CAE, [0x10CEE]); (0x10CAF, [0x10CEF]); (0x10CB0, [0x10CF0]);
    (0x10CB1, [0x10CF1]); (0x10CB2, [0x10CF2]); (0x118A0, [0x118C0]);
    (0x118A1, [0x118C1]); (0x118A2, [0x118C2]); (0x118A3, [0x118C3]);
    (0x118A4, [0x118C4]); (0x118A5, [0x118C5]); (0x118A6, [0x118C6]);
    (0x118A7, [0x118C7]); (0x118A8, [0x118C8]); (0x118A9, [0x118C9]);
    (0x118AA, [0x118CA]); (0x118AB, [0x118CB]); (0x118AC, [0x118CC]);
    (0x118AD, [0x118CD]); (0x118AE, [0x118CE]); (0x118AF, [0x118CF]);
    (0x118B0, [0x118D0]); (0x118B1, [0x118D1]); (0x118B2, [0x118D2]);
    (0x118B3, [0x118D3]); (0x118B4, [0x118D4]); (0x118B5, [0x118D5]);
    (0x118B6, [0x118D6]); (0x118B7, [0x118D7]); (0x118B8, [0x118D8]);
    (0x118B9, [0x118D9]); (0x118BA, [0x118DA]); (0x118BB, [0x118DB]);
    (0x118BC, [0x118DC]); (0x118BD, [0x118DD]); (0x118BE, [0x118DE]);
    (0x118BF, [0x118DF]); (0x16E40, [0x16E60]); (0x16E41, [0x16E61]);
    (0x16E42, [0x16E62]); (0x16E43, [0x16E63]); (0x16E44, [0x16E64]);
    (0x16E45, [0x16E65]); (0x16E46, [0x16E66]); (0x16E47, [0x16E67]);
    (0x16E48, [0x16E68]); (0x16E49, [0x16E69]); (0x16E4A, [0x16E6A]);
    (0x16E4B, [0x16E6B]); (0x16E4C, [0x16E6C]); (0x16E4D, [0x16E6D]);
    (0x16E4E, [0x16E6E]); (0x16E4F, [0x16E6F]); (0x16E50, [0x16E70]);
    (0x16E51, [0x16E71]); (0x16E52, [0x16E72]); (0x16E53, [0x16E73]);
    (0x16E54, [0x16E74]); (0x16E55, [0x16E75]); (0x16E56, [0x16E76]);
    (0x16E57, [0x16E77]); (0x16E58, [0x16E78]); (0x16E59, [0x16E79]);
    (0x16E5A, [0x16E7A]); (0x16E5B, [0x16E7B]); (0x16E5C, [0x16E7C]);
    (0x16E5D, [0x16E7D]); (0x16E5E, [0x16E7E]); (0x16E5F, [0x16E7F]);
    (0x1E900, [0x1E922]); (0x1E901, [0x1E923]); (0x1E902, [0x1E924]);
    (0x1E903, [0x1E925]); (0x1E904, [0x1E926]); (0x1E905, [0x1E927]);
    (0x1E906, [0x1E928]); (0x1E907, [0x1E929]); (0x1E908, [0x1E92A]);
    (0x1E909, [0x1E92B]); (0x1E90A, [0x1E92C]); (0x1E90B, [0x1E92D]);
    (0x1E90C, [0x1E92E]); (0x1E90D, [0x1E92F]); (0x1E90E, [0x1E930]);
    (0x1E90F, [0x1E931]); (0x1E910, [0x1E932]); (0x1E911, [0x1E933]);
    (0x1E912, [0x1E934]); (0x1E913, [0x1E935]); (0x1E914, [0x1E936]);
    (0x1E915, [0x1E937]); (0x1E916, [0x1E938]); (0x1E917, [0x1E939]);
    (0x1E918, [0x1E93A]); (0x1E919, [0x1E93B]); (0x1E91A, [0x1E93C]);
    (0x1E91B, [0x1E93D]); (0x1E91C, [0x1E93E]); (0x1E91D, [0x1E93F]);
    (0x1E91E, [0x1E940]); (0x1E91F, [0x1E941]); (0x1E920, [0x1E942]);
    (0x1E921, [0x1E943])
  ]%N.

Definition SPACE : list N :=
  [
    0x9; 0xA; 0xB; 0xC; 0xD; 0x1C; 0x1D; 0x1E; 0x1F; 0x20; 0x85; 0xA0;
    0x1680; 0x2000; 0x2001; 0x2002; 0x2003; 0x2004; 0x2005; 0x2006; 0x2007;
    0x2008; 0x2009; 0x200A; 0x2028; 0x2029; 0x202F; 0x205F; 0x3000
  ]%N.

Definition CASED : list (N * N) :=
  [
    (0x41, 0x5A); (0x61, 0x7A); (0xAA, 0xAA); (0xB5, 0xB5); (0xBA, 0xBA);
    (0xC0, 0xD6); (0xD8, 0xF6); (0xF8, 0x1BA); (0x1BC, 0x1BF);
    (0x1C4, 0x293); (0x295, 0x2B8); (0x2C0, 0x2C1); (0x2E0, 0x2E4);
    (0x345, 0x345); (0x370, 0x373); (0x376, 0x377); (0x37A, 0x37D);
    (0x37F, 0x37F); (0x386, 0x386); (0x388, 0x38A); (0x38C, 0x38C);
    (0x38E, 0x3A1); (0x3A3, 0x3F5); (0x3F7, 0x481); (0x48A, 0x52F);
    (0x531, 0x556); (0x560, 0x588); (0x10A0, 0x10C5); (0x10C7, 0x10C7);
    (0x10CD, 0x10CD); (0x10D0, 0x10FA); (0x10FD, 0x10FF); (0x13A0, 0x13F5);
    (0x13F8, 0x13FD); (0x1C80, 0x1C88); (0x1C90, 0x1CBA); (0x1CBD, 0x1CBF);
    (0x1D00, 0x1DBF); (0x1E00, 0x1F15); (0x1F18, 0x1F1D); (0x1F20, 0x1F45);
    (0x1F48, 0x1F4D); (0x1F50, 0x1F57); (0x1F59, 0x1F59); (0x1F5B, 0x1F5B);
    (0x1F5D, 0x1F5D); (0x1F5F, 0x1F7D); (0x1F80, 0x1FB4); (0x1FB6, 0x1FBC);
    (0x1FBE, 0x1FBE); (0x1FC2, 0x1FC4); (0x1FC6, 0x1FCC); (0x1FD0, 0x1FD3);
    (0x1FD6, 0x1FDB); (0x1FE0, 0x1FEC); (0x1FF2, 0x1FF4); (0x1FF6, 0x1FFC);
    (0x2071, 0x2071); (0x207F, 0x207F); (0x2090, 0x209C); (0x2102, 0x2102);
    (0x2107, 0x2107); (0x210A, 0x2113); (0x2115, 0x2115); (0x2119, 0x211D);
    (0x2124, 0x2124); (0x2126, 0x2126); (0x2128, 0x2128); (0x212A, 0x212D);
    (0x212F, 0x2134); (0x2139, 0x2139); (0x213C, 0x213F); (0x2145, 0x2149);
    (0x214E, 0x214E); (0x2160, 0x217F); (0x2183, 0x2184); (0x24B6, 0x24E9);
    (0x2C00, 0x2CE4); (0x2CEB, 0x2CEE); (0x2CF2, 0x2CF3); (0x2D00, 0x2D25);
    (0x2D27, 0x2D27); (0x2D2D, 0x2D2D); (0xA640, 0xA66D); (0xA680, 0xA69D);
    (0xA722, 0xA787); (0xA78B, 0xA78E); (0xA790, 0xA7CA); (0xA7D0, 0xA7D1);
    (0xA7D3, 0xA7D3); (0xA7D5, 0xA7D9); (0xA7F5, 0xA7F6); (0xA7F8, 0xA7FA);
    (0xAB30, 0xAB5A); (0xAB5C, 0xAB68); (0xAB70, 0xABBF); (0xFB00, 0xFB06);
    (0xFB13, 0xFB17); (0xFF21, 0xFF3A); (0xFF41, 0xFF5A);
    (0x10400, 0x1044F); (0x104B0, 0x104D3); (0x104D8, 0x104FB);
    (0x10570, 0x1057A); (0x1057C, 0x1058A); (0x1058C, 0x10592);
    (0x10594, 0x10595); (0x10597, 0x105A1); (0x105A3, 0x105B1);
    (0x105B3, 0x105B9); (0x105BB, 0x105BC); (0x10780, 0x10780);
    (0x10783, 0x10785); (0x10787, 0x107B0); (0x107B2, 0x107BA);
    (0x10C80, 0x10CB2); (0x10CC0, 0x10CF2); (0x118A0, 0x118DF);
    (0x16E40, 0x16E7F); (0x1D400, 0x1D454); (0x1D456, 0x1D49C);
    (0x1D49E, 0x1D49F); (0x1D4A2, 0x1D4A2); (0x1D4A5, 0x1D4A6);
    (0x1D4A9, 0x1D4AC); (0x1D4AE, 0x1D4B9); (0x1D4BB, 0x1D4BB);
    (0x1D4BD, 0x1D4C3); (0x1D4C5, 0x1D505); (0x1D507, 0x1D50A);
    (0x1D50D, 0x1D514); (0x1D516, 0x1D51C); (0x1D51E, 0x1D539);
    (0x1D53B, 0x1D53E); (0x1D540, 0x1D544); (0x1D546, 0x1D546);
    (0x1D54A, 0x1D550); (0x1D552, 0x1D6A5); (0x1D6A8, 0x1D6C0);
    (0x1D6C2, 0x1D6DA); (0x1D6DC, 0x1D6FA); (0x1D6FC, 0x1D714);
    (0x1D716, 0x1D734); (0x1D736, 0x1D74E); (0x1D750, 0x1D76E);
    (0x1D770, 0x1D788); (0x1D78A, 0x1D7A8); (0x1D7AA, 0x1D7C2);
    (0x1D7C4, 0x1D7CB); (0x1DF00, 0x1DF09); (0x1DF0B, 0x1DF1E);
    (0x1E900, 0x1E943); (0x1F130, 0x1F149); (0x1F150, 0x1F169);
    (0x1F170, 0x1F189)
  ]%N.

Definition CASE_IGNORABLE : list (N * N) :=
  [
    (0x27, 0x27); (0x2E, 0x2E); (0x3A, 0x3A); (0x5E, 0x5E); (0x60, 0x60);
    (0xA8, 0xA8); (0xAD, 0xAD); (0xAF, 0xAF); (0xB4, 0xB4); (0xB7, 0xB8);
    (0x2B0, 0x36F); (0x374, 0x375); (0x37A, 0x37A); (0x384, 0x385);
    (0x387, 0x387); (0x483, 0x489); (0x559, 0x559); (0x55F, 0x55F);
    (0x591, 0x5BD); (0x5BF, 0x5BF); (0x5C1, 0x5C2); (0x5C4, 0x5C5);
    (0x5C7, 0x5C7); (0x5F4, 0x5F4); (0x600, 0x605); (0x610, 0x61A);
    (0x61C, 0x61C); (0x640, 0x640); (0x64B, 0x65F); (0x670, 0x670);
    (0x6D6, 0x6DD); (0x6DF, 0x6E8); (0x6EA, 0x6ED); (0x70F, 0x70F);
    (0x711, 0x711); (0x730, 0x74A); (0x7A6, 0x7B0); (0x7EB, 0x7F5);
    (0x7FA, 0x7FA); (0x7FD, 0x7FD); (0x816, 0x82D); (0x859, 0x85B);
    (0x888, 0x888); (0x890, 0x891); (0x898, 0x89F); (0x8C9, 0x902);
    (0x93A, 0x93A); (0x93C, 0x93C); (0x941, 0x948); (0x94D, 0x94D);
    (0x951, 0x957); (0x962, 0x963); (0x971, 0x971); (0x981, 0x981);
    (0x9BC, 0x9BC); (0x9C1, 0x9C4); (0x9CD, 0x9CD); (0x9E2, 0x9E3);
    (0x9FE, 0x9FE); (0xA01, 0xA02); (0xA3C, 0xA3C); (0xA41, 0xA42);
    (0xA47, 0xA48); (0xA4B, 0xA4D); (0xA51, 0xA51); (0xA70, 0xA71);
    (0xA75, 0xA75); (0xA81, 0xA82); (0xABC, 0xABC); (0xAC1, 0xAC5);
    (0xAC7, 0xAC8); (0xACD, 0xACD); (0xAE2, 0xAE3); (0xAFA, 0xAFF);
    (0xB01, 0xB01); (0xB3C, 0xB3C); (0xB3F, 0xB3F); (0xB41, 0xB44);
    (0xB4D, 0xB4D); (0xB55, 0xB56); (0xB62, 0xB63); (0xB82, 0xB82);
    (0xBC0, 0xBC0); (0xBCD, 0xBCD); (0xC00, 0xC00); (0xC04, 0xC04);
    (0xC3C, 0xC3C); (0xC3E, 0xC40); (0xC46, 0xC48); (0xC4A, 0xC4D);
    (0xC55, 0xC56); (0xC62, 0xC63); (0xC81, 0xC81); (0xCBC, 0xCBC);
    (0xCBF, 0xCBF); (0xCC6, 0xCC6); (0xCCC, 0xCCD); (0xCE2, 0xCE3);
    (0xD00, 0xD01); (0xD3B, 0xD3C); (0xD41, 0xD44); (0xD4D, 0xD4D);
    (0xD62, 0xD63); (0xD81, 0xD81); (0xDCA, 0xDCA); (0xDD2, 0xDD4);
    (0xDD6, 0xDD6); (0xE31, 0xE31); (0xE34, 0xE3A); (0xE46, 0xE4E);
    (0xEB1, 0xEB1); (0xEB4, 0xEBC); (0xEC6, 0xEC6); (0xEC8, 0xECD);
    (0xF18, 0xF19); (0xF35, 0xF35); (0xF37, 0xF37); (0xF39, 0xF39);
    (0xF71, 0xF7E); (0xF80, 0xF84); (0xF86, 0xF87); (0xF8D, 0xF97);
    (0xF99, 0xFBC); (0xFC6, 0xFC6); (0x102D, 0x1030); (0x1032, 0x1037);
    (0x1039, 0x103A); (0x103D, 0x103E); (0x1058, 0x1059); (0x105E, 0x1060);
    (0x1071, 0x1074); (0x1082, 0x1082); (0x1085, 0x1086); (0x108D, 0x108D);
    (0x109D, 0x109D); (0x10FC, 0x10FC); (0x135D, 0x135F); (0x1712, 0x1714);
    (0x1732, 0x1733); (0x1752, 0x1753); (0x1772, 0x1773); (0x17B4, 0x17B5);
    (0x17B7, 0x17BD); (0x17C6, 0x17C6); (0x17C9, 0x17D3); (0x17D7, 0x17D7);
    (0x17DD, 0x17DD); (0x180B, 0x180F); (0x1843, 0x1843); (0x1885, 0x1886);
    (0x18A9, 0x18A9); (0x1920, 0x1922); (0x1927, 0x1928); (0x1932, 0x1932);
    (0x1939, 0x193B); (0x1A17, 0x1A18); (0x1A1B, 0x1A1B); (0x1A56, 0x1A56);
    (0x1A58, 0x1A5E); (0x1A60, 0x1A60); (0x1A62, 0x1A62); (0x1A65, 0x1A6C);
    (0x1A73, 0x1A7C); (0x1A7F, 0x1A7F); (0x1AA7, 0x1AA7); (0x1AB0, 0x1ACE);
    (0x1B00, 0x1B03); (0x1B34, 0x1B34); (0x1B36, 0x1B3A); (0x1B3C, 0x1B3C);
    (0x1B42, 0x1B42); (0x1B6B, 0x1B73); (0x1B80, 0x1B81); (0x1BA2, 0x1BA5);
    (0x1BA8, 0x1BA9); (0x1BAB, 0x1BAD); (0x1BE6, 0x1BE6); (0x1BE8, 0x1BE9);
    (0x1BED, 0x1BED); (0x1BEF, 0x1BF1); (0x1C2C, 0x1C33); (0x1C36, 0x1C37);
    (0x1C78, 0x1C7D); (0x1CD0, 0x1CD2); (0x1CD4, 0x1CE0); (0x1CE2, 0x1CE8);
    (0x1CED, 0x1CED); (0x1CF4, 0x1CF4); (0x1CF8, 0x1CF9); (0x1D2C, 0x1D6A);
    (0x1D78, 0x1D78); (0x1D9B, 0x1DFF); (0x1FBD, 0x1FBD); (0x1FBF, 0x1FC1);
    (0x1FCD, 0x1FCF); (0x1FDD, 0x1FDF); (0x1FED, 0x1FEF); (0x1FFD, 0x1FFE);
    (0x200B, 0x200F); (0x2018, 0x2019); (0x2024, 0x2024); (0x2027, 0x2027);
    (0x202A, 0x202E); (0x2060, 0x2064); (0x2066, 0x206F); (0x2071, 0x2071);
    (0x207F, 0x207F); (0x2090, 0x209C); (0x20D0, 0x20F0); (0x2C7C, 0x2C7D);
    (0x2CEF, 0x2CF1); (0x2D6F, 0x2D6F); (0x2D7F, 0x2D7F); (0x2DE0, 0x2DFF);
    (0x2E2F, 0x2E2F); (0x3005, 0x3005); (0x302A, 0x302D); (0x3031, 0x3035);
    (0x303B, 0x303B); (0x3099, 0x309E); (0x30FC, 0x30FE); (0xA015, 0xA015);
    (0xA4F8, 0xA4FD); (0xA60C, 0xA60C); (0xA66F, 0xA672); (0xA674, 0xA67D);
    (0xA67F, 0xA67F); (0xA69C, 0xA69F); (0xA6F0, 0xA6F1); (0xA700, 0xA721);
    (0xA770, 0xA770); (0xA788, 0xA78A); (0xA7F2, 0xA7F4); (0xA7F8, 0xA7F9);
    (0xA802, 0xA802); (0xA806, 0xA806); (0xA80B, 0xA80B); (0xA825, 0xA826);
    (0xA82C, 0xA82C); (0xA8C4, 0xA8C5); (0xA8E0, 0xA8F1); (0xA8FF, 0xA8FF);
    (0xA926, 0xA92D); (0xA947, 0xA951); (0xA980, 0xA982); (0xA9B3, 0xA9B3);
    (0xA9B6, 0xA9B9); (0xA9BC, 0xA9BD); (0xA9CF, 0xA9CF); (0xA9E5, 0xA9E6);
    (0xAA29, 0xAA2E); (0xAA31, 0xAA32); (0xAA35, 0xAA36); (0xAA43, 0xAA43);
    (0xAA4C, 0xAA4C); (0xAA70, 0xAA70); (0xAA7C, 0xAA7C); (0xAAB0, 0xAAB0);
    (0xAAB2, 0xAAB4); (0xAAB7, 0xAAB8); (0xAABE, 0xAABF); (0xAAC1, 0xAAC1);
    (0xAADD, 0xAADD); (0xAAEC, 0xAAED); (0xAAF3, 0xAAF4); (0xAAF6, 0xAAF6);
    (0xAB5B, 0xAB5F); (0xAB69, 0xAB6B); (0xABE5, 0xABE5); (0xABE8, 0xABE8);
    (0xABED, 0xABED); (0xFB1E, 0xFB1E); (0xFBB2, 0xFBC2); (0xFE00, 0xFE0F);
    (0xFE13, 0xFE13); (0xFE20, 0xFE2F); (0xFE52, 0xFE52); (0xFE55, 0xFE55);
    (0xFEFF, 0xFEFF); (0xFF07, 0xFF07); (0xFF0E, 0xFF0E); (0xFF1A, 0xFF1A);
    (0xFF3E, 0xFF3E); (0xFF40, 0xFF40); (0xFF70, 0xFF70); (0xFF9E, 0xFF9F);
    (0xFFE3, 0xFFE3); (0xFFF9, 0xFFFB); (0x101FD, 0x101FD);
    (0x102E0, 0x102E0); (0x10376, 0x1037A); (0x10780, 0x10785);
    (0x10787, 0x107B0); (0x107B2, 0x107BA); (0x10A01, 0x10A03);
    (0x10A05, 0x10A06); (0x10A0C, 0x10A0F); (0x10A38, 0x10A3A);
    (0x10A3F, 0x10A3F); (0x10AE5, 0x10AE6); (0x10D24, 0x10D27);
    (0x10EAB, 0x10EAC); (0x10F46, 0x10F50); (0x10F82, 0x10F85);
    (0x11001, 0x11001); (0x11038, 0x11046); (0x11070, 0x11070);
    (0x11073, 0x11074); (0x1107F, 0x11081); (0x110B3, 0x110B6);
    (0x110B9, 0x110BA); (0x110BD, 0x110BD); (0x110C2, 0x110C2);
    (0x110CD, 0x110CD); (0x11100, 0x11102); (0x11127, 0x1112B);
    (0x1112D, 0x11134); (0x11173, 0x11173); (0x11180, 0x11181);
    (0x111B6, 0x111BE); (0x111C9, 0x111CC); (0x111CF, 0x111CF);
    (0x1122F, 0x11231); (0x11234, 0x11234); (0x11236, 0x11237);
    (0x1123E, 0x1123E); (0x112DF, 0x112DF); (0x112E3, 0x112EA);
    (0x11300, 0x11301); (0x1133B, 0x1133C); (0x11340, 0x11340);
    (0x11366, 0x1136C); (0x11370, 0x11374); (0x11438, 0x1143F);
    (0x11442, 0x11444); (0x11446, 0x11446); (0x1145E, 0x1145E);
    (0x114B3, 0x114B8); (0x114BA, 0x114BA); (0x114BF, 0x114C0);
    (0x114C2, 0x114C3); (0x115B2, 0x115B5); (0x115BC, 0x115BD);
    (0x115BF, 0x115C0); (0x115DC, 0x115DD); (0x11633, 0x1163A);
    (0x1163D, 0x1163D); (0x1163F, 0x11640); (0x116AB, 0x116AB);
    (0x116AD, 0x116AD); (0x116B0, 0x116B5); (0x116B7, 0x116B7);
    (0x1171D, 0x1171F); (0x11722, 0x11725); (0x11727, 0x1172B);
    (0x1182F, 0x11837); (0x11839, 0x1183A); (0x1193B, 0x1193C);
    (0x1193E, 0x1193E); (0x11943, 0x11943); (0x119D4, 0x119D7);
    (0x119DA, 0x119DB); (0x119E0, 0x119E0); (0x11A01, 0x11A0A);
    (0x11A33, 0x11A38); (0x11A3B, 0x11A3E); (0x11A47, 0x11A47);
    (0x11A51, 0x11A56); (0x11A59, 0x11A5B); (0x11A8A, 0x11A96);
    (0x11A98, 0x11A99); (0x11C30, 0x11C36); (0x11C38, 0x11C3D);
    (0x11C3F, 0x11C3F); (0x11C92, 0x11CA7); (0x11CAA, 0x11CB0);
    (0x11CB2, 0x11CB3); (0x11CB5, 0x11CB6); (0x11D31, 0x11D36);
    (0x11D3A, 0x11D3A); (0x11D3C, 0x11D3D); (0x11D3F, 0x11D45);
    (0x11D47, 0x11D47); (0x11D90, 0x11D91); (0x11D95, 0x11D95);
    (0x11D97, 0x11D97); (0x11EF3, 0x11EF4); (0x13430, 0x13438);
    (0x16AF0, 0x16AF4); (0x16B30, 0x16B36); (0x16B40, 0x16B43);
    (0x16F4F, 0x16F4F); (0x16F8F, 0x16F9F); (0x16FE0, 0x16FE1);
    (0x16FE3, 0x16FE4); (0x1AFF0, 0x1AFF3); (0x1AFF5, 0x1AFFB);
    (0x1AFFD, 0x1AFFE); (0x1BC9D, 0x1BC9E); (0x1BCA0, 0x1BCA3);
    (0x1CF00, 0x1CF2D); (0x1CF30, 0x1CF46); (0x1D167, 0x1D169);
    (0x1D173, 0x1D182); (0x1D185, 0x1D18B); (0x1D1AA, 0x1D1AD);
    (0x1D242, 0x1D244); (0x1DA00, 0x1DA36); (0x1DA3B, 0x1DA6C);
    (0x1DA75, 0x1DA75); (0x1DA84, 0x1DA84); (0x1DA9B, 0x1DA9F);
    (0x1DAA1, 0x1DAAF); (0x1E000, 0x1E006); (0x1E008, 0x1E018);
    (0x1E01B, 0x1E021); (0x1E023, 0x1E024); (0x1E026, 0x1E02A);
    (0x1E130, 0x1E13D); (0x1E2AE, 0x1E2AE); (0x1E2EC, 0x1E2EF);
    (0x1E8D0, 0x1E8D6); (0x1E944, 0x1E94B); (0x1F3FB, 0x1F3FF);
    (0xE0001, 0xE0001); (0xE0020, 0xE007F); (0xE0100, 0xE01EF)
  ]%N.

Definition in_ranges (c : N) (rs : list (N * N)) : bool :=
  existsb (λ r : N * N, (r.1 <=? c) && (c <=? r.2))%N rs.

Definition isspace (c : N) : bool := existsb (N.eqb c) SPACE.

Definition cased (c : N) : bool := in_ranges c CASED.

Definition case_ignorable (c : N) : bool := in_ranges c CASE_IGNORABLE.

Fixpoint lookup_lower (c : N) (table : list (N * list N))
    : option (list N) :=
  match table with
  | [] => None
  | (k, out) :: rest => if (c =? k)%N then Some out else lookup_lower c rest
  end.

(** [_PyUnicode_ToLowerFull] *)
Definition to_lower_full (c : N) : list N :=
  default [c] (lookup_lower c LOWER).

Fixpoint skip_ignorable (s : str) : str :=
  match s with
  | [] => []
  | c :: r => if case_ignorable c then skip_ignorable r else s
  end.

(** [handle_capital_sigma]: the final form when the sigma follows a cased
    letter and no cased letter follows it, case-ignorable characters set
    aside on both sides.  [before] is the text to the left, nearest
    character first. *)
Definition final_sigma (before after : str) : bool :=
  match skip_ignorable before with
  | [] => false
  | c :: _ =>
      cased c &&
      match skip_ignorable after with
      | [] => true
      | d :: _ => negb (cased d)
      end
  end.

Definition handle_capital_sigma (before after : str) : N :=
  if final_sigma before after then 0x3C2%N else 0x3C3%N.

Fixpoint lower_from (before s : str) : str :=
  match s with
  | [] => []
  | c :: r =>
      (if (c =? 0x3A3)%N then [handle_capital_sigma before r]
       else to_lower_full c)
      ++ lower_from (c :: before) r
  end.

(** [s.lower()] *)
Definition lower (s : str) : str := lower_from [] s.

Definition normalize (text : option str) : str :=
  Normalizer.normalize_chars isspace 0x20%N lower (default [] text).

(** A [string] read as code points. *)
Definition codes (s : string) : str :=
  N_of_ascii <$> list_ascii_of_string s.

(** The code points that [lower] leaves alone wherever they stand. *)
Definition stable (c : N) : bool :=
  negb (c =? 0x3A3)%N &&
  match lookup_lower c LOWER with None => true | Some _ => false end.

End Unicode.

(** * Configuration *)

Definition SEARCH_QUERIES : list string :=
  [ "buying beats"; "paying for beats"; "buying instrumentals";
    "need beats for video"; "looking for trap beats";
    "need hip hop instrumental"; "commission a beat";
    "custom trap instrumental"; "exclusive rights beat"; "budget for beats";
    "sync licensing hip hop"; "hip hop placement brief";
    "cinematic hip hop placement"; "music supervisor hip hop";
    "looking for hip hop instrumental"; "looking for trap instrumental";
    "need cinematic instrumental" ].

Definition SYNC_RSS_FEEDS : list string :=
  [ "https://news.google.com/rss/search?q=sync+licensing+hip+hop";
    "https://news.google.com/rss/search?q=sync+licensing+trap";
    "https://news.google.com/rss/search?q=music+licensing+hip+hop";
    "https://news.google.com/rss/search?q=placement+opportunity+hip+hop";
    "https://news.google.com/rss/search?q=sync+brief+hip+hop";
    "https://news.google.com/rss/search?q=cinematic+hip+hop+placement";
    "https://news.google.com/rss/search?q=music+supervisor+looking+for+music+hip+hop";
    "https://news.google.com/rss/search?q=call+for+submissions+hip+hop+instrumental";
    "https://news.google.com/rss/search?q=music+wanted+hip+hop+instrumental" ].

(** * Data *)

(** The dict built by both pipelines. *)
Record Lead := {
  timestamp : string;
  source : string;
  who : string;
  title : string;
  url : string;
  tags : string }.

(** [it.get("data", {})] of one search result.  The listing gives strings
    under these keys; a key that is missing or [null] is [None]. *)
Record RawPost := {
  post_title : option string;
  post_author : option string;
  post_permalink : option string;
  post_url : option string }.

(** What [requests.get] followed by [r.json()] gives for one query: the
    request or the decoding raises; or there is a response with its status
    and the children of its listing; or the status is 200 and the listing
    holds, after the children given, one on which the body of the loop
    raises (a child that is no object, a title that is no string).  What
    follows such a child is never looked at. *)
Inductive RedditReply :=
  | RequestRaised
  | Response (status_code : Z) (children : list RawPost)
  | ResponseBroken (children : list RawPost).

Record FeedEntry := {
  entry_title : option string;
  entry_link : option string }.

(** What [feedparser.parse] gives: [feed.feed.title] when the feed declares
    one, and [feed.entries] up to the first entry, if any, on which the body
    of the loop raises; [entries_raise] tells that there is such an entry. *)
Record Feed := {
  feed_title : option string;
  entries : list FeedEntry;
  entries_raise : bool }.

Definition row := list string.
Definition worksheet := list row.

(** The message handed to the SMTP server: the total of the subject line,
    the [k: v] pairs of the totals line (none when the line reads [0]) and
    the rows of the attached CSV. *)
Record Email := {
  mail_total : nat;
  mail_totals : list (string * nat);
  mail_csv : list row }.

(** Lines written to standard output. *)
Inductive Log :=
  | WarnRedditStatus (q : string) (code : Z)
  | ErrReddit (q : string)
  | WarnRss (feed_url : string)
  | Added (n : nat)
  | NoNewLeads
  | NoNewRows
  | Emailed (n : nat).

(** The part of the outside world a run reads from. *)
Record Env := {
  clock : nat → string;
  reddit : string → RedditReply;
  feeds : string → option Feed;
  smtp_ok : bool }.

(** The part a run changes.  [sheet] is the first worksheet of the
    spreadsheet, [None] while the spreadsheet does not exist. *)
Record World := {
  sheet : option worksheet;
  outbox : list Email;
  ticks : nat;
  stdout : list Log }.

(** * A state monad over [World] *)

Definition M (A : Type) : Type := World → A * World.

#[global] Instance M_ret : MRet M := λ A a w, (a, w).
#[global] Instance M_bind : MBind M :=
  λ A B f m w, let (a, w') := m w in f a w'.

Definition print (l : Log) : M unit :=
  λ w, (tt, {| sheet := sheet w; outbox := outbox w; ticks := ticks w;
               stdout := stdout w ++ [l] |}).

(** The effect on the world of one
    [datetime.now(timezone.utc).strftime(...)]; its value is
    [clock env (ticks w)]. *)
Definition tick (w : World) : World :=
  {| sheet := sheet w; outbox := outbox w; ticks := S (ticks w);
     stdout := stdout w |}.

Definition read_sheet : M (option worksheet) := λ w, (sheet w, w).

Definition write_sheet (ws : worksheet) : M unit :=
  λ w, (tt, {| sheet := Some ws; outbox := outbox w; ticks := ticks w;
               stdout := stdout w |}).

Definition send_message (m : Email) : M unit :=
  λ w, (tt, {| sheet := sheet w; outbox := outbox w ++ [m];
               ticks := ticks w; stdout := stdout w |}).

(** [for x in xs: body] where the body threads an accumulator. *)
Fixpoint for_each {A B} (xs : list A) (body : B → A → M B) (acc : B) : M B :=
  match xs with
  | [] => mret acc
  | x :: xs' => acc' ← body acc x; for_each xs' body acc'
  end.

(** * Google Sheets *)

Definition header : row :=
  [ "Timestamp"; "Source"; "From/Author"; "Title"; "URL"; "Tags" ].

(** gspread's [fill_gaps]: every row is padded on the right with empty
    cells to the length of the longest. *)
Definition rightpad (n : nat) (r : row) : row :=
  r ++ replicate (n - length r) "".

Definition fill_gaps (rows : list row) : list row :=
  rightpad (max_list (length <$> rows)) <$> rows.

(** [ws.get_all_values()], [ws.clear()], [ws.append_row], [ws.append_rows]
    on the worksheet that exists.  The worksheet holds each row up to its
    last cell that is not empty; reading pads the rows. *)
Definition get_all_values : M (list row) :=
  ws ← read_sheet; mret (fill_gaps (default [] ws)).

Definition ws_clear : M unit := write_sheet [].

Definition append_rows (rows : list row) : M unit :=
  ws ← read_sheet; write_sheet (default [] ws ++ rows).

Definition append_row (r : row) : M unit := append_rows [r].

(** [values[0] != header], for [values] that is not empty. *)
Definition first_row_differs (values : list row) : bool :=
  match values with
  | [] => true
  | v0 :: _ => negb (bool_decide (v0 = header))
  end.

Definition get_sheet : M unit :=
  found ← read_sheet;
  (* client.open, or client.create on SpreadsheetNotFound *)
  _ ← (if found is Some _ then mret tt else write_sheet []);
  values ← get_all_values;
  if bool_decide (values = []) || first_row_differs values then
    _ ← (if bool_decide (values = []) then mret tt else ws_clear);
    append_row header
  else mret tt.

Definition existing_urls : M (gset string) :=
  values ← get_all_values;
  mret (foldl
          (λ (urls : gset string) (r : row),
             if bool_decide (5 ≤ length r) && truthy (default "" (r !! 4))
             then urls ∪ {[ default "" (r !! 4) ]}
             else urls)
          ∅ (tail values)).

(** * Reddit (public search) *)

(** The body of the loop over [items], up to the [leads.append]: the lead
    that the record yields when the clock reads [stamp], or [None] where the
    loop takes a [continue]. *)
Definition reddit_lead (stamp q : string) (d : RawPost) : option Lead :=
  let title_ := or_default (post_title d) "" in
  let tl := normalize (Some title_) in
  if negb (truthy title_) || is_noise tl || negb (looks_like_buyer tl)
  then None
  else
    let author := or_default (post_author d) "unknown" in
    let permalink := or_default (post_permalink d) "" in
    let url_ :=
      if truthy permalink then "https://www.reddit.com" +:+ permalink
      else or_default (post_url d) "" in
    if negb (truthy url_) then None
    else Some {| timestamp := stamp; source := "Reddit";
                 who := "u/" +:+ author; title := title_; url := url_;
                 tags := "reddit; " +:+ q |}.

(** One turn of the loop over [items]; the clock is read only when a lead
    is appended. *)
Definition reddit_item (env : Env) (q : string)
    (leads : list Lead) (d : RawPost) : M (list Lead) :=
  λ w,
    match reddit_lead (clock env (ticks w)) q d with
    | None => (leads, w)
    | Some l => (leads ++ [l], tick w)
    end.

(** One turn of the loop over [SEARCH_QUERIES]. *)
Definition reddit_query (env : Env)
    (leads : list Lead) (q : string) : M (list Lead) :=
  match reddit env q with
  | RequestRaised => _ ← print (ErrReddit q); mret leads
  | Response code items =>
      if bool_decide (code ≠ 200%Z)
      then _ ← print (WarnRedditStatus q code); mret leads
      else for_each items (reddit_item env q) leads
  | ResponseBroken items =>
      leads' ← for_each items (reddit_item env q) leads;
      _ ← print (ErrReddit q);
      mret leads'
  end.

Definition search_reddit (env : Env) : M (list Lead) :=
  for_each SEARCH_QUERIES (reddit_query env) [].

(** * Sync / licensing via RSS *)

Definition rss_lead (stamp source_ : string) (entry : FeedEntry)
    : option Lead :=
  let title_ := or_default (entry_title entry) "" in
  let link := or_default (entry_link entry) "" in
  if negb (truthy link) then None
  else
    let tl := normalize (Some title_) in
    if is_noise tl then None
    else if negb (rss_accepts tl) then None
    else Some {| timestamp := stamp; source := source_; who := source_;
                 title := title_; url := link; tags := "sync; rss" |}.

Definition rss_entry (env : Env) (source_ : string)
    (out : list Lead) (entry : FeedEntry) : M (list Lead) :=
  λ w,
    match rss_lead (clock env (ticks w)) source_ entry with
    | None => (out, w)
    | Some l => (out ++ [l], tick w)
    end.

Definition rss_feed (env : Env)
    (out : list Lead) (feed_url : string) : M (list Lead) :=
  match feeds env feed_url with
  | None => _ ← print (WarnRss feed_url); mret out
  | Some feed =>
      let source_ := default "Sync RSS" (feed_title feed) in
      out' ← for_each (entries feed) (rss_entry env source_) out;
      if entries_raise feed
      then _ ← print (WarnRss feed_url); mret out'
      else mret out'
  end.

Definition search_sync_rss (env : Env) : M (list Lead) :=
  for_each SYNC_RSS_FEEDS (rss_feed env) [].

(** * Email sender *)

(** [sum(summary_counts.values())] *)
Definition sum_values (counts : list (string * nat)) : nat :=
  foldr (λ kv acc, kv.2 + acc) 0 counts.

(** [datetime.now(timezone.utc).strftime(...)] *)
Definition now (env : Env) : M string :=
  λ w, (clock env (ticks w), tick w).

(** Returns [false] when sending raises.  [now_str] goes into the subject
    line, of which the message record keeps the total. *)
Definition email_csv (env : Env) (new_rows : list row)
    (summary_counts : list (string * nat)) : M bool :=
  if bool_decide (new_rows = []) then
    _ ← print NoNewRows; mret true
  else
    now_str ← now env;
    let total := sum_values summary_counts in
    let shown :=
      if bool_decide (total ≠ 0)
      then filter (λ kv, kv.2 ≠ 0) summary_counts else [] in
    let msg := {| mail_total := total; mail_totals := shown;
                  mail_csv := header :: new_rows |} in
    if smtp_ok env then
      _ ← send_message msg; _ ← print (Emailed total); mret true
    else mret false.

(** * Main run *)

(** [# Deduplicate against sheet] *)
Definition dedup_step (st : list Lead * gset string) (lead : Lead)
    : list Lead * gset string :=
  let (new_items, seen) := st in
  if bool_decide (url lead ∈ seen) then (new_items, seen)
  else (new_items ++ [lead], seen ∪ {[ url lead ]}).

Definition dedup (seen : gset string) (leads : list Lead)
    : list Lead * gset string :=
  foldl dedup_step ([], seen) leads.

Definition row_of (l : Lead) : row :=
  [ timestamp l; source l; who l; title l; url l; tags l ].

(** [counts = {"Reddit": ..., "Sync RSS": ...}], in insertion order.  [r[1]]
    is the second cell; the rows of [run_once] come from [row_of] and have
    all six. *)
Definition summary (new_rows : list row) : list (string * nat) :=
  [ ("Reddit", length (filter (λ r : row, r !! 1 = Some "Reddit") new_rows));
    ("Sync RSS",
      length (filter (λ r : row, r !! 1 ≠ Some "Reddit") new_rows)) ].

(** The first half of [run_once]: everything up to the deduplicated list. *)
Definition gather (env : Env) : M (list Lead) :=
  _ ← get_sheet;
  seen ← existing_urls;
  reddit_leads ← search_reddit env;
  rss_leads ← search_sync_rss env;
  mret (dedup seen (reddit_leads ++ rss_leads)).1.

(** [# Write to sheet] *)
Definition persist (new_rows : list row) : M unit :=
  if bool_decide (new_rows = []) then print NoNewLeads
  else (_ ← append_rows new_rows; print (Added (length new_rows))).

(** The second half: [# Write to sheet] and [# Email summary]. *)
Definition deliver (env : Env) (new_items : list Lead) : M bool :=
  let new_rows := row_of <$> new_items in
  _ ← persist new_rows;
  email_csv env new_rows (summary new_rows).

Definition run_once (env : Env) : M bool :=
  new_items ← gather env; deliver env new_items.

(** * Vocabulary of the statements *)

(** The contract of the deduplicator as the specification words it: the
    candidates, in order, whose url is not in [seen] and has not occurred
    earlier in the list. *)
Definition first_occurrences (seen : gset string) (leads : list Lead)
    : list Lead :=
  snd <$>
    filter (λ il : nat * Lead,
              (url il.2 ∉ seen) ∧ (url il.2 ∉ url <$> take il.1 leads))
           (imap pair leads).

(** A lead whose title is free of seller noise. *)
Definition clean (l : Lead) : Prop :=
  is_noise (normalize (Some (title l))) = false.

(** Inputs on which the statements are exercised. *)
Module Fixtures.

Definition post (title_ permalink url_ : string) : RawPost :=
  {| post_title := Some title_; post_author := None;
     post_permalink := Some permalink; post_url := Some url_ |}.

Definition lead_at (u : string) : Lead :=
  {| timestamp := "2026-01-01 00:00:00 UTC"; source := "Reddit";
     who := "u/unknown"; title := "need trap beats"; url := u;
     tags := "reddit; buying beats" |}.

Definition buyer_title : string :=
  "Looking for trap instrumental, budget $200 for sync placement".

Definition seller_title : string := "Check my new beat pack free beats".

(** Nothing answers: every request raises. *)
Definition offline : Env :=
  {| clock := λ _, "2026-01-01 00:00:00 UTC";
     reddit := λ _, RequestRaised;
     feeds := λ _, None;
     smtp_ok := false |}.

(** The first query returns one buyer and one seller; one feed has an
    accepted entry. *)
Definition online : Env :=
  {| clock := λ _, "2026-01-01 00:00:00 UTC";
     reddit := λ q,
       if bool_decide (q = "buying beats")
       then Response 200 [ post buyer_title "/r/x/1" "";
                           post seller_title "/r/x/2" "" ]
       else Response 429 [];
     feeds := λ u,
       if bool_decide
            (u = "https://news.google.com/rss/search?q=sync+licensing+trap")
       then Some {| feed_title := Some "Sync News";
                    entries := [ {| entry_title := Some "Sync brief: trap cues";
                                    entry_link := Some "https://x/1" |} ];
                    entries_raise := false |}
       else None;
     smtp_ok := true |}.

Definition no_spreadsheet : World :=
  {| sheet := None; outbox := []; ticks := 0; stdout := [] |}.

Definition stale_sheet : World :=
  {| sheet := Some [ ["Date"; "Link"]; ["2025-12-31"; "https://x/0"] ];
     outbox := []; ticks := 0; stdout := [] |}.

End Fixtures.

(** Some term of the lexicon occurs in the text. *)
Definition matches (terms : list string) (text : string) : Prop :=
  ∃ t, t ∈ terms ∧ Substring t text.

(** * Vocabulary of the further properties *)

(** Each lexicon without the terms that contain another of its terms. *)
Definition INTENT_CORE : list string :=
  [ "buy"; "purchase"; "pay"; "budget"; "usd"; "$"; "need"; "looking for";
    "seeking"; "request"; "commission"; "hire"; "hiring"; "brief";
    "placement"; "sync"; "licensing"; "supervisor"; "exclusive rights";
    "non-exclusive"; "nonexclusive"; "custom" ].

Definition ASSET_CORE : list string :=
  [ "beat"; "instrumental"; "track"; "music"; "cue"; "score" ].

Definition GENRE_CORE : list string :=
  [ "hip hop"; "hip-hop"; "rap"; "drill"; "boom bap"; "cinematic";
    "orchestral"; "dark"; "epic" ].

Definition USE_CASE_CORE : list string :=
  [ "for video"; "for film"; "for movie"; "for short film"; "for youtube";
    "for tiktok"; "for ad"; "for trailer"; "for commercial"; "for podcast";
    "for game"; "for tv" ].

Definition NEGATIVE_CORE : list string :=
  [ "check my beat"; "my new beat"; "free beats"; "i sell beats";
    "selling beats"; "beat store"; "beatstars.com"; "airbit.com";
    "beat pack"; "prod by"; "producer tag"; "stream my beat" ].

(** Every term of [xs] contains a term of [ys]. *)
Definition covered_by (xs ys : list string) : bool :=
  forallb (λ t, contains_any t ys) xs.

(** A lead with its timestamp erased. *)
Definition untimed (l : Lead) : Lead :=
  {| timestamp := ""; source := source l; who := who l; title := title l;
     url := url l; tags := tags l |}.

(** The leads one query stands for. *)
Definition reddit_query_candidates (env : Env) (q : string) : list Lead :=
  match reddit env q with
  | RequestRaised => []
  | Response code items =>
      if bool_decide (code = 200%Z)
      then flat_map (λ d, option_list (reddit_lead "" q d)) items
      else []
  | ResponseBroken items =>
      flat_map (λ d, option_list (reddit_lead "" q d)) items
  end.

(** The leads the search endpoint stands for: those of each query, in the
    order of the queries. *)
Definition reddit_candidates (env : Env) : list Lead :=
  flat_map (reddit_query_candidates env) SEARCH_QUERIES.

Definition rss_feed_candidates (env : Env) (feed_url : string) : list Lead :=
  match feeds env feed_url with
  | None => []
  | Some feed =>
      flat_map
        (λ e, option_list
                (rss_lead "" (default "Sync RSS" (feed_title feed)) e))
        (entries feed)
  end.

Definition rss_candidates (env : Env) : list Lead :=
  flat_map (rss_feed_candidates env) SYNC_RSS_FEEDS.

(** What every lead of [search_reddit] looks like. *)
Definition reddit_shaped (l : Lead) : Prop :=
  source l = "Reddit" ∧
  (∃ author, author ≠ "" ∧ who l = "u/" +:+ author) ∧
  (∃ q, q ∈ SEARCH_QUERIES ∧ tags l = "reddit; " +:+ q) ∧
  title l ≠ "" ∧
  url l ≠ "" ∧
  is_noise (normalize (Some (title l))) = false ∧
  looks_like_buyer (normalize (Some (title l))) = true.

(** What every lead of [search_sync_rss] looks like. *)
Definition rss_shaped (env : Env) (l : Lead) : Prop :=
  (∃ feed_url feed,
     feed_url ∈ SYNC_RSS_FEEDS ∧ feeds env feed_url = Some feed ∧
     source l = default "Sync RSS" (feed_title feed)) ∧
  who l = source l ∧
  tags l = "sync; rss" ∧
  url l ≠ "" ∧
  is_noise (normalize (Some (title l))) = false ∧
  rss_accepts (normalize (Some (title l))) = true.

(** The leads carry the clock readings from the [t0]-th on, one each, and
    the clock of [w] has advanced by as many. *)
Definition stamped (env : Env) (t0 : nat) (leads : list Lead) (w : World)
    : Prop :=
  timestamp <$> leads = clock env <$> seq t0 (length leads) ∧
  ticks w = t0 + length leads.

(** The urls the ledger holds: the fifth cells, when present and not empty,
    of the rows under the first. *)
Definition url_cells (ws : worksheet) : list string :=
  filter (λ u, u ≠ "") (omap (λ r : row, r !! 4) (tail ws)).

(** The rows of the worksheet, none while there is no spreadsheet. *)
Definition rows_of (w : World) : worksheet := default [] (sheet w).

Definition chars (s : string) : list ascii := list_ascii_of_string s.

(** Further inputs. *)
Module MoreFixtures.

Definition ledger : World :=
  {| sheet := Some [ header;
                     [ "2025-12-31 10:00:00 UTC"; "Reddit"; "u/a"; "need beats";
                       "https://www.reddit.com/r/x/0"; "reddit; buying beats" ];
                     [ "note" ] ];
     outbox := []; ticks := 7; stdout := [] |}.

(** As [Fixtures.online], with the mail server down. *)
Definition no_mail : Env :=
  {| clock := clock Fixtures.online; reddit := reddit Fixtures.online;
     feeds := feeds Fixtures.online; smtp_ok := false |}.

(** A ledger whose second row has a seventh cell. *)
Definition wide_ledger : World :=
  {| sheet := Some [ header;
                     [ "2025-12-31 10:00:00 UTC"; "Reddit"; "u/a"; "need beats";
                       "https://www.reddit.com/r/x/0"; "reddit; buying beats";
                       "called back" ] ];
     outbox := []; ticks := 0; stdout := [] |}.

(** The first query's listing breaks after a buyer post; the second
    returns another buyer post. *)
Definition patchy : Env :=
  {| clock := λ _, "2026-01-01 00:00:00 UTC";
     reddit := λ q,
       if bool_decide (q = "buying beats")
       then ResponseBroken [ Fixtures.post Fixtures.buyer_title "/r/x/1" "" ]
       else if bool_decide (q = "paying for beats")
       then Response 200 [ Fixtures.post Fixtures.buyer_title "/r/x/3" "" ]
       else RequestRaised;
     feeds := λ _, None;
     smtp_ok := true |}.

End MoreFixtures.

(** * Proofs *)

(** ** Substring search is correct *)

Section Substring_facts.

Lemma append_cons a (s r : string) : String a s +:+ r = String a (s +:+ r).
Proof. reflexivity. Qed.

Lemma startswith_spec t s :
  startswith t s = true ↔ ∃ r, s = t +:+ r.
Proof.
  revert s. induction t as [|a t IH]; intros s; simpl.
  - split; [intros _; by exists s | done].
  - destruct s as [|b s].
    + split; [done | intros [r Hr]; discriminate].
    + setoid_rewrite append_cons.
      destruct (Ascii.eqb_spec a b) as [->|Hne].
      * rewrite IH. split; intros [r Hr]; exists r; congruence.
      * split; [done | intros [r Hr]; congruence].
Qed.

Lemma str_in_spec t s : str_in t s = true ↔ Substring t s.
Proof.
  unfold Substring. induction s as [|b s IH].
  - simpl. rewrite orb_false_r, startswith_spec. split.
    + intros [r Hr]. by exists EmptyString, r.
    + intros [l [r Hr]]. destruct l; [by exists r | discriminate].
  - cbn [str_in]. rewrite orb_true_iff, startswith_spec, IH. split.
    + intros [[r Hr] | [l [r Hr]]].
      * by exists EmptyString, r.
      * exists (String b l), r. by rewrite append_cons, Hr.
    + intros [l [r Hr]]. destruct l as [|c l].
      * left. by exists r.
      * right. exists l, r. rewrite append_cons in Hr. congruence.
Qed.

Lemma str_in_false t s : str_in t s = false ↔ ¬ Substring t s.
Proof.
  rewrite <- str_in_spec. by destruct (str_in t s).
Qed.

Lemma contains_any_spec text terms :
  contains_any text terms = true ↔ matches terms text.
Proof.
  unfold contains_any, matches. rewrite existsb_exists.
  split; intros [t [Hin Ht]]; exists t.
  - by rewrite list_elem_of_In, <- str_in_spec.
  - by rewrite <- list_elem_of_In, str_in_spec.
Qed.

Lemma contains_any_false text terms :
  contains_any text terms = false ↔ ¬ matches terms text.
Proof.
  rewrite <- contains_any_spec. by destruct (contains_any text terms).
Qed.

(** The answer depends on the set of terms only, as for a Python set. *)
Lemma contains_any_ext text (xs ys : list string) :
  (∀ t, t ∈ xs ↔ t ∈ ys) → contains_any text xs = contains_any text ys.
Proof.
  intros Hext. apply eq_true_iff_eq. rewrite !contains_any_spec.
  split; intros [t [Hin Ht]]; exists t; split; try done; by apply Hext.
Qed.

End Substring_facts.

(** ** The classifier *)

(** Membership of a literal in a literal list. *)
Ltac in_lexicon :=
  cbv [INTENT_TERMS ASSET_TERMS GENRE_TERMS USE_CASE_TERMS NEGATIVE_TERMS
       SYNC_HINTS RSS_INTENT RSS_STYLE];
  repeat first [ apply list_elem_of_here | apply list_elem_of_further ].

Section Classifier.

Lemma matches_elem t (terms : list string) text :
  t ∈ terms → Substring t text → matches terms text.
Proof. intros Hin Hs. by exists t. Qed.

Lemma dollar_is_intent : "$" ∈ INTENT_TERMS.
Proof. in_lexicon. Qed.

Lemma intent_absorbs_dollar text :
  contains_any text INTENT_TERMS || str_in "$" text
  = contains_any text INTENT_TERMS.
Proof.
  destruct (str_in "$" text) eqn:Hd; [|by rewrite orb_false_r].
  rewrite orb_true_r. symmetry. apply contains_any_spec.
  apply (matches_elem "$"); [apply dollar_is_intent | by apply str_in_spec].
Qed.

End Classifier.

(** C1.  The social-post rule accepts a text exactly when the text names an
    asset, shows intent (an INTENT term or the character [$]) and shows
    either a genre, a use case or one of the four sync hints.  In particular
    asset, intent and genre together are accepted, and an asset without any
    intent term and without [$] is rejected. *)
Theorem looks_like_buyer_rule (t : string) :
  (looks_like_buyer t = true ↔
     matches ASSET_TERMS t ∧
     (matches INTENT_TERMS t ∨ Substring "$" t) ∧
     (matches GENRE_TERMS t ∨ matches USE_CASE_TERMS t ∨
      matches ["sync"; "licensing"; "placement"; "brief"] t)) ∧
  (matches ASSET_TERMS t → matches INTENT_TERMS t → matches GENRE_TERMS t →
     looks_like_buyer t = true) ∧
  (matches ASSET_TERMS t → ¬ matches INTENT_TERMS t → ¬ Substring "$" t →
     looks_like_buyer t = false).
Proof.
  assert (Hrule : looks_like_buyer t = true ↔
     matches ASSET_TERMS t ∧
     (matches INTENT_TERMS t ∨ Substring "$" t) ∧
     (matches GENRE_TERMS t ∨ matches USE_CASE_TERMS t ∨
      matches SYNC_HINTS t)).
  { unfold looks_like_buyer.
    rewrite !andb_true_iff, !orb_true_iff, !contains_any_spec, str_in_spec.
    tauto. }
  split; [exact Hrule | split].
  - intros Ha Hi Hg. apply Hrule. tauto.
  - intros Ha Hi Hd. apply not_true_is_false. rewrite Hrule. tauto.
Qed.

(** The rule at work on the title of the end-to-end scenario. *)
Lemma looks_like_buyer_rule_witness :
  looks_like_buyer
    "looking for trap instrumental, budget $200 for sync placement" = true.
Proof.
  apply (looks_like_buyer_rule
           "looking for trap instrumental, budget $200 for sync placement").
  - apply contains_any_spec. vm_compute. reflexivity.
  - apply contains_any_spec. vm_compute. reflexivity.
  - apply contains_any_spec. vm_compute. reflexivity.
Defined.

(** C10.  The separate test for [$] changes nothing: [$] is an INTENT term,
    so the rule agrees everywhere with the variant whose intent conjunct is
    the lexicon test alone. *)
Theorem dollar_check_redundant (t : string) :
  looks_like_buyer t = looks_like_buyer_lexicon_only t.
Proof.
  unfold looks_like_buyer, looks_like_buyer_lexicon_only.
  by rewrite intent_absorbs_dollar.
Qed.

(** C3.  The syndication rule accepts a title exactly when it contains one
    of the seven intent phrases and a genre term, [hiphop] or [urban].  A
    genre without an intent phrase is rejected; [sync] together with [trap]
    is accepted. *)
Theorem rss_accepts_rule (t : string) :
  (rss_accepts t = true ↔
     matches [ "sync"; "licensing"; "placement"; "brief"; "supervisor";
               "call for submissions"; "music wanted" ] t ∧
     (matches GENRE_TERMS t ∨ Substring "hiphop" t ∨ Substring "urban" t)) ∧
  (matches GENRE_TERMS t → ¬ matches RSS_INTENT t → rss_accepts t = false) ∧
  (Substring "sync" t → Substring "trap" t → rss_accepts t = true).
Proof.
  assert (Hstyle : matches RSS_STYLE t ↔
                   Substring "hiphop" t ∨ Substring "urban" t).
  { unfold matches, RSS_STYLE. split.
    - intros [x [Hx Hs]]. set_unfold in Hx.
      destruct Hx as [Hx|[Hx|[]]]; subst x; tauto.
    - intros [Hs|Hs]; [exists "hiphop" | exists "urban"];
        (split; [in_lexicon | done]). }
  assert (Hrule : rss_accepts t = true ↔
     matches RSS_INTENT t ∧
     (matches GENRE_TERMS t ∨ Substring "hiphop" t ∨ Substring "urban" t)).
  { unfold rss_accepts.
    rewrite andb_true_iff, orb_true_iff, !contains_any_spec, Hstyle.
    tauto. }
  split; [exact Hrule | split].
  - intros Hg Hi. apply not_true_is_false. rewrite Hrule. tauto.
  - intros Hsync Htrap. apply Hrule. split.
    + apply (matches_elem "sync"); [in_lexicon | done].
    + left. apply (matches_elem "trap"); [in_lexicon | done].
Qed.

(** A feed title with [sync] and [trap]. *)
Lemma rss_accepts_rule_witness :
  rss_accepts "new sync brief: dark trap cues wanted" = true.
Proof.
  apply (rss_accepts_rule "new sync brief: dark trap cues wanted").
  - apply str_in_spec. vm_compute. reflexivity.
  - apply str_in_spec. vm_compute. reflexivity.
Defined.

(** ** The normalizer *)

Module NormalizerFacts.
Import Normalizer.

(** Facts that hold for any character tables. *)
Section Shape.
Context {A : Type} (isspace : A → bool) (space : A).

#[local] Abbreviation collapse := (collapse isspace space).
#[local] Abbreviation lstrip := (lstrip isspace).
#[local] Abbreviation rstrip := (rstrip isspace).
#[local] Abbreviation strip := (strip isspace).
#[local] Abbreviation tidy := (tidy isspace space).
#[local] Abbreviation head_nonspace := (head_nonspace isspace).

Lemma collapse_shape s b :
  tidy (collapse b s) ∧ (b = true → head_nonspace (collapse b s)).
Proof.
  revert b. induction s as [|c r IH]; intros b; [done|].
  cbn [Normalizer.collapse]. destruct (isspace c) eqn:Hc.
  - destruct b.
    + apply IH.
    + destruct (IH true) as [Ht Hh]. cbn. split; [|done].
      split; [|done]. intros _. split; [done | by apply Hh].
  - destruct (IH false) as [Ht _]. cbn. split; [|by intros _].
    split; [|done]. intros Hc'. congruence.
Qed.

Lemma collapse_fixed s b :
  tidy s → (b = true → head_nonspace s) → collapse b s = s.
Proof.
  revert b. induction s as [|c r IH]; intros b; [done|].
  cbn. intros [Hc Ht] Hb. destruct (isspace c) eqn:Hsp.
  - destruct (Hc eq_refl) as [-> Hr]. destruct b.
    + specialize (Hb eq_refl). congruence.
    + f_equal. by apply IH.
  - f_equal. by apply IH.
Qed.

Lemma lstrip_tidy s : tidy s → tidy (lstrip s).
Proof.
  induction s as [|c r IH]; [done|]. intros Ht. cbn [Normalizer.lstrip].
  destruct (isspace c); [apply IH, Ht | done].
Qed.

Lemma lstrip_head s : head_nonspace (lstrip s).
Proof.
  induction s as [|c r IH]; [done|]. cbn [Normalizer.lstrip].
  by destruct (isspace c) eqn:Hc.
Qed.

Lemma lstrip_fixed s : head_nonspace s → lstrip s = s.
Proof. destruct s as [|c r]; [done|]. cbn. by intros ->. Qed.

Lemma rstrip_cons c r :
  rstrip (c :: r) = [] ∨ ∃ r', rstrip (c :: r) = c :: r'.
Proof.
  cbn. destruct (rstrip r) as [|d r'].
  - destruct (isspace c); [by left | right; by exists []].
  - right. by exists (d :: r').
Qed.

Lemma rstrip_head s : head_nonspace s → head_nonspace (rstrip s).
Proof.
  destruct s as [|c r]; [done|]. intros Hc.
  destruct (rstrip_cons c r) as [->|[r' ->]]; done.
Qed.

Lemma rstrip_tidy s : tidy s → tidy (rstrip s).
Proof.
  induction s as [|c r IH]; [done|]. intros [Hc Ht].
  cbn [Normalizer.rstrip]. specialize (IH Ht).
  destruct (rstrip r) as [|d r'] eqn:Hr.
  - destruct (isspace c) eqn:Hsp; [done|]. cbn. split; [|done].
    intros ?; congruence.
  - split; [|done]. intros Hsp. destruct (Hc Hsp) as [-> Hh].
    split; [done|]. apply rstrip_head in Hh. by rewrite Hr in Hh.
Qed.

Lemma rstrip_idem s : rstrip (rstrip s) = rstrip s.
Proof.
  induction s as [|c r IH]; [done|]. cbn [Normalizer.rstrip].
  destruct (rstrip r) as [|d r'] eqn:Hr.
  - destruct (isspace c) eqn:Hsp; [done|]. cbn. by rewrite Hsp.
  - change (rstrip (c :: d :: r')) with
      (match rstrip (d :: r') with
       | [] => if isspace c then [] else [c]
       | x => c :: x
       end).
    by rewrite IH.
Qed.

Lemma lstrip_snoc s c :
  lstrip (s ++ [c])
  = match lstrip s with [] => lstrip [c] | x => x ++ [c] end.
Proof.
  induction s as [|d s IH]; [done|]. cbn [app Normalizer.lstrip].
  by destruct (isspace d).
Qed.

(** [rstrip] is [lstrip] read from the other end. *)
Lemma rstrip_reverse s : rstrip s = reverse (lstrip (reverse s)).
Proof.
  induction s as [|c r IH]; [done|].
  rewrite reverse_cons, lstrip_snoc. cbn [Normalizer.rstrip].
  rewrite IH. destruct (lstrip (reverse r)) as [|x l].
  - cbn [Normalizer.lstrip]. destruct (isspace c); reflexivity.
  - rewrite reverse_app. change (reverse [c]) with [c]. cbn [app].
    destruct (reverse (x :: l)) eqn:Hrev; [|done].
    apply (f_equal length) in Hrev. rewrite length_reverse in Hrev. done.
Qed.

Lemma strip_tidy s : tidy s → tidy (strip s).
Proof. intros Ht. by apply rstrip_tidy, lstrip_tidy. Qed.

Lemma strip_head s : head_nonspace (strip s).
Proof. apply rstrip_head, lstrip_head. Qed.

Lemma strip_idem s : strip (strip s) = strip s.
Proof.
  unfold Normalizer.strip at 1.
  rewrite (lstrip_fixed (strip s)) by apply strip_head.
  apply rstrip_idem.
Qed.

(** A text that went through [\s+] replacement and [strip] goes through
    them unchanged. *)
Lemma strip_collapse_fixed s :
  strip (re_sub_ws isspace space (strip (re_sub_ws isspace space s)))
  = strip (re_sub_ws isspace space s).
Proof.
  unfold re_sub_ws.
  rewrite (collapse_fixed (strip (collapse false s))).
  - apply strip_idem.
  - apply strip_tidy, collapse_shape.
  - done.
Qed.

(** The three operations keep a property of characters that [space]
    has. *)
Section Keeps.
Variable P : A → Prop.
Hypothesis P_space : P space.

Lemma collapse_Forall s b : Forall P s → Forall P (collapse b s).
Proof.
  intros Hs. revert b. induction Hs as [|c r Hc Hr IH]; intros b.
  - constructor.
  - cbn. destruct (isspace c), b; auto.
Qed.

Lemma lstrip_Forall s : Forall P s → Forall P (lstrip s).
Proof.
  induction 1 as [|c r Hc Hr IH]; [constructor|].
  cbn. destruct (isspace c); auto.
Qed.

Lemma rstrip_Forall s : Forall P s → Forall P (rstrip s).
Proof.
  induction 1 as [|c r Hc Hr IH]; [constructor|].
  cbn. destruct (rstrip r); [destruct (isspace c)|]; auto.
Qed.
End Keeps.

(** Idempotence, for a case mapping whose results it leaves alone. *)
Section Idempotent.
Variable lower : list A → list A.
Variable lowered : A → Prop.
Hypothesis lowered_space : lowered space.
Hypothesis lower_lowered : ∀ s, Forall lowered (lower s).
Hypothesis lower_fixed : ∀ s, Forall lowered s → lower s = s.

Lemma normalize_chars_idempotent s :
  normalize_chars isspace space lower
    (normalize_chars isspace space lower s)
  = normalize_chars isspace space lower s.
Proof.
  unfold normalize_chars at 1.
  rewrite lower_fixed.
  - apply strip_collapse_fixed.
  - apply rstrip_Forall, lstrip_Forall, collapse_Forall;
      [done | apply lower_lowered].
Qed.
End Idempotent.
End Shape.

(** The tables of [normalize]. *)
Lemma py_lower_char_idem c :
  py_lower_char (py_lower_char c) = py_lower_char c.
Proof. by destruct c as [[] [] [] [] [] [] [] []]. Qed.

Lemma py_lower_lowered s : Forall (λ c, py_lower_char c = c) (py_lower s).
Proof.
  unfold py_lower.
  induction s as [|c r IH]; constructor; [apply py_lower_char_idem | done].
Qed.

Lemma py_lower_fixed s :
  Forall (λ c, py_lower_char c = c) s → py_lower s = s.
Proof.
  unfold py_lower. induction 1 as [|c r Hc Hr IH]; [done|].
  cbn. by rewrite Hc, IH.
Qed.

Lemma or_default_empty s : or_default (Some s) "" = s.
Proof. by destruct s. Qed.

(** [normalize] applies [(text or "")] itself, so callers that have done it
    already get the same result. *)
Lemma normalize_or_default x :
  normalize (Some (or_default x "")) = normalize x.
Proof. unfold normalize. by rewrite or_default_empty. Qed.

End NormalizerFacts.

(** ** The normalizer on code points *)

Module UnicodeFacts.
#[local] Abbreviation normalize_string := normalize.
Import Unicode.

Lemma lookup_lower_In c table out :
  lookup_lower c table = Some out → In (c, out) table.
Proof.
  induction table as [|[k o] table IH]; [done|]. cbn [lookup_lower].
  destruct (N.eqb_spec c k) as [->|Hck].
  - intros [= ->]. by left.
  - intros Hl. right. by apply IH.
Qed.

(** Whatever [lower] puts for a character, it leaves alone. *)
Lemma LOWER_closed : forallb (λ kv, forallb stable kv.2) LOWER = true.
Proof. vm_compute. reflexivity. Qed.

Lemma to_lower_full_stable c :
  (c =? 0x3A3)%N = false →
  Forall (λ d, stable d = true) (to_lower_full c).
Proof.
  intros Hc. unfold to_lower_full.
  destruct (lookup_lower c LOWER) as [out|] eqn:Hl; cbn [default].
  - apply lookup_lower_In in Hl.
    pose proof (proj1 (forallb_forall _ _) LOWER_closed _ Hl) as Hout.
    cbn [snd] in Hout. apply Forall_forall. intros d Hd.
    apply (proj1 (forallb_forall _ _) Hout). by apply list_elem_of_In.
  - repeat constructor. unfold stable. by rewrite Hc, Hl.
Qed.

Lemma sigma_stable before after :
  stable (handle_capital_sigma before after) = true.
Proof.
  unfold handle_capital_sigma.
  destruct (final_sigma before after); vm_compute; reflexivity.
Qed.

Lemma lower_from_stable before s :
  Forall (λ d, stable d = true) (lower_from before s).
Proof.
  revert before. induction s as [|c r IH]; intros before; [constructor|].
  cbn [lower_from]. apply Forall_app. split; [|apply IH].
  destruct (c =? 0x3A3)%N eqn:Hc.
  - repeat constructor. apply sigma_stable.
  - by apply to_lower_full_stable.
Qed.

Lemma lower_from_fixed before s :
  Forall (λ d, stable d = true) s → lower_from before s = s.
Proof.
  intros Hs. revert before.
  induction Hs as [|c r Hc Hr IH]; intros before; [done|].
  cbn [lower_from]. rewrite IH. unfold stable in Hc.
  apply andb_true_iff in Hc as [Hsig Hl].
  apply negb_true_iff in Hsig. rewrite Hsig. unfold to_lower_full.
  by destruct (lookup_lower c LOWER).
Qed.

Lemma normalize_twice (x : option str) :
  normalize (Some (normalize x)) = normalize x.
Proof.
  unfold normalize at 1 3. cbn [default from_option id].
  apply (NormalizerFacts.normalize_chars_idempotent _ _ _
           (λ d, stable d = true)).
  - vm_compute. reflexivity.
  - intros s. apply lower_from_stable.
  - intros s. apply lower_from_fixed.
Qed.

(** On the code points of a [string] the tables are those of
    [Normalizer]. *)
Lemma tables_agree (c : ascii) :
  (N_of_ascii c =? 0x3A3)%N = false ∧
  to_lower_full (N_of_ascii c) = [N_of_ascii (Normalizer.py_lower_char c)] ∧
  isspace (N_of_ascii c) = Normalizer.py_isspace c.
Proof. destruct c as [[] [] [] [] [] [] [] []]; vm_compute; done. Qed.

Lemma lower_from_codes before (l : list ascii) :
  lower_from before (N_of_ascii <$> l)
  = N_of_ascii <$> Normalizer.py_lower l.
Proof.
  revert before. induction l as [|c l IH]; intros before; [done|].
  rewrite fmap_cons. cbn [lower_from].
  destruct (tables_agree c) as (-> & -> & _).
  rewrite IH. done.
Qed.

(** The three operations commute with a renaming of the characters that
    keeps the whitespace class. *)
Section Renaming.
Context {A B : Type} (f : A → B).
Context (isspaceA : A → bool) (isspaceB : B → bool) (spaceA : A).
Hypothesis f_space : ∀ c, isspaceB (f c) = isspaceA c.

Lemma collapse_fmap b l :
  f <$> Normalizer.collapse isspaceA spaceA b l
  = Normalizer.collapse isspaceB (f spaceA) b (f <$> l).
Proof.
  revert b. induction l as [|c l IH]; intros b; [done|].
  rewrite fmap_cons. cbn [Normalizer.collapse]. rewrite f_space.
  destruct (isspaceA c), b; cbn; by rewrite IH.
Qed.

Lemma lstrip_fmap l :
  f <$> Normalizer.lstrip isspaceA l = Normalizer.lstrip isspaceB (f <$> l).
Proof.
  induction l as [|c l IH]; [done|].
  rewrite fmap_cons. cbn [Normalizer.lstrip]. rewrite f_space.
  by destruct (isspaceA c).
Qed.

Lemma rstrip_fmap l :
  f <$> Normalizer.rstrip isspaceA l = Normalizer.rstrip isspaceB (f <$> l).
Proof.
  induction l as [|c l IH]; [done|].
  rewrite fmap_cons. cbn [Normalizer.rstrip]. rewrite <- IH, f_space.
  destruct (Normalizer.rstrip isspaceA l); [by destruct (isspaceA c)|done].
Qed.

End Renaming.

Lemma codes_of_list (l : list ascii) :
  codes (string_of_list_ascii l) = N_of_ascii <$> l.
Proof. unfold codes. by rewrite list_ascii_of_string_of_list_ascii. Qed.

(** [normalize] on strings is the normalizer on code points, read on the
    code points below 256. *)
Lemma normalize_codes (x : option string) :
  codes (normalize_string x) = normalize (codes <$> x).
Proof.
  unfold normalize_string, normalize. rewrite codes_of_list.
  unfold Normalizer.normalize_chars, Normalizer.re_sub_ws, Normalizer.strip.
  assert (Hsp : ∀ c, isspace (N_of_ascii c) = Normalizer.py_isspace c)
    by (intros c; apply tables_agree).
  rewrite (rstrip_fmap N_of_ascii _ isspace Hsp).
  rewrite (lstrip_fmap N_of_ascii _ isspace Hsp).
  rewrite (collapse_fmap N_of_ascii _ isspace Normalizer.blank Hsp).
  unfold lower. rewrite <- (lower_from_codes []).
  do 3 f_equal. destruct x as [s|]; [|done].
  cbn [fmap option_fmap option_map default from_option id].
  by rewrite NormalizerFacts.or_default_empty.
Qed.

End UnicodeFacts.

(** C5.  [normalize] is idempotent on every string, a string being any
    sequence of code points, and the empty string and an absent text both
    normalize to the empty string.  On the strings whose code points are
    below 256 the function is [normalize] of the pipelines, which is
    idempotent with them. *)
Theorem normalize_idempotent :
  (∀ x : option Unicode.str,
     Unicode.normalize (Some (Unicode.normalize x)) = Unicode.normalize x) ∧
  Unicode.normalize None = [] ∧
  Unicode.normalize (Some []) = [] ∧
  (∀ x : option string,
     Unicode.codes (normalize x) = Unicode.normalize (Unicode.codes <$> x)) ∧
  (∀ x : option string, normalize (Some (normalize x)) = normalize x) ∧
  normalize None = "" ∧
  normalize (Some "") = "".
Proof.
  split; [apply UnicodeFacts.normalize_twice|].
  split; [done|]. split; [done|].
  split; [apply UnicodeFacts.normalize_codes|].
  split; [|done]. intros x. unfold normalize at 1 3.
  rewrite NormalizerFacts.or_default_empty.
  unfold normalize. rewrite list_ascii_of_string_of_list_ascii.
  f_equal.
  apply (NormalizerFacts.normalize_chars_idempotent _ _ _
           (λ c, Normalizer.py_lower_char c = c)).
  - done.
  - apply NormalizerFacts.py_lower_lowered.
  - apply NormalizerFacts.py_lower_fixed.
Qed.

(** Capital sigma at the end of a word and inside one, a capital that
    lowers to two code points, and the em space. *)
Example normalize_beyond_latin1 :
  Unicode.normalize (Some [0x39F; 0x394; 0x39F; 0x3A3; 0x2003; 0x3A3; 0x391;
                           0x130; 0x20]%N)
  = [0x3BF; 0x3B4; 0x3BF; 0x3C2; 0x20; 0x3C3; 0x3B1; 0x69; 0x307]%N.
Proof. vm_compute. reflexivity. Qed.

Example normalize_example :
  normalize
    (Some ("  Looking   FOR" +:+ String (ascii_of_N 9)
             ("Trap" +:+ String (ascii_of_N 10) "BEATS  ")))
  = "looking for trap beats".
Proof. vm_compute. reflexivity. Qed.

(** ** Loops in the state monad *)

Section Loops.
Context {A B : Type}.

Lemma for_each_cons (x : A) xs (body : B → A → M B) acc w :
  for_each (x :: xs) body acc w
  = for_each xs body (body acc x w).1 (body acc x w).2.
Proof.
  cbn [for_each]. unfold mbind, M_bind. by destruct (body acc x w).
Qed.

(** A relation between accumulator and world that every turn keeps is kept
    by the loop. *)
Lemma for_each_inv (J : B → World → Prop) xs (body : B → A → M B) :
  (∀ acc x w, x ∈ xs → J acc w → J (body acc x w).1 (body acc x w).2) →
  ∀ acc w, J acc w → J (for_each xs body acc w).1 (for_each xs body acc w).2.
Proof.
  induction xs as [|x xs IH]; intros Hbody acc w HJ; [done|].
  rewrite for_each_cons. apply IH.
  - intros acc' y w' Hy. apply Hbody. by apply list_elem_of_further.
  - apply Hbody; [apply list_elem_of_here | done].
Qed.

End Loops.

(** The two loops over the sources keep whatever their turns and the
    printing of a line keep. *)
Section Source_loops.
Variable J : list Lead → World → Prop.
Hypothesis J_print : ∀ leads w l, J leads w → J leads (print l w).2.

Lemma mbind_run {A B} (m : M A) (f : A → M B) w :
  (m ≫= f) w = f (m w).1 (m w).2.
Proof. unfold mbind, M_bind. by destruct (m w). Qed.

Lemma reddit_query_inv env q :
  (∀ leads d w, J leads w →
     J (reddit_item env q leads d w).1 (reddit_item env q leads d w).2) →
  ∀ leads w, J leads w →
    J (reddit_query env leads q w).1 (reddit_query env leads q w).2.
Proof.
  intros Hitem leads w HJ. unfold reddit_query.
  destruct (reddit env q) as [|code items|items].
  - rewrite mbind_run. by apply J_print.
  - case_bool_decide.
    + rewrite mbind_run. by apply J_print.
    + apply (for_each_inv J); [|done]. intros. by apply Hitem.
  - rewrite !mbind_run. apply J_print.
    apply (for_each_inv J); [|done]. intros. by apply Hitem.
Qed.

Lemma rss_feed_inv env u :
  (∀ feed, feeds env u = Some feed → ∀ out e w, J out w →
     J (rss_entry env (default "Sync RSS" (feed_title feed)) out e w).1
       (rss_entry env (default "Sync RSS" (feed_title feed)) out e w).2) →
  ∀ out w, J out w → J (rss_feed env out u w).1 (rss_feed env out u w).2.
Proof.
  intros Hentry out w HJ. unfold rss_feed.
  destruct (feeds env u) as [feed|] eqn:Hfeed.
  - rewrite mbind_run.
    assert (Hloop : J
      (for_each (entries feed)
         (rss_entry env (default "Sync RSS" (feed_title feed))) out w).1
      (for_each (entries feed)
         (rss_entry env (default "Sync RSS" (feed_title feed))) out w).2).
    { apply (for_each_inv J); [|done]. intros. by apply (Hentry feed). }
    destruct (entries_raise feed); [|done].
    rewrite mbind_run. by apply J_print.
  - rewrite mbind_run. by apply J_print.
Qed.

End Source_loops.

(** ** The lead builders *)

Section Builders.

Lemma reddit_lead_Some stamp q d l :
  reddit_lead stamp q d = Some l →
  title l = or_default (post_title d) "" ∧
  truthy (title l) = true ∧
  is_noise (normalize (Some (title l))) = false ∧
  looks_like_buyer (normalize (Some (title l))) = true ∧
  source l = "Reddit".
Proof.
  unfold reddit_lead.
  destruct (truthy (or_default (post_title d) "")) eqn:Ht; [|done].
  destruct (is_noise _) eqn:Hn; [done|].
  destruct (looks_like_buyer _) eqn:Hb; [|done].
  cbn [negb orb]. destruct (negb (truthy _)); [done|].
  intros [= <-]. by cbn.
Qed.

Lemma rss_lead_Some stamp src e l :
  rss_lead stamp src e = Some l →
  title l = or_default (entry_title e) "" ∧
  is_noise (normalize (Some (title l))) = false ∧
  rss_accepts (normalize (Some (title l))) = true.
Proof.
  unfold rss_lead.
  destruct (negb (truthy _)); [done|].
  destruct (is_noise _) eqn:Hn; [done|].
  destruct (rss_accepts _) eqn:Hb; [|done].
  intros [= <-]. by cbn.
Qed.

Lemma search_reddit_clean env w : Forall clean (search_reddit env w).1.
Proof.
  unfold search_reddit.
  apply (for_each_inv (λ leads _, Forall clean leads)); [|constructor].
  intros leads q w' _ Hl.
  apply (reddit_query_inv (λ leads _, Forall clean leads)); [done| |done].
  intros leads' d w'' Hl'. unfold reddit_item.
  destruct (reddit_lead _ q d) as [l|] eqn:Hd; [|done].
  cbn. apply Forall_app. split; [done|]. constructor; [|constructor].
  by apply reddit_lead_Some in Hd as (_ & _ & Hn & _).
Qed.

Lemma search_sync_rss_clean env w : Forall clean (search_sync_rss env w).1.
Proof.
  unfold search_sync_rss.
  apply (for_each_inv (λ leads _, Forall clean leads)); [|constructor].
  intros out u w' _ Hl.
  apply (rss_feed_inv (λ leads _, Forall clean leads)); [done| |done].
  intros feed _ out' e w'' Hl'. unfold rss_entry.
  destruct (rss_lead _ _ e) as [l|] eqn:Hd; [|done].
  cbn. apply Forall_app. split; [done|]. constructor; [|constructor].
  by apply rss_lead_Some in Hd as (_ & Hn & _).
Qed.

End Builders.

(** C2.  A record whose normalized title contains a NEGATIVE term yields no
    lead in either pipeline, whatever else it matches: the builders return
    nothing, the loop turns leave the list of leads and the world as they
    were, and no lead with that title comes out of a whole search. *)
Theorem noise_is_rejected (text : option string) :
  matches NEGATIVE_TERMS (normalize text) →
  (∀ stamp q d, post_title d = text → reddit_lead stamp q d = None) ∧
  (∀ stamp src e, entry_title e = text → rss_lead stamp src e = None) ∧
  (∀ env q leads d w,
     post_title d = text → reddit_item env q leads d w = (leads, w)) ∧
  (∀ env src out e w,
     entry_title e = text → rss_entry env src out e w = (out, w)) ∧
  (∀ env w l,
     l ∈ (search_reddit env w).1 ∨ l ∈ (search_sync_rss env w).1 →
     title l ≠ or_default text "").
Proof.
  intros Hneg. apply contains_any_spec in Hneg.
  assert (Hr : ∀ stamp q d, post_title d = text → reddit_lead stamp q d = None).
  { intros stamp q d <-. unfold reddit_lead.
    rewrite NormalizerFacts.normalize_or_default. unfold is_noise.
    by rewrite Hneg, orb_true_r. }
  assert (Hs : ∀ stamp src e, entry_title e = text → rss_lead stamp src e = None).
  { intros stamp src e <-. unfold rss_lead.
    rewrite NormalizerFacts.normalize_or_default. unfold is_noise.
    rewrite Hneg. by destruct (negb _). }
  split; [exact Hr|]. split; [exact Hs|]. split; [|split].
  - intros env q leads d w Hd. unfold reddit_item. by rewrite (Hr _ _ _ Hd).
  - intros env src out e w He. unfold rss_entry. by rewrite (Hs _ _ _ He).
  - intros env w l Hl Htitle.
    assert (Hclean : clean l).
    { destruct Hl as [Hl|Hl].
      - eapply Forall_forall; [apply search_reddit_clean | exact Hl].
      - eapply Forall_forall; [apply search_sync_rss_clean | exact Hl]. }
    unfold clean, is_noise in Hclean.
    rewrite Htitle, NormalizerFacts.normalize_or_default in Hclean.
    congruence.
Qed.

(** The seller title of the end-to-end scenario is noise, although it names
    an asset. *)
Lemma noise_is_rejected_witness :
  matches NEGATIVE_TERMS (normalize (Some Fixtures.seller_title)) ∧
  matches ASSET_TERMS (normalize (Some Fixtures.seller_title)) ∧
  reddit_lead "now" "buying beats"
    (Fixtures.post Fixtures.seller_title "/r/x/2" "") = None ∧
  rss_lead "now" "Sync RSS"
    {| entry_title := Some Fixtures.seller_title;
       entry_link := Some "https://x/2" |} = None.
Proof.
  assert (Hneg : matches NEGATIVE_TERMS
                   (normalize (Some Fixtures.seller_title))).
  { apply contains_any_spec. vm_compute. reflexivity. }
  split; [exact Hneg|]. split.
  { apply contains_any_spec. vm_compute. reflexivity. }
  pose proof (noise_is_rejected (Some Fixtures.seller_title) Hneg)
    as (Hr & Hs & _).
  split; [apply Hr | apply Hs]; reflexivity.
Defined.

(** C7.  For a record that passes classification the lead's url is the
    Reddit origin followed by the permalink when there is one, else the
    direct url; with neither, no lead is built.  A record with a title that
    is noise or fails the buyer rule yields no lead. *)
Theorem reddit_lead_url (stamp q : string) (d : RawPost) :
  let title_ := or_default (post_title d) "" in
  let tl := normalize (post_title d) in
  let permalink := or_default (post_permalink d) "" in
  let direct := or_default (post_url d) "" in
  (title_ ≠ "" → is_noise tl = false → looks_like_buyer tl = true →
     (permalink ≠ "" →
        ∃ l, reddit_lead stamp q d = Some l ∧
             url l = "https://www.reddit.com" +:+ permalink) ∧
     (permalink = "" → direct ≠ "" →
        ∃ l, reddit_lead stamp q d = Some l ∧ url l = direct) ∧
     (permalink = "" → direct = "" → reddit_lead stamp q d = None)) ∧
  (title_ ≠ "" → is_noise tl = true ∨ looks_like_buyer tl = false →
     reddit_lead stamp q d = None).
Proof.
  intros title_ tl permalink direct.
  assert (Htl : normalize (Some title_) = tl)
    by apply NormalizerFacts.normalize_or_default.
  split.
  - intros Ht Hn Hb. unfold reddit_lead.
    fold title_ permalink direct. rewrite Htl, Hn, Hb.
    destruct title_ as [|a t] eqn:Etitle; [done|]. cbn [truthy negb orb].
    split; [|split].
    + intros Hp. destruct permalink as [|c p]; [done|]. cbn [truthy].
      eexists. split; [reflexivity | done].
    + intros -> Hd. cbn [truthy]. destruct direct as [|c p]; [done|].
      eexists. split; [reflexivity | done].
    + by intros -> ->.
  - intros Ht [Hn|Hb]; unfold reddit_lead; fold title_; rewrite Htl.
    + by rewrite Hn, orb_true_r.
    + by rewrite Hb, orb_true_r.
Qed.

(** A buyer post with a permalink, and the same post without. *)
Lemma reddit_lead_url_witness :
  (∃ l, reddit_lead "now" "buying beats"
          (Fixtures.post Fixtures.buyer_title "/r/x/1" "https://i.redd.it/1")
        = Some l ∧
        url l = "https://www.reddit.com/r/x/1") ∧
  (∃ l, reddit_lead "now" "buying beats"
          (Fixtures.post Fixtures.buyer_title "" "https://i.redd.it/1")
        = Some l ∧
        url l = "https://i.redd.it/1") ∧
  reddit_lead "now" "buying beats" (Fixtures.post Fixtures.buyer_title "" "")
  = None.
Proof.
  split; [|split].
  - apply (reddit_lead_url "now" "buying beats"
             (Fixtures.post Fixtures.buyer_title "/r/x/1"
                "https://i.redd.it/1"));
      [done | vm_compute; reflexivity | vm_compute; reflexivity | done].
  - apply (reddit_lead_url "now" "buying beats"
             (Fixtures.post Fixtures.buyer_title "" "https://i.redd.it/1"));
      [done | vm_compute; reflexivity | vm_compute; reflexivity
      | reflexivity | done].
  - apply (proj1 (reddit_lead_url "now" "buying beats"
                    (Fixtures.post Fixtures.buyer_title "" "")));
      [done | vm_compute; reflexivity | vm_compute; reflexivity
      | reflexivity | reflexivity].
Defined.

(** ** The deduplicator *)

Section Dedup.
Implicit Types (seen : gset string) (leads pre : list Lead).

Lemma dedup_step_seen acc seen lead :
  url lead ∈ seen → dedup_step (acc, seen) lead = (acc, seen).
Proof. intros Hin. cbn. by rewrite bool_decide_eq_true_2. Qed.

Lemma dedup_step_new acc seen lead :
  url lead ∉ seen → dedup_step (acc, seen) lead = (acc ++ [lead], seen ∪ {[ url lead ]}).
Proof. intros Hin. cbn. by rewrite bool_decide_eq_false_2. Qed.

(** The loop, started after a prefix [pre] of the candidates has been
    consumed. *)
Lemma dedup_fold seen full r : ∀ pre acc,
  full = pre ++ r →
  foldl dedup_step (acc, seen ∪ list_to_set (url <$> pre)) r
  = (acc ++ (snd <$>
       filter (λ il : nat * Lead,
                 (url il.2 ∉ seen) ∧ (url il.2 ∉ url <$> take il.1 full))
              (imap (λ i l, (length pre + i, l)) r)),
     seen ∪ list_to_set (url <$> full)).
Proof.
  induction r as [|l r IH]; intros pre acc Hfull.
  - cbn. rewrite Hfull, !app_nil_r. done.
  - cbn [foldl]. rewrite imap_cons.
    assert (Hfull' : full = (pre ++ [l]) ++ r) by by rewrite <- app_assoc.
    assert (Himap : imap ((λ i x, (length pre + i, x)) ∘ S) r
                    = imap (λ i x, (length (pre ++ [l]) + i, x)) r).
    { apply imap_ext. intros i x _. cbn. rewrite length_app. cbn.
      f_equal. lia. }
    rewrite Himap.
    assert (Htake : take (length pre + 0) full = pre).
    { rewrite Hfull. apply take_app_length'. lia. }
    destruct (decide (url l ∈ seen ∪ list_to_set (url <$> pre))) as [Hin|Hout].
    + rewrite dedup_step_seen by done.
      rewrite filter_cons_False.
      2:{ cbn. rewrite Htake. set_solver. }
      replace (seen ∪ list_to_set (url <$> pre))
        with (seen ∪ list_to_set (url <$> pre ++ [l])).
      * by apply IH.
      * rewrite fmap_app, list_to_set_app_L. set_solver.
    + rewrite dedup_step_new by done.
      rewrite filter_cons_True.
      2:{ cbn. rewrite Htake. set_solver. }
      replace (seen ∪ list_to_set (url <$> pre) ∪ {[url l]})
        with (seen ∪ list_to_set (url <$> pre ++ [l])).
      * rewrite (IH (pre ++ [l]) (acc ++ [l]) Hfull').
        cbn. by rewrite <- app_assoc.
      * rewrite fmap_app, list_to_set_app_L. set_solver.
Qed.

End Dedup.

(** C4.  The deduplication pass returns the candidates, in order, whose url
    is not in the seen set and has not occurred earlier in the list, and
    leaves the seen set grown by all candidate urls.  With [u1] seen and
    candidates with urls [u1], [u2], [u2], exactly the second is kept. *)
Theorem dedup_contract (seen : gset string) (leads : list Lead) :
  (dedup seen leads).1 = first_occurrences seen leads ∧
  (dedup seen leads).2 = seen ∪ list_to_set (url <$> leads) ∧
  (∀ a b c : Lead,
     url a = "u1" → url b = "u2" → url c = "u2" →
     (dedup {[ "u1" ]} [a; b; c]).1 = [b]).
Proof.
  assert (Hfold : ∀ seen leads,
            dedup seen leads
            = (first_occurrences seen leads, seen ∪ list_to_set (url <$> leads))).
  { clear. intros seen leads. unfold dedup, first_occurrences.
    pose proof (dedup_fold seen leads leads [] [] eq_refl) as H.
    cbn in H. rewrite (right_id_L ∅ (∪)) in H. exact H. }
  rewrite Hfold. split; [done|]. split; [done|].
  intros a b c Ha Hb Hc. unfold dedup. cbn [foldl].
  rewrite dedup_step_seen by (rewrite Ha; set_solver).
  rewrite dedup_step_new by (rewrite Hb; set_solver).
  rewrite dedup_step_seen by (rewrite Hb, Hc; set_solver).
  done.
Qed.

(** The example of the specification on concrete leads. *)
Lemma dedup_contract_witness :
  (dedup {[ "u1" ]}
     [ Fixtures.lead_at "u1"; Fixtures.lead_at "u2"; Fixtures.lead_at "u2" ]).1
  = [ Fixtures.lead_at "u2" ].
Proof.
  apply (dedup_contract ∅ []); reflexivity.
Defined.

(** ** Running the primitives *)

Section Run.

Lemma bind_run {A B} (m : M A) (f : A → M B) w :
  (m ≫= f) w = f (m w).1 (m w).2.
Proof. unfold mbind, M_bind. by destruct (m w). Qed.

Lemma ret_run {A} (a : A) w : mret (M := M) a w = (a, w).
Proof. done. Qed.

Lemma get_all_values_run w :
  get_all_values w = (fill_gaps (default [] (sheet w)), w).
Proof. done. Qed.

Lemma append_rows_run rows w :
  append_rows rows w
  = (tt, {| sheet := Some (default [] (sheet w) ++ rows);
            outbox := outbox w; ticks := ticks w; stdout := stdout w |}).
Proof. done. Qed.

Lemma print_run l w :
  print l w
  = (tt, {| sheet := sheet w; outbox := outbox w; ticks := ticks w;
            stdout := stdout w ++ [l] |}).
Proof. done. Qed.

Lemma existing_urls_frame w : (existing_urls w).2 = w.
Proof. done. Qed.

End Run.

(** ** The ledger *)

Section Padding.

Lemma max_list_bound (ns : list nat) n :
  Forall (λ k, k ≤ n) ns → max_list ns ≤ n.
Proof.
  induction 1 as [|k ns Hk Hns IH]; cbn; [lia|]. by apply Nat.max_lub.
Qed.

Lemma width_bound (rows : list row) (r : row) :
  r ∈ rows → length r ≤ max_list (length <$> rows).
Proof.
  intros Hr. apply max_list_elem_of_le. by apply list_elem_of_fmap_2.
Qed.

Lemma fill_gaps_nil rows : fill_gaps rows = [] ↔ rows = [].
Proof. unfold fill_gaps. by destruct rows. Qed.

Lemma fill_gaps_tail rows :
  tail (fill_gaps rows)
  = rightpad (max_list (length <$> rows)) <$> tail rows.
Proof. unfold fill_gaps. by destruct rows. Qed.

(** Padding the header changes it, for its last cell is not empty. *)
Lemma header_padded (r : row) k :
  r ++ replicate k "" = header → r = header ∧ k = 0.
Proof.
  destruct k as [|k].
  - cbn. rewrite app_nil_r. by intros ->.
  - rewrite replicate_S_end, app_assoc. intros Hh.
    apply (f_equal last) in Hh. rewrite last_snoc in Hh. done.
Qed.

Lemma fill_gaps_header rows :
  head (fill_gaps rows) = Some header ↔
  head rows = Some header ∧ Forall (λ r : row, length r ≤ 6) rows.
Proof.
  destruct rows as [|r0 rest]; [cbn; naive_solver|].
  unfold fill_gaps. rewrite fmap_cons. cbn [head].
  set (n := max_list (length <$> r0 :: rest)). split.
  - intros [= Hpad]. unfold rightpad in Hpad.
    apply header_padded in Hpad as [-> Hn].
    split; [done|]. apply Forall_forall. intros r Hr.
    apply width_bound in Hr. fold n in Hr. clearbody n.
    change (length header) with 6 in Hn. lia.
  - intros [[= ->] Hw]. f_equal. unfold rightpad.
    assert (n ≤ 6) as Hn.
    { apply max_list_bound, Forall_fmap. exact Hw. }
    clearbody n. change (length header) with 6.
    replace (n - 6) with 0 by lia. apply app_nil_r.
Qed.

Lemma padded_cell (n : nat) (r : row) i u :
  u ≠ "" → rightpad n r !! i = Some u ↔ r !! i = Some u.
Proof.
  intros Hu. unfold rightpad. split.
  - intros Hl. apply lookup_app_Some in Hl as [Hl|[_ Hl]]; [done|].
    apply lookup_replicate in Hl as [-> _]. done.
  - intros Hl. by apply lookup_app_l_Some.
Qed.

Lemma padded_cells (n : nat) (rows : list row) :
  filter (λ u, u ≠ "") (omap (λ r : row, r !! 4) (rightpad n <$> rows))
  = filter (λ u, u ≠ "") (omap (λ r : row, r !! 4) rows).
Proof.
  induction rows as [|r rows IH]; [done|].
  rewrite fmap_cons. cbn [omap list_omap].
  destruct (r !! 4) as [u|] eqn:Hr.
  - assert (rightpad n r !! 4 = Some u) as ->.
    { unfold rightpad. by apply lookup_app_l_Some. }
    rewrite !filter_cons, IH. done.
  - destruct (rightpad n r !! 4) as [u|] eqn:Hp; [|exact IH].
    rewrite filter_cons. destruct (decide (u ≠ "")) as [Hu|Hu]; [|exact IH].
    apply padded_cell in Hp; [congruence | done].
Qed.

End Padding.

Section Ledger.

Lemma get_sheet_some rows mails n out :
  get_sheet
    {| sheet := Some rows; outbox := mails; ticks := n; stdout := out |}
  = (tt, {| sheet :=
              Some (if bool_decide (fill_gaps rows = [])
                       || first_row_differs (fill_gaps rows)
                    then [header] else rows);
            outbox := mails; ticks := n; stdout := out |}).
Proof.
  unfold get_sheet. rewrite !bind_run.
  change (read_sheet ?w) with (sheet w, w).
  cbn [fst snd sheet]. rewrite ret_run. cbn [fst snd].
  rewrite get_all_values_run. cbn [fst snd sheet default from_option id].
  destruct (bool_decide (fill_gaps rows = [])
            || first_row_differs (fill_gaps rows)) eqn:Hc; [|done].
  rewrite bind_run. unfold append_row. rewrite append_rows_run.
  destruct (bool_decide (fill_gaps rows = [])) eqn:Hn.
  - apply bool_decide_eq_true_1 in Hn.
    apply (proj1 (fill_gaps_nil rows)) in Hn. subst rows. done.
  - done.
Qed.

Lemma get_sheet_none mails n out :
  get_sheet {| sheet := None; outbox := mails; ticks := n; stdout := out |}
  = (tt, {| sheet := Some [header];
            outbox := mails; ticks := n; stdout := out |}).
Proof. done. Qed.

Lemma first_row_differs_false values :
  first_row_differs values = false ↔ head values = Some header.
Proof.
  destruct values as [|v0 values]; cbn; [done|].
  rewrite negb_false_iff, bool_decide_eq_true. naive_solver.
Qed.

(** [get_sheet] decides on the first row as it is read. *)
Lemma get_sheet_reset_read w :
  head (fill_gaps (default [] (sheet w))) ≠ Some header →
  get_sheet w
  = (tt, {| sheet := Some [header]; outbox := outbox w; ticks := ticks w;
            stdout := stdout w |}).
Proof.
  intros Hhead. destruct w as [[rows|] mails n out];
    [|apply get_sheet_none].
  rewrite get_sheet_some. cbn [default from_option id sheet] in Hhead.
  destruct (first_row_differs (fill_gaps rows)) eqn:Hd.
  - by rewrite orb_true_r.
  - by apply first_row_differs_false in Hd.
Qed.

Lemma get_sheet_keep_read w :
  head (fill_gaps (default [] (sheet w))) = Some header →
  get_sheet w = (tt, w).
Proof.
  intros Hhead. destruct w as [[rows|] mails n out]; [|done].
  rewrite get_sheet_some. cbn [default from_option id sheet] in Hhead.
  rewrite (proj2 (first_row_differs_false _) Hhead).
  rewrite bool_decide_eq_false_2; [done|].
  intros Hnil. by rewrite Hnil in Hhead.
Qed.

Lemma get_sheet_reset w :
  head (default [] (sheet w)) ≠ Some header →
  get_sheet w
  = (tt, {| sheet := Some [header]; outbox := outbox w; ticks := ticks w;
            stdout := stdout w |}).
Proof.
  intros Hhead. apply get_sheet_reset_read.
  intros [Hh _]%fill_gaps_header. done.
Qed.

Lemma get_sheet_keep w :
  head (default [] (sheet w)) = Some header →
  Forall (λ r : row, length r ≤ 6) (default [] (sheet w)) →
  get_sheet w = (tt, w).
Proof.
  intros Hhead Hwide. by apply get_sheet_keep_read, fill_gaps_header.
Qed.

Lemma get_sheet_frame w :
  outbox (get_sheet w).2 = outbox w ∧ stdout (get_sheet w).2 = stdout w.
Proof.
  destruct (decide (head (fill_gaps (default [] (sheet w))) = Some header))
    as [H|H].
  - by rewrite get_sheet_keep_read.
  - by rewrite get_sheet_reset_read.
Qed.

(** What [get_sheet] leaves: the header first and no row wider than it. *)
Lemma get_sheet_kept w :
  head (default [] (sheet (get_sheet w).2)) = Some header ∧
  Forall (λ r : row, length r ≤ 6) (default [] (sheet (get_sheet w).2)).
Proof.
  destruct (decide (head (fill_gaps (default [] (sheet w))) = Some header))
    as [H|H].
  - rewrite get_sheet_keep_read by done. by apply fill_gaps_header.
  - rewrite get_sheet_reset_read by done. cbn. split; [done|].
    constructor; [cbn; lia | constructor].
Qed.

End Ledger.

(** C6, amended.  When the first row of the store is not the expected
    header, or the store is empty, [get_sheet] leaves the header as the only
    row, prints nothing and returns; the urls of the discarded rows are
    forgotten and the run goes on as from a store that holds the header
    alone.  When the first row is the header and no row has more than the
    six cells of the header, nothing changes. *)
Theorem store_reset_on_mismatch (env : Env) (w : World) :
  let fresh := {| sheet := Some [header]; outbox := outbox w;
                  ticks := ticks w; stdout := stdout w |} in
  (head (default [] (sheet w)) ≠ Some header →
     get_sheet w = (tt, fresh) ∧
     (existing_urls (get_sheet w).2).1 = ∅ ∧
     run_once env w = run_once env fresh) ∧
  (head (default [] (sheet w)) = Some header →
   Forall (λ r : row, length r ≤ 6) (default [] (sheet w)) →
   get_sheet w = (tt, w)).
Proof.
  intros fresh. split; [|apply get_sheet_keep].
  intros Hhead. pose proof (get_sheet_reset w Hhead) as Hreset.
  fold fresh in Hreset. rewrite Hreset. split; [done|]. split; [done|].
  assert (Hfresh : get_sheet fresh = (tt, fresh)).
  { apply get_sheet_keep; [done|]. repeat constructor. }
  unfold run_once, gather. rewrite !bind_run. by rewrite Hreset, Hfresh.
Qed.

(** A worksheet left over from another schema is reset; a ledger of rows no
    wider than the header is kept. *)
Lemma store_reset_on_mismatch_witness :
  (head (default [] (sheet Fixtures.stale_sheet)) ≠ Some header ∧
   sheet (get_sheet Fixtures.stale_sheet).2 = Some [header]) ∧
  (head (default [] (sheet MoreFixtures.ledger)) = Some header ∧
   Forall (λ r : row, length r ≤ 6) (default [] (sheet MoreFixtures.ledger)) ∧
   get_sheet MoreFixtures.ledger = (tt, MoreFixtures.ledger)).
Proof.
  split.
  - assert (H : head (default [] (sheet Fixtures.stale_sheet)) ≠ Some header)
      by (vm_compute; discriminate).
    split; [exact H|].
    destruct (store_reset_on_mismatch Fixtures.offline Fixtures.stale_sheet)
      as [Hreset _].
    destruct (Hreset H) as [-> _]. reflexivity.
  - assert (H1 : head (default [] (sheet MoreFixtures.ledger)) = Some header)
      by reflexivity.
    assert (H2 : Forall (λ r : row, length r ≤ 6)
                   (default [] (sheet MoreFixtures.ledger)))
      by (repeat constructor).
    split; [exact H1|]. split; [exact H2|].
    destruct (store_reset_on_mismatch Fixtures.offline MoreFixtures.ledger)
      as [_ Hkeep].
    exact (Hkeep H1 H2).
Defined.

(** C6 without the bound on the width fails on a ledger one of whose rows
    has a seventh cell: the first row is the header, yet reading pads it
    with an empty cell, it no longer equals the header, and the rows are
    discarded. *)
Lemma store_reset_on_mismatch_counterexample :
  head (default [] (sheet MoreFixtures.wide_ledger)) = Some header ∧
  head (get_all_values MoreFixtures.wide_ledger).1
  = Some (header ++ [""]) ∧
  sheet (get_sheet MoreFixtures.wide_ledger).2 = Some [header] ∧
  sheet (get_sheet MoreFixtures.wide_ledger).2
  ≠ sheet MoreFixtures.wide_ledger.
Proof.
  split; [reflexivity|]. split; [reflexivity|].
  assert (H : sheet (get_sheet MoreFixtures.wide_ledger).2 = Some [header])
    by (vm_compute; reflexivity).
  split; [exact H|]. rewrite H. discriminate.
Qed.

(** ** The run *)

Section Run_once.

(** Searching reads the clock and prints, and touches neither the
    worksheet nor the mailbox. *)
Lemma search_reddit_frame env w :
  sheet (search_reddit env w).2 = sheet w ∧
  outbox (search_reddit env w).2 = outbox w.
Proof.
  unfold search_reddit.
  apply (for_each_inv (λ _ w', sheet w' = sheet w ∧ outbox w' = outbox w));
    [|done].
  intros leads q w1 _ Hw1.
  apply (reddit_query_inv
           (λ _ w', sheet w' = sheet w ∧ outbox w' = outbox w));
    [done| |done].
  intros leads' d w2 Hw2. unfold reddit_item.
  by destruct (reddit_lead _ q d).
Qed.

Lemma search_sync_rss_frame env w :
  sheet (search_sync_rss env w).2 = sheet w ∧
  outbox (search_sync_rss env w).2 = outbox w.
Proof.
  unfold search_sync_rss.
  apply (for_each_inv (λ _ w', sheet w' = sheet w ∧ outbox w' = outbox w));
    [|done].
  intros out u w1 _ Hw1.
  apply (rss_feed_inv (λ _ w', sheet w' = sheet w ∧ outbox w' = outbox w));
    [done| |done].
  intros feed _ out' e w2 Hw2. unfold rss_entry.
  by destruct (rss_lead _ _ e).
Qed.

Lemma gather_frame env w :
  sheet (gather env w).2 = sheet (get_sheet w).2 ∧
  outbox (gather env w).2 = outbox w.
Proof.
  unfold gather. rewrite !bind_run, ret_run. cbn [snd].
  rewrite existing_urls_frame.
  destruct (search_sync_rss_frame env
              (search_reddit env (get_sheet w).2).2) as [-> ->].
  destruct (search_reddit_frame env (get_sheet w).2) as [-> ->].
  split; [done | apply get_sheet_frame].
Qed.

Lemma run_once_run env w :
  run_once env w = deliver env (gather env w).1 (gather env w).2.
Proof. unfold run_once. by rewrite bind_run. Qed.

Lemma persist_run rows w :
  rows ≠ [] →
  persist rows w
  = (tt, {| sheet := Some (default [] (sheet w) ++ rows);
            outbox := outbox w; ticks := ticks w;
            stdout := stdout w ++ [Added (length rows)] |}).
Proof.
  intros Hrows. unfold persist. rewrite bool_decide_eq_false_2 by done.
  by rewrite bind_run, append_rows_run, print_run.
Qed.

(** What [email_csv] does when it has rows: it reads the clock, then
    sends. *)
Lemma email_csv_run env rows counts w :
  rows ≠ [] →
  email_csv env rows counts w
  = if smtp_ok env
    then (true,
          {| sheet := sheet w;
             outbox :=
               outbox w ++
               [ {| mail_total := sum_values counts;
                    mail_totals :=
                      if bool_decide (sum_values counts ≠ 0)
                      then filter (λ kv, kv.2 ≠ 0) counts else [];
                    mail_csv := header :: rows |} ];
             ticks := S (ticks w);
             stdout := stdout w ++ [Emailed (sum_values counts)] |})
    else (false, tick w).
Proof.
  intros Hrows. unfold email_csv. rewrite bool_decide_eq_false_2 by done.
  rewrite bind_run. change (now env w) with (clock env (ticks w), tick w).
  cbn [fst snd]. destruct (smtp_ok env); [|done].
  by rewrite !bind_run.
Qed.

Lemma row_of_source (l : Lead) : row_of l !! 1 = Some (source l).
Proof. done. Qed.

Lemma count_reddit_rows (items : list Lead) :
  length (filter (λ r : row, r !! 1 = Some "Reddit") (row_of <$> items))
  = length (filter (λ l, source l = "Reddit") items).
Proof.
  induction items as [|l items IH]; [done|].
  rewrite fmap_cons, !filter_cons, row_of_source.
  destruct (decide (source l = "Reddit")) as [Hs|Hs].
  - rewrite decide_True by congruence. cbn. by rewrite IH.
  - rewrite decide_False by congruence. done.
Qed.

Lemma count_other_rows (items : list Lead) :
  length (filter (λ r : row, r !! 1 ≠ Some "Reddit") (row_of <$> items))
  = length (filter (λ l, source l ≠ "Reddit") items).
Proof.
  induction items as [|l items IH]; [done|].
  rewrite fmap_cons, !filter_cons, row_of_source.
  destruct (decide (source l ≠ "Reddit")) as [Hs|Hs].
  - rewrite decide_True by congruence. cbn. by rewrite IH.
  - rewrite decide_False by (intros H; apply Hs; congruence). done.
Qed.

Lemma count_split (rows : list row) :
  length (filter (λ r : row, r !! 1 = Some "Reddit") rows)
  + length (filter (λ r : row, r !! 1 ≠ Some "Reddit") rows)
  = length rows.
Proof.
  induction rows as [|r rows IH]; [done|].
  rewrite !filter_cons.
  destruct (decide (r !! 1 = Some "Reddit")) as [Hs|Hs].
  - rewrite decide_False by (intros H; by apply H). cbn. lia.
  - rewrite decide_True by done. cbn. lia.
Qed.

Lemma sum_values_summary rows : sum_values (summary rows) = length rows.
Proof. unfold summary, sum_values. cbn. rewrite <- (count_split rows). lia. Qed.

End Run_once.

(** C8.  A run whose deduplicated list is empty appends nothing and sends
    nothing, whether or not the mail server is reachable: it returns
    normally after printing its two notices; the worksheet is as
    [get_sheet] left it and the mailbox as it was before the run. *)
Theorem empty_run_short_circuit (env : Env) (w w1 : World) :
  gather env w = ([], w1) →
  run_once env w
  = (true, {| sheet := sheet w1; outbox := outbox w1; ticks := ticks w1;
              stdout := stdout w1 ++ [NoNewLeads; NoNewRows] |}) ∧
  sheet w1 = sheet (get_sheet w).2 ∧
  outbox w1 = outbox w.
Proof.
  intros Hg. pose proof (gather_frame env w) as Hframe.
  rewrite run_once_run, Hg in *. cbn [fst snd] in *.
  split; [|done].
  unfold deliver, persist, email_csv. cbn [fmap list_fmap].
  rewrite bind_run. rewrite (bool_decide_eq_true_2 ([] = [])) by done.
  rewrite bind_run, !print_run, ret_run. cbn. by rewrite <- app_assoc.
Qed.

(** With every source down and no spreadsheet yet, the run creates the
    header and stops there. *)
Lemma empty_run_short_circuit_witness :
  let w1 := (gather Fixtures.offline Fixtures.no_spreadsheet).2 in
  gather Fixtures.offline Fixtures.no_spreadsheet = ([], w1) ∧
  sheet (run_once Fixtures.offline Fixtures.no_spreadsheet).2
  = Some [header] ∧
  outbox (run_once Fixtures.offline Fixtures.no_spreadsheet).2 = [].
Proof.
  intros w1.
  assert (Hg : gather Fixtures.offline Fixtures.no_spreadsheet = ([], w1))
    by (vm_compute; reflexivity).
  split; [exact Hg|].
  destruct (empty_run_short_circuit _ _ _ Hg) as (-> & Hs & Ho).
  cbn [snd sheet outbox]. rewrite Hs, Ho. split; reflexivity.
Defined.

(** C9.  The counts handed to [email_csv] split the appended rows in two:
    those whose source is [Reddit] and all the others; they add up to the
    number of rows appended, which is the total the message reports. *)
Theorem counts_partition (env : Env) (w w1 : World) (new_items : list Lead) :
  gather env w = (new_items, w1) →
  let new_rows := row_of <$> new_items in
  let counts := summary new_rows in
  counts
  = [ ("Reddit", length (filter (λ l, source l = "Reddit") new_items));
      ("Sync RSS", length (filter (λ l, source l ≠ "Reddit") new_items)) ] ∧
  sum_values counts = length new_rows ∧
  run_once env w = email_csv env new_rows counts (persist new_rows w1).2 ∧
  (new_items ≠ [] →
     sheet (run_once env w).2 = Some (default [] (sheet w1) ++ new_rows)) ∧
  (new_items ≠ [] → smtp_ok env = true →
     outbox (run_once env w).2
     = outbox w1 ++ [ {| mail_total := length new_rows;
                         mail_totals := filter (λ kv, kv.2 ≠ 0) counts;
                         mail_csv := header :: new_rows |} ]).
Proof.
  intros Hg new_rows counts.
  assert (Hsum : sum_values counts = length new_rows)
    by apply sum_values_summary.
  assert (Hrun : run_once env w
                 = email_csv env new_rows counts (persist new_rows w1).2).
  { rewrite run_once_run, Hg. unfold deliver. by rewrite bind_run. }
  split; [|split; [done|split; [done|]]].
  { unfold counts, summary, new_rows.
    by rewrite count_reddit_rows, count_other_rows. }
  assert (Hne : new_items ≠ [] → new_rows ≠ []).
  { unfold new_rows. by destruct new_items. }
  split.
  - intros Hitems. rewrite Hrun.
    rewrite email_csv_run, persist_run by auto.
    by destruct (smtp_ok env).
  - intros Hitems Hsmtp. rewrite Hrun.
    rewrite email_csv_run, persist_run, Hsmtp, Hsum by auto.
    rewrite bool_decide_eq_true_2.
    + done.
    + intros Hlen. apply Hne; [done|]. by apply nil_length_inv.
Qed.

(** The end-to-end scenario with one feed added: one row from each source,
    two in total. *)
Lemma counts_partition_witness :
  let run := gather Fixtures.online Fixtures.no_spreadsheet in
  gather Fixtures.online Fixtures.no_spreadsheet = (run.1, run.2) ∧
  summary (row_of <$> run.1) = [ ("Reddit", 1); ("Sync RSS", 1) ] ∧
  sum_values (summary (row_of <$> run.1)) = 2 ∧
  length (row_of <$> run.1) = 2.
Proof.
  intros run.
  assert (Hg : gather Fixtures.online Fixtures.no_spreadsheet = (run.1, run.2))
    by (vm_compute; reflexivity).
  split; [exact Hg|].
  destruct (counts_partition _ _ _ _ Hg) as (Hc & Hs & _).
  split; [|split].
  - rewrite Hc. vm_compute. reflexivity.
  - rewrite Hs. vm_compute. reflexivity.
  - vm_compute. reflexivity.
Defined.

(** A whole run on the scenario of [Fixtures.online], from no spreadsheet:
    the seller post is dropped, the buyer post and the feed entry are
    appended under the header, and one message reports both. *)
Example run_once_online :
  let '(ok, w) := run_once Fixtures.online Fixtures.no_spreadsheet in
  ok = true ∧
  (url <$> (gather Fixtures.online Fixtures.no_spreadsheet).1)
  = [ "https://www.reddit.com/r/x/1"; "https://x/1" ] ∧
  (length <$> sheet w) = Some 3 ∧
  (mail_total <$> outbox w) = [2] ∧
  (mail_totals <$> outbox w) = [ [ ("Reddit", 1); ("Sync RSS", 1) ] ].
Proof. vm_compute. repeat split; reflexivity. Qed.

(** * Further properties *)

(** ** Matching under substring semantics *)

Section Matching.

Lemma append_assoc (a b c : string) : (a +:+ b) +:+ c = a +:+ b +:+ c.
Proof.
  induction a as [|x a IH]; [done|]. by rewrite !append_cons, IH.
Qed.

Lemma Substring_refl s : Substring s s.
Proof.
  exists "", "". induction s as [|x s IH]; [done|].
  change ("" +:+ String x s +:+ "") with (String x (s +:+ "")).
  f_equal. exact IH.
Qed.

Lemma Substring_trans a b c : Substring a b → Substring b c → Substring a c.
Proof.
  intros (l1 & r1 & ->) (l2 & r2 & ->).
  exists (l2 +:+ l1), (r1 +:+ r2). by rewrite !append_assoc.
Qed.

Lemma matches_extend terms t s :
  Substring t s → matches terms t → matches terms s.
Proof.
  intros Hts (x & Hx & Hxt). exists x. split; [done|].
  by apply Substring_trans with t.
Qed.

Lemma contains_any_extend terms t s :
  Substring t s → contains_any t terms = true → contains_any s terms = true.
Proof. rewrite !contains_any_spec. apply matches_extend. Qed.

Lemma covered_by_matches xs ys text :
  covered_by xs ys = true → matches xs text → matches ys text.
Proof.
  unfold covered_by. rewrite forallb_forall. intros Hcov (x & Hx & Hxt).
  apply list_elem_of_In, Hcov, contains_any_spec in Hx.
  destruct Hx as (y & Hy & Hyx). exists y. split; [done|].
  by apply Substring_trans with x.
Qed.

Lemma covered_both xs ys text :
  covered_by xs ys = true → covered_by ys xs = true →
  contains_any text xs = contains_any text ys.
Proof.
  intros Hxy Hyx. apply eq_true_iff_eq. rewrite !contains_any_spec.
  split; by apply covered_by_matches.
Qed.

Lemma hints_are_intent text :
  contains_any text SYNC_HINTS = true → contains_any text INTENT_TERMS = true.
Proof.
  rewrite !contains_any_spec. intros (x & Hx & Hs). exists x. split; [|done].
  unfold SYNC_HINTS in Hx. set_unfold in Hx.
  destruct Hx as [->|[->|[->|[->|[]]]]]; in_lexicon.
Qed.

End Matching.

(** X1.  Matching only ever grows with the text: whatever a text matches,
    every text that contains it matches too.  So a noise title stays noise
    however it is extended, and a text accepted by either rule stays
    accepted by that rule. *)
Theorem matching_is_monotone (t s : string) :
  Substring t s →
  (∀ terms, contains_any t terms = true → contains_any s terms = true) ∧
  (is_noise t = true → is_noise s = true) ∧
  (looks_like_buyer t = true → looks_like_buyer s = true) ∧
  (rss_accepts t = true → rss_accepts s = true).
Proof.
  intros Hts.
  assert (Hc : ∀ terms,
            contains_any t terms = true → contains_any s terms = true)
    by (intros terms; by apply contains_any_extend).
  assert (Hd : str_in "$" t = true → str_in "$" s = true).
  { rewrite !str_in_spec. intros Hd. by apply Substring_trans with t. }
  split; [exact Hc|]. split; [apply Hc|]. split.
  - unfold looks_like_buyer. rewrite !andb_true_iff, !orb_true_iff.
    pose proof (Hc INTENT_TERMS). pose proof (Hc ASSET_TERMS).
    pose proof (Hc GENRE_TERMS). pose proof (Hc USE_CASE_TERMS).
    pose proof (Hc SYNC_HINTS). tauto.
  - unfold rss_accepts. rewrite !andb_true_iff, !orb_true_iff.
    pose proof (Hc RSS_INTENT). pose proof (Hc GENRE_TERMS).
    pose proof (Hc RSS_STYLE). tauto.
Qed.

(** A seller title stays noise with a buyer phrase put in front of it. *)
Lemma matching_is_monotone_witness :
  Substring "beat pack" "need trap beat pack for video" ∧
  is_noise "need trap beat pack for video" = true.
Proof.
  assert (H : Substring "beat pack" "need trap beat pack for video")
    by (apply str_in_spec; vm_compute; reflexivity).
  split; [exact H|].
  destruct (matching_is_monotone _ _ H) as (_ & Hnoise & _).
  apply Hnoise. vm_compute. reflexivity.
Defined.

(** X2.  Terms that contain another term of their lexicon add nothing:
    plurals such as [beats], compounds such as [cinematic hip hop], and also
    [trap] and [soundtrack], which contain [rap] and [track].  Each lexicon
    matches exactly the texts its core matches. *)
Theorem lexicon_cores (text : string) :
  contains_any text INTENT_TERMS = contains_any text INTENT_CORE ∧
  contains_any text ASSET_TERMS = contains_any text ASSET_CORE ∧
  contains_any text GENRE_TERMS = contains_any text GENRE_CORE ∧
  contains_any text USE_CASE_TERMS = contains_any text USE_CASE_CORE ∧
  is_noise text = contains_any text NEGATIVE_CORE.
Proof.
  repeat split; apply covered_both; vm_compute; reflexivity.
Qed.

(** X3.  The four sync hints are INTENT terms, so a text that names an
    asset and carries a sync hint is accepted without any other sign of
    intent; without a hint it needs intent and a genre or use case. *)
Theorem looks_like_buyer_by_hint (t : string) :
  looks_like_buyer t = true ↔
  matches ASSET_TERMS t ∧
  (matches SYNC_HINTS t ∨
   (matches INTENT_TERMS t ∧
    (matches GENRE_TERMS t ∨ matches USE_CASE_TERMS t))).
Proof.
  unfold looks_like_buyer. rewrite intent_absorbs_dollar.
  pose proof (hints_are_intent t) as Hh.
  rewrite <- !contains_any_spec.
  destruct (contains_any t ASSET_TERMS), (contains_any t INTENT_TERMS),
    (contains_any t GENRE_TERMS), (contains_any t USE_CASE_TERMS),
    (contains_any t SYNC_HINTS); cbn; try tauto;
    try (specialize (Hh eq_refl); discriminate).
Qed.

(** ** The shape of a normalized text *)

Module NormalizerShape.
Import Normalizer NormalizerFacts.

Section Shape.
Context {A : Type} (isspace : A → bool) (space : A).

#[local] Abbreviation collapse := (collapse isspace space).
#[local] Abbreviation lstrip := (lstrip isspace).
#[local] Abbreviation rstrip := (rstrip isspace).
#[local] Abbreviation tidy := (tidy isspace space).

Lemma tidy_app_r l m : tidy (l ++ m) → tidy m.
Proof. induction l as [|c l IH]; [done|]. intros [_ Ht]. by apply IH. Qed.

Lemma tidy_space_only s c :
  tidy s → c ∈ s → isspace c = true → c = space.
Proof.
  induction s as [|d s IH]; intros Ht Hin Hc.
  - by apply elem_of_nil in Hin.
  - destruct Ht as [Hd Ht]. apply elem_of_cons in Hin as [->|Hin].
    + by destruct (Hd Hc).
    + by apply IH.
Qed.

Lemma tidy_no_double s l r :
  isspace space = true → tidy s → s ≠ l ++ space :: space :: r.
Proof.
  intros Hsp Ht ->. apply tidy_app_r in Ht. destruct Ht as [Hd _].
  destruct (Hd Hsp) as [_ Hh]. cbn in Hh. congruence.
Qed.

Lemma rstrip_last s c : last (rstrip s) = Some c → isspace c = false.
Proof.
  induction s as [|d s IH]; [done|]. cbn [Normalizer.rstrip].
  destruct (rstrip s) as [|e r'] eqn:Hr.
  - destruct (isspace d) eqn:Hd; [done|]. cbn. congruence.
  - intros Hl. apply IH. by rewrite last_cons_cons in Hl.
Qed.

Lemma head_nonspace_head s c :
  head_nonspace isspace s → head s = Some c → isspace c = false.
Proof. destruct s; cbn; congruence. Qed.

Lemma length_collapse s b : length (collapse b s) ≤ length s.
Proof.
  revert b. induction s as [|c s IH]; intros b; [done|]. cbn.
  pose proof (IH true). pose proof (IH false).
  destruct (isspace c), b; cbn; lia.
Qed.

Lemma length_lstrip s : length (lstrip s) ≤ length s.
Proof.
  induction s as [|c s IH]; [done|]. cbn. destruct (isspace c); cbn; lia.
Qed.

Lemma length_rstrip s : length (rstrip s) ≤ length s.
Proof.
  induction s as [|c s IH]; [done|]. cbn [Normalizer.rstrip].
  destruct (rstrip s); [destruct (isspace c)|]; cbn in *; lia.
Qed.

End Shape.

Lemma length_string_of_list l :
  String.length (string_of_list_ascii l) = length l.
Proof. induction l as [|c l IH]; [done|]. cbn. by rewrite IH. Qed.

Lemma length_chars s : length (chars s) = String.length s.
Proof.
  unfold chars. induction s as [|c s IH]; [done|]. cbn. by rewrite IH.
Qed.

Lemma chars_normalize x :
  chars (normalize x)
  = normalize_chars py_isspace blank py_lower (chars (or_default x "")).
Proof. unfold chars, normalize. apply list_ascii_of_string_of_list_ascii. Qed.

End NormalizerShape.

(** X4.  What comes out of [normalize]: no capital letter is left, the only
    whitespace is the blank, no two blanks are adjacent, the text neither
    starts nor ends with whitespace, and it is no longer than the input. *)
Theorem normalize_shape (x : option string) :
  let out := chars (normalize x) in
  Forall (λ c, Normalizer.py_lower_char c = c) out ∧
  (∀ c, c ∈ out → Normalizer.py_isspace c = true → c = " "%char) ∧
  (∀ l r, out ≠ l ++ " "%char :: " "%char :: r) ∧
  (∀ c, head out = Some c → Normalizer.py_isspace c = false) ∧
  (∀ c, last out = Some c → Normalizer.py_isspace c = false) ∧
  String.length (normalize x) ≤ String.length (or_default x "").
Proof.
  intros out. unfold out. rewrite NormalizerShape.chars_normalize.
  unfold Normalizer.normalize_chars, Normalizer.re_sub_ws.
  set (low := Normalizer.py_lower (chars (or_default x ""))).
  assert (Htidy : Normalizer.tidy Normalizer.py_isspace Normalizer.blank
            (Normalizer.strip Normalizer.py_isspace
               (Normalizer.collapse Normalizer.py_isspace Normalizer.blank
                  false low))).
  { apply NormalizerFacts.strip_tidy, NormalizerFacts.collapse_shape. }
  split; [|split; [|split; [|split; [|split]]]].
  - apply NormalizerFacts.rstrip_Forall, NormalizerFacts.lstrip_Forall,
      NormalizerFacts.collapse_Forall;
      [done | apply NormalizerFacts.py_lower_lowered].
  - intros c Hin Hc.
    by apply (NormalizerShape.tidy_space_only _ _ _ _ Htidy Hin Hc).
  - intros l r.
    apply (NormalizerShape.tidy_no_double Normalizer.py_isspace
             Normalizer.blank); [reflexivity | exact Htidy].
  - intros c.
    apply (NormalizerShape.head_nonspace_head Normalizer.py_isspace),
      NormalizerFacts.strip_head.
  - intros c. apply (NormalizerShape.rstrip_last Normalizer.py_isspace).
  - rewrite <- !NormalizerShape.length_chars,
      NormalizerShape.chars_normalize.
    unfold Normalizer.normalize_chars, Normalizer.re_sub_ws,
      Normalizer.strip.
    etrans; [apply NormalizerShape.length_rstrip|].
    etrans; [apply NormalizerShape.length_lstrip|].
    etrans; [apply NormalizerShape.length_collapse|].
    unfold Normalizer.py_lower. by rewrite length_map.
Qed.

(** ** Reading the ledger back *)

Section Ledger_reads.

Lemma seen_step_cells (rows : list row) (X : gset string) :
  foldl
    (λ (urls : gset string) (r : row),
       if bool_decide (5 ≤ length r) && truthy (default "" (r !! 4))
       then urls ∪ {[ default "" (r !! 4) ]}
       else urls)
    X rows
  = X ∪ list_to_set (filter (λ u, u ≠ "") (omap (λ r : row, r !! 4) rows)).
Proof.
  revert X. induction rows as [|r rows IH]; intros X.
  - cbn. by rewrite (right_id_L ∅ (∪)).
  - cbn [foldl omap list_omap]. rewrite IH. clear IH.
    destruct (r !! 4) as [u|] eqn:Hu; cbn [default].
    + rewrite bool_decide_eq_true_2
        by (apply lookup_lt_Some in Hu; lia).
      cbn [andb]. rewrite filter_cons. destruct u as [|a u]; cbn [truthy].
      * by rewrite decide_False by (intros H; by apply H).
      * rewrite decide_True by done.
        rewrite list_to_set_cons. set_solver.
    + rewrite bool_decide_eq_false_2; [done|].
      apply lookup_ge_None in Hu. lia.
Qed.

Lemma existing_urls_cells w :
  (existing_urls w).1 = list_to_set (url_cells (rows_of w)).
Proof.
  unfold existing_urls. rewrite bind_run, get_all_values_run, ret_run.
  cbn [fst snd]. rewrite seen_step_cells, fill_gaps_tail, padded_cells.
  unfold url_cells, rows_of. by rewrite (left_id_L ∅ (∪)).
Qed.

Lemma url_cells_app ws rows :
  ws ≠ [] →
  url_cells (ws ++ rows)
  = url_cells ws ++ filter (λ u, u ≠ "") (omap (λ r : row, r !! 4) rows).
Proof.
  intros Hws. destruct ws as [|r0 ws]; [done|].
  unfold url_cells. cbn [app tail]. by rewrite omap_app, filter_app.
Qed.

Lemma cells_of_rows (items : list Lead) :
  Forall (λ l, url l ≠ "") items →
  filter (λ u, u ≠ "") (omap (λ r : row, r !! 4) (row_of <$> items))
  = url <$> items.
Proof.
  induction 1 as [|l items Hl Hitems IH]; [done|].
  rewrite fmap_cons. cbn [omap list_omap].
  change (row_of l !! 4) with (Some (url l)). cbn beta iota.
  rewrite filter_cons, decide_True by done.
  rewrite fmap_cons. f_equal. exact IH.
Qed.

Lemma rows_of_append rows w :
  rows_of (append_rows rows w).2 = rows_of w ++ rows.
Proof. done. Qed.

Lemma get_sheet_head w : head (rows_of (get_sheet w).2) = Some header.
Proof. apply get_sheet_kept. Qed.

Lemma get_sheet_again w : get_sheet (get_sheet w).2 = (tt, (get_sheet w).2).
Proof. apply get_sheet_keep; apply get_sheet_kept. Qed.

End Ledger_reads.

(** X5.  The seen set read from the ledger holds exactly the fifth cells
    that are present and not empty, of every row but the first; the first
    row is skipped even when it is not the header, and rows of fewer than
    five cells are passed over. *)
Theorem existing_urls_spec (w : World) (u : string) :
  u ∈ (existing_urls w).1 ↔
  ∃ r : row, r ∈ tail (rows_of w) ∧ r !! 4 = Some u ∧ u ≠ "".
Proof.
  rewrite existing_urls_cells. unfold url_cells.
  rewrite elem_of_list_to_set, list_elem_of_filter, list_elem_of_omap.
  naive_solver.
Qed.

(** X6.  Whatever the store held, after [get_sheet] the spreadsheet exists
    and its first row is the header, so that a second [get_sheet] changes
    nothing. *)
Theorem get_sheet_establishes_header (w : World) :
  let w' := (get_sheet w).2 in
  sheet w' ≠ None ∧
  head (rows_of w') = Some header ∧
  get_sheet w' = (tt, w').
Proof.
  intros w'. pose proof (get_sheet_head w) as Hhead. fold w' in Hhead.
  split; [|split; [done|]].
  - unfold rows_of in Hhead. by destruct (sheet w').
  - apply get_sheet_again.
Qed.

(** X7.  Rows written by [append_rows] are read back by [existing_urls]:
    on a worksheet that has a first row, appending the rows of leads whose
    urls are not empty adds exactly their urls to the seen set. *)
Theorem appended_rows_are_seen (w : World) (items : list Lead) :
  rows_of w ≠ [] →
  Forall (λ l, url l ≠ "") items →
  (existing_urls (append_rows (row_of <$> items) w).2).1
  = (existing_urls w).1 ∪ list_to_set (url <$> items).
Proof.
  intros Hrows Hurls. rewrite !existing_urls_cells, rows_of_append.
  rewrite url_cells_app by done.
  by rewrite cells_of_rows, list_to_set_app_L.
Qed.

(** Two leads appended under the rows of [MoreFixtures.ledger]. *)
Lemma appended_rows_are_seen_witness :
  rows_of MoreFixtures.ledger ≠ [] ∧
  Forall (λ l, url l ≠ "") [ Fixtures.lead_at "u1"; Fixtures.lead_at "u2" ] ∧
  (existing_urls
     (append_rows (row_of <$> [ Fixtures.lead_at "u1"; Fixtures.lead_at "u2" ])
        MoreFixtures.ledger).2).1
  = {[ "https://www.reddit.com/r/x/0" ]} ∪ list_to_set [ "u1"; "u2" ].
Proof.
  assert (H1 : rows_of MoreFixtures.ledger ≠ []) by done.
  assert (H2 : Forall (λ l, url l ≠ "")
                 [ Fixtures.lead_at "u1"; Fixtures.lead_at "u2" ])
    by (repeat constructor; done).
  split; [exact H1|]. split; [exact H2|].
  rewrite (appended_rows_are_seen _ _ H1 H2).
  vm_compute. reflexivity.
Defined.

(** ** What the searches return *)

Section Searches.

Lemma truthy_true s : truthy s = true ↔ s ≠ "".
Proof. by destruct s. Qed.

Lemma or_default_nonempty x d : d ≠ "" → or_default x d ≠ "".
Proof. intros Hd. destruct x as [[|a s]|]; done. Qed.

Lemma reddit_lead_shape stamp q d l :
  q ∈ SEARCH_QUERIES → reddit_lead stamp q d = Some l → reddit_shaped l.
Proof.
  intros Hq Hl.
  destruct (reddit_lead_Some _ _ _ _ Hl) as (_ & Ht & Hn & Hb & Hs).
  unfold reddit_lead in Hl.
  destruct (negb _ || _ || _); [done|].
  destruct (truthy (if truthy _ then _ else _)) eqn:Hu; [|done].
  cbn in Hl. injection Hl as <-. cbn in *.
  split; [done|]. split.
  { eexists. split; [|reflexivity]. by apply or_default_nonempty. }
  split; [by exists q|]. split; [by apply truthy_true|].
  split; [by apply truthy_true|]. done.
Qed.

Lemma rss_lead_shape stamp src e l :
  rss_lead stamp src e = Some l →
  source l = src ∧ who l = src ∧ tags l = "sync; rss" ∧ url l ≠ "" ∧
  is_noise (normalize (Some (title l))) = false ∧
  rss_accepts (normalize (Some (title l))) = true.
Proof.
  intros Hl. destruct (rss_lead_Some _ _ _ _ Hl) as (_ & Hn & Hb).
  unfold rss_lead in Hl.
  destruct (truthy (or_default (entry_link e) "")) eqn:Hu; [|done].
  cbn [negb] in Hl. destruct (is_noise _); [done|].
  destruct (negb _); [done|]. injection Hl as <-. cbn in *.
  repeat split; try done. by apply truthy_true.
Qed.

Lemma reddit_lead_untimed stamp q d :
  untimed <$> reddit_lead stamp q d = reddit_lead "" q d.
Proof.
  unfold reddit_lead. destruct (negb _ || _ || _); [done|].
  by destruct (negb _).
Qed.

Lemma rss_lead_untimed stamp src e :
  untimed <$> rss_lead stamp src e = rss_lead "" src e.
Proof.
  unfold rss_lead. destruct (negb _); [done|].
  destruct (is_noise _); [done|]. by destruct (negb _).
Qed.

(** A loop whose turns only append, seen without the timestamps. *)
Lemma for_each_untimed {A} (xs : list A)
    (body : list Lead → A → M (list Lead)) (f : A → list Lead) :
  (∀ acc x w, untimed <$> (body acc x w).1 = (untimed <$> acc) ++ f x) →
  ∀ acc w,
    untimed <$> (for_each xs body acc w).1
    = (untimed <$> acc) ++ flat_map f xs.
Proof.
  intros Hbody. induction xs as [|x xs IH]; intros acc w.
  - cbn. by rewrite app_nil_r.
  - rewrite for_each_cons, IH, Hbody. cbn [flat_map]. by rewrite app_assoc.
Qed.

Lemma reddit_item_untimed env q acc d w :
  untimed <$> (reddit_item env q acc d w).1
  = (untimed <$> acc) ++ option_list (reddit_lead "" q d).
Proof.
  unfold reddit_item. rewrite <- (reddit_lead_untimed (clock env (ticks w))).
  destruct (reddit_lead _ q d) as [l|]; cbn.
  - by rewrite fmap_app.
  - by rewrite app_nil_r.
Qed.

Lemma reddit_query_untimed env acc q w :
  untimed <$> (reddit_query env acc q w).1
  = (untimed <$> acc) ++ reddit_query_candidates env q.
Proof.
  unfold reddit_query, reddit_query_candidates.
  destruct (reddit env q) as [|code items|items].
  - by rewrite app_nil_r.
  - destruct (decide (code = 200%Z)) as [->|Hcode].
    + rewrite bool_decide_eq_false_2 by (intros H; by apply H).
      rewrite bool_decide_eq_true_2 by done.
      apply for_each_untimed. intros. apply reddit_item_untimed.
    + rewrite bool_decide_eq_true_2 by done.
      rewrite bool_decide_eq_false_2 by done. by rewrite app_nil_r.
  - rewrite !mbind_run. cbn [fst snd].
    apply for_each_untimed. intros. apply reddit_item_untimed.
Qed.

Lemma rss_entry_untimed env src acc e w :
  untimed <$> (rss_entry env src acc e w).1
  = (untimed <$> acc) ++ option_list (rss_lead "" src e).
Proof.
  unfold rss_entry. rewrite <- (rss_lead_untimed (clock env (ticks w))).
  destruct (rss_lead _ src e) as [l|]; cbn.
  - by rewrite fmap_app.
  - by rewrite app_nil_r.
Qed.

Lemma rss_feed_untimed env acc u w :
  untimed <$> (rss_feed env acc u w).1
  = (untimed <$> acc) ++ rss_feed_candidates env u.
Proof.
  unfold rss_feed, rss_feed_candidates.
  destruct (feeds env u) as [feed|]; [|by rewrite app_nil_r].
  rewrite mbind_run.
  assert (Hloop :
    untimed <$>
      (for_each (entries feed)
         (rss_entry env (default "Sync RSS" (feed_title feed))) acc w).1
    = (untimed <$> acc) ++
      flat_map
        (λ e, option_list
                (rss_lead "" (default "Sync RSS" (feed_title feed)) e))
        (entries feed)).
  { apply for_each_untimed. intros. apply rss_entry_untimed. }
  by destruct (entries_raise feed).
Qed.

Lemma search_reddit_untimed env w :
  untimed <$> (search_reddit env w).1 = reddit_candidates env.
Proof.
  unfold search_reddit, reddit_candidates.
  rewrite (for_each_untimed _ _ (reddit_query_candidates env)); [done|].
  intros. apply reddit_query_untimed.
Qed.

Lemma search_sync_rss_untimed env w :
  untimed <$> (search_sync_rss env w).1 = rss_candidates env.
Proof.
  unfold search_sync_rss, rss_candidates.
  rewrite (for_each_untimed _ _ (rss_feed_candidates env)); [done|].
  intros. apply rss_feed_untimed.
Qed.

Lemma search_reddit_shaped env w :
  Forall reddit_shaped (search_reddit env w).1.
Proof.
  unfold search_reddit.
  apply (for_each_inv (λ leads _, Forall reddit_shaped leads)); [|constructor].
  intros leads q w' Hq Hl.
  apply (reddit_query_inv (λ leads _, Forall reddit_shaped leads));
    [done| |done].
  intros leads' d w'' Hl'. unfold reddit_item.
  destruct (reddit_lead _ q d) as [l|] eqn:Hd; [|done].
  cbn. apply Forall_app. split; [done|]. constructor; [|constructor].
  exact (reddit_lead_shape _ q d l Hq Hd).
Qed.

Lemma search_sync_rss_shaped env w :
  Forall (rss_shaped env) (search_sync_rss env w).1.
Proof.
  unfold search_sync_rss.
  apply (for_each_inv (λ leads _, Forall (rss_shaped env) leads));
    [|constructor].
  intros out u w' Hu Hl.
  apply (rss_feed_inv (λ leads _, Forall (rss_shaped env) leads));
    [done| |done].
  intros feed Hfeed out' e w'' Hl'. unfold rss_entry.
  destruct (rss_lead _ _ e) as [l|] eqn:Hd; [|done].
  cbn. apply Forall_app. split; [done|]. constructor; [|constructor].
  apply rss_lead_shape in Hd as (Hs & Hw & Ht & Hurl & Hn & Hb).
  split; [by exists u, feed|]. by rewrite Hw, Hs.
Qed.

Lemma stamped_snoc env t0 leads w l :
  stamped env t0 leads w → timestamp l = clock env (ticks w) →
  stamped env t0 (leads ++ [l]) (tick w).
Proof.
  intros [Hs Ht] Hl. split.
  - rewrite fmap_app, length_app, seq_app, fmap_app, Hs. cbn.
    by rewrite Hl, Ht.
  - cbn. rewrite length_app. cbn. lia.
Qed.

Lemma reddit_lead_stamp stamp q d l :
  reddit_lead stamp q d = Some l → timestamp l = stamp.
Proof.
  unfold reddit_lead. destruct (negb _ || _ || _); [done|].
  destruct (negb _); [done|]. by intros [= <-].
Qed.

Lemma rss_lead_stamp stamp src e l :
  rss_lead stamp src e = Some l → timestamp l = stamp.
Proof.
  unfold rss_lead. destruct (negb _); [done|].
  destruct (is_noise _); [done|]. destruct (negb _); [done|].
  by intros [= <-].
Qed.

Lemma search_reddit_stamped env w :
  stamped env (ticks w) (search_reddit env w).1 (search_reddit env w).2.
Proof.
  unfold search_reddit.
  apply (for_each_inv (stamped env (ticks w)));
    [|split; [done | cbn; lia]].
  intros leads q w' _ Hl.
  apply (reddit_query_inv (stamped env (ticks w))); [done| |done].
  intros leads' d w'' Hl'. unfold reddit_item.
  destruct (reddit_lead _ q d) as [l|] eqn:Hd; [|done].
  cbn [fst snd]. apply stamped_snoc; [done|].
  by apply reddit_lead_stamp in Hd.
Qed.

Lemma search_sync_rss_stamped env w :
  stamped env (ticks w) (search_sync_rss env w).1 (search_sync_rss env w).2.
Proof.
  unfold search_sync_rss.
  apply (for_each_inv (stamped env (ticks w)));
    [|split; [done | cbn; lia]].
  intros out u w' _ Hl.
  apply (rss_feed_inv (stamped env (ticks w))); [done| |done].
  intros feed _ out' e w'' Hl'. unfold rss_entry.
  destruct (rss_lead _ _ e) as [l|] eqn:Hd; [|done].
  cbn [fst snd]. apply stamped_snoc; [done|].
  by apply rss_lead_stamp in Hd.
Qed.

End Searches.

(** X8.  Every lead that [search_reddit] returns has source [Reddit], an
    author rendered as [u/] and a name that is not empty, the tag of one of
    the seed queries, a title and a url that are not empty, and a normalized
    title that is free of noise and passes the buyer rule. *)
Theorem reddit_leads_are_shaped (env : Env) (w : World) :
  Forall reddit_shaped (search_reddit env w).1.
Proof. apply search_reddit_shaped. Qed.

(** X9.  Every lead that [search_sync_rss] returns comes from one of the
    configured feeds that parsed, has that feed's title (or [Sync RSS] when
    it declares none) as source and as author, the tag [sync; rss], a link
    that is not empty, and a normalized title that is free of noise and
    passes the syndication rule. *)
Theorem rss_leads_are_shaped (env : Env) (w : World) :
  Forall (rss_shaped env) (search_sync_rss env w).1.
Proof. apply search_sync_rss_shaped. Qed.

(** X10.  Apart from the timestamps, what a search returns does not depend
    on the world it runs in: it is the concatenation, in the order of the
    queries or feeds, of the leads of each one.  A request that raises, a
    status other than 200 and a feed that fails to parse stand for no leads;
    a listing or a feed whose loop raises part of the way stands for the
    leads of the records before the one that raised.  In every case the turn
    of a query or feed keeps the leads gathered before it. *)
Theorem searches_are_concatenations (env : Env) (w : World) :
  untimed <$> (search_reddit env w).1 = reddit_candidates env ∧
  untimed <$> (search_sync_rss env w).1 = rss_candidates env ∧
  (∀ acc q w',
     untimed <$> (reddit_query env acc q w').1
     = (untimed <$> acc) ++ reddit_query_candidates env q) ∧
  (∀ acc u w',
     untimed <$> (rss_feed env acc u w').1
     = (untimed <$> acc) ++ rss_feed_candidates env u).
Proof.
  split; [apply search_reddit_untimed|].
  split; [apply search_sync_rss_untimed|].
  split; [intros; apply reddit_query_untimed | intros; apply rss_feed_untimed].
Qed.

(** A listing that breaks after its first record: the lead of that record
    is kept, the error is printed, and the next query is served. *)
Example search_reddit_patchy :
  let r := search_reddit MoreFixtures.patchy Fixtures.no_spreadsheet in
  url <$> r.1
  = [ "https://www.reddit.com/r/x/1"; "https://www.reddit.com/r/x/3" ] ∧
  take 2 (stdout r.2)
  = [ ErrReddit "buying beats"; ErrReddit "buying instrumentals" ].
Proof. vm_compute. split; reflexivity. Qed.

(** X11.  The clock is read exactly once for each lead a search returns, in
    the order of the leads, and the records that are dropped do not read it:
    the timestamps are the successive readings from the one current when the
    search began. *)
Theorem timestamps_follow_clock (env : Env) (w : World) :
  stamped env (ticks w) (search_reddit env w).1 (search_reddit env w).2 ∧
  stamped env (ticks w) (search_sync_rss env w).1 (search_sync_rss env w).2.
Proof.
  split; [apply search_reddit_stamped | apply search_sync_rss_stamped].
Qed.

(** ** More on the deduplicator *)

Section Dedup_more.
Implicit Types (seen : gset string) (leads acc : list Lead).

(** The accumulator of the loop is only ever appended to. *)
Lemma dedup_acc leads : ∀ acc seen,
  foldl dedup_step (acc, seen) leads
  = (acc ++ (dedup seen leads).1, (dedup seen leads).2).
Proof.
  unfold dedup. induction leads as [|l leads IH]; intros acc seen.
  - cbn. by rewrite app_nil_r.
  - cbn [foldl]. destruct (decide (url l ∈ seen)) as [Hin|Hout].
    + rewrite !dedup_step_seen by done. apply IH.
    + rewrite !dedup_step_new by done.
      rewrite (IH (acc ++ [l])), (IH ([] ++ [l])). cbn.
      by rewrite <- app_assoc.
Qed.

Lemma dedup_nil seen : dedup seen [] = ([], seen).
Proof. done. Qed.

Lemma dedup_cons_seen seen l leads :
  url l ∈ seen → dedup seen (l :: leads) = dedup seen leads.
Proof.
  intros Hin. unfold dedup. cbn [foldl]. by rewrite dedup_step_seen.
Qed.

Lemma dedup_cons_new seen l leads :
  url l ∉ seen →
  dedup seen (l :: leads)
  = (l :: (dedup (seen ∪ {[ url l ]}) leads).1,
     (dedup (seen ∪ {[ url l ]}) leads).2).
Proof.
  intros Hout. unfold dedup at 1. cbn [foldl].
  rewrite dedup_step_new by done. by rewrite dedup_acc.
Qed.

Lemma dedup_app seen xs ys :
  dedup seen (xs ++ ys)
  = ((dedup seen xs).1 ++ (dedup (dedup seen xs).2 ys).1,
     (dedup (dedup seen xs).2 ys).2).
Proof.
  unfold dedup at 1. rewrite foldl_app.
  change (foldl dedup_step ([], seen) xs) with (dedup seen xs).
  destruct (dedup seen xs) as [kept seen']. cbn [fst snd].
  apply dedup_acc.
Qed.

Lemma dedup_seen_grows seen leads :
  (dedup seen leads).2
  = seen ∪ list_to_set (url <$> (dedup seen leads).1).
Proof.
  revert seen. induction leads as [|l leads IH]; intros seen.
  - cbn. by rewrite (right_id_L ∅ (∪)).
  - destruct (decide (url l ∈ seen)) as [Hin|Hout].
    + rewrite dedup_cons_seen by done. apply IH.
    + rewrite dedup_cons_new by done. cbn [fst snd].
      rewrite IH, fmap_cons, list_to_set_cons. set_solver.
Qed.

Lemma dedup_kept seen leads l :
  l ∈ (dedup seen leads).1 → (url l ∉ seen) ∧ l ∈ leads.
Proof.
  revert seen. induction leads as [|x leads IH]; intros seen.
  - cbn. by intros ?%elem_of_nil.
  - destruct (decide (url x ∈ seen)) as [Hin|Hout].
    + rewrite dedup_cons_seen by done. intros [? ?]%IH.
      split; [done | by apply list_elem_of_further].
    + rewrite dedup_cons_new by done. cbn [fst].
      intros [->|Hl]%elem_of_cons.
      * split; [done | apply list_elem_of_here].
      * apply IH in Hl as [Hl ?]. split; [set_solver|].
        by apply list_elem_of_further.
Qed.

Lemma dedup_NoDup seen leads : NoDup (url <$> (dedup seen leads).1).
Proof.
  revert seen. induction leads as [|x leads IH]; intros seen.
  - constructor.
  - destruct (decide (url x ∈ seen)) as [Hin|Hout].
    + rewrite dedup_cons_seen by done. apply IH.
    + rewrite dedup_cons_new by done. cbn [fst]. rewrite fmap_cons.
      apply NoDup_cons. split; [|apply IH].
      intros (l & Hurl & Hl)%list_elem_of_fmap.
      apply dedup_kept in Hl as [Hl _]. set_solver.
Qed.

Lemma dedup_sublist seen leads : (dedup seen leads).1 `sublist_of` leads.
Proof.
  revert seen. induction leads as [|x leads IH]; intros seen.
  - constructor.
  - destruct (decide (url x ∈ seen)) as [Hin|Hout].
    + rewrite dedup_cons_seen by done. apply sublist_cons, IH.
    + rewrite dedup_cons_new by done. cbn [fst]. apply sublist_skip, IH.
Qed.

Lemma dedup_covers seen leads :
  (dedup seen leads).2 = seen ∪ list_to_set (url <$> leads).
Proof.
  revert seen. induction leads as [|x leads IH]; intros seen.
  - cbn. by rewrite (right_id_L ∅ (∪)).
  - rewrite fmap_cons, list_to_set_cons.
    destruct (decide (url x ∈ seen)) as [Hin|Hout].
    + rewrite dedup_cons_seen, IH by done. set_solver.
    + rewrite dedup_cons_new by done. cbn [snd]. rewrite IH. set_solver.
Qed.

Lemma dedup_all_seen seen leads :
  (∀ l, l ∈ leads → url l ∈ seen) → dedup seen leads = ([], seen).
Proof.
  induction leads as [|x leads IH]; intros Hall; [done|].
  rewrite dedup_cons_seen by (apply Hall, list_elem_of_here).
  apply IH. intros l Hl. by apply Hall, list_elem_of_further.
Qed.

Lemma dedup_fixed seen leads :
  NoDup (url <$> leads) → (∀ l, l ∈ leads → url l ∉ seen) →
  (dedup seen leads).1 = leads.
Proof.
  revert seen. induction leads as [|x leads IH]; intros seen Hnd Hout;
    [done|].
  rewrite fmap_cons in Hnd. apply NoDup_cons in Hnd as [Hx Hnd].
  rewrite dedup_cons_new by (apply Hout, list_elem_of_here).
  cbn [fst]. f_equal. apply IH; [done|].
  intros l Hl. apply not_elem_of_union. split.
  - by apply Hout, list_elem_of_further.
  - intros Heq%elem_of_singleton. apply Hx. rewrite <- Heq.
    by apply list_elem_of_fmap_2.
Qed.

End Dedup_more.

(** X12.  The deduplication pass keeps at most one lead for each url and
    none whose url was seen before; what it keeps is a subsequence of the
    candidates, and no new url is lost: every candidate's url was either
    seen before or is the url of a lead that is kept. *)
Theorem dedup_keeps_one_per_url (seen : gset string) (leads : list Lead) :
  let kept := (dedup seen leads).1 in
  NoDup (url <$> kept) ∧
  (∀ l, l ∈ kept → url l ∉ seen) ∧
  kept `sublist_of` leads ∧
  (∀ l, l ∈ leads → url l ∈ seen ∨ url l ∈ url <$> kept).
Proof.
  intros kept. split; [apply dedup_NoDup|]. split.
  { intros l Hl. by apply dedup_kept in Hl as [? _]. }
  split; [apply dedup_sublist|].
  intros l Hl.
  assert (Hin : url l ∈ (dedup seen leads).2).
  { rewrite dedup_covers. apply elem_of_union_r, elem_of_list_to_set.
    by apply list_elem_of_fmap_2. }
  rewrite dedup_seen_grows in Hin.
  apply elem_of_union in Hin as [?|Hin]; [by left|].
  right. by apply elem_of_list_to_set in Hin.
Qed.

(** X13.  Deduplicating a concatenation is deduplicating the first list and
    then the second against the seen set the first left behind.  In
    [run_once] the Reddit leads come first, so a feed entry never displaces
    a Reddit lead with the same url. *)
Theorem dedup_of_concatenation (seen : gset string) (xs ys : list Lead) :
  dedup seen (xs ++ ys)
  = ((dedup seen xs).1 ++ (dedup (dedup seen xs).2 ys).1,
     (dedup (dedup seen xs).2 ys).2).
Proof. apply dedup_app. Qed.

(** X14.  A second pass finds nothing: against the seen set a pass leaves
    behind, the same candidates are all dropped; and the leads a pass keeps
    are all kept when passed again against the original seen set. *)
Theorem dedup_is_stable (seen : gset string) (leads : list Lead) :
  (dedup (dedup seen leads).2 leads).1 = [] ∧
  (dedup seen (dedup seen leads).1).1 = (dedup seen leads).1.
Proof.
  split.
  - rewrite dedup_all_seen; [done|]. intros l Hl.
    rewrite dedup_covers. apply elem_of_union_r, elem_of_list_to_set.
    by apply list_elem_of_fmap_2.
  - apply dedup_fixed; [apply dedup_NoDup|].
    intros l Hl. by apply dedup_kept in Hl as [? _].
Qed.

(** ** Whole runs *)

Section Runs.

(** The candidates of a run and the seen set they are checked against. *)
Lemma gather_items env w :
  let w1 := (get_sheet w).2 in
  let rl := search_reddit env w1 in
  let sl := search_sync_rss env rl.2 in
  (gather env w).1
  = (dedup (list_to_set (url_cells (rows_of w1))) (rl.1 ++ sl.1)).1.
Proof.
  intros w1 rl sl. unfold gather. rewrite !bind_run, ret_run.
  cbn [fst]. rewrite existing_urls_frame, existing_urls_cells. done.
Qed.

Lemma gather_rows env w :
  rows_of (gather env w).2 = rows_of (get_sheet w).2.
Proof. unfold rows_of. by destruct (gather_frame env w) as [-> _]. Qed.

Lemma reddit_shaped_url l : reddit_shaped l → url l ≠ "".
Proof. by intros (_ & _ & _ & _ & ? & _). Qed.

Lemma rss_shaped_url env l : rss_shaped env l → url l ≠ "".
Proof. by intros (_ & _ & _ & ? & _). Qed.

Lemma gather_urls env w : Forall (λ l, url l ≠ "") (gather env w).1.
Proof.
  rewrite gather_items. apply Forall_forall. intros l Hl.
  apply dedup_kept in Hl as [_ Hl]. apply elem_of_app in Hl as [Hl|Hl].
  - eapply reddit_shaped_url, Forall_forall;
      [apply search_reddit_shaped | exact Hl].
  - eapply rss_shaped_url, Forall_forall;
      [apply search_sync_rss_shaped | exact Hl].
Qed.

Lemma persist_rows rows w : rows_of (persist rows w).2 = rows_of w ++ rows.
Proof.
  unfold persist. case_bool_decide as Hr.
  - subst rows. by rewrite app_nil_r.
  - by rewrite bind_run, append_rows_run.
Qed.

Lemma persist_outbox rows w : outbox (persist rows w).2 = outbox w.
Proof.
  unfold persist. case_bool_decide; [done|].
  by rewrite bind_run, append_rows_run.
Qed.

Lemma email_csv_sheet env rows counts w :
  sheet (email_csv env rows counts w).2 = sheet w.
Proof.
  unfold email_csv. case_bool_decide; [done|]. by destruct (smtp_ok env).
Qed.

Lemma email_csv_silent env rows counts w :
  rows = [] ∨ smtp_ok env = false →
  outbox (email_csv env rows counts w).2 = outbox w.
Proof.
  unfold email_csv. intros [->|Hsmtp].
  - by rewrite bool_decide_eq_true_2.
  - case_bool_decide; [done|]. by rewrite Hsmtp.
Qed.

Lemma deliver_rows env items w :
  rows_of (deliver env items w).2 = rows_of w ++ (row_of <$> items).
Proof.
  unfold deliver. rewrite bind_run. unfold rows_of at 1.
  rewrite email_csv_sheet. apply persist_rows.
Qed.

Lemma run_once_rows env w :
  rows_of (run_once env w).2
  = rows_of (get_sheet w).2 ++ (row_of <$> (gather env w).1).
Proof. by rewrite run_once_run, deliver_rows, gather_rows. Qed.

Lemma new_urls_fresh env w l :
  l ∈ (gather env w).1 → url l ∉ url_cells (rows_of (get_sheet w).2).
Proof.
  rewrite gather_items. intros [Hl _]%dedup_kept.
  by rewrite elem_of_list_to_set in Hl.
Qed.

Lemma header_rows_nonempty ws : head ws = Some header → ws ≠ [].
Proof. by destruct ws. Qed.

Lemma run_once_cells env w :
  url_cells (rows_of (run_once env w).2)
  = url_cells (rows_of (get_sheet w).2) ++ (url <$> (gather env w).1).
Proof.
  rewrite run_once_rows, url_cells_app
    by apply header_rows_nonempty, get_sheet_head.
  by rewrite cells_of_rows by apply gather_urls.
Qed.

(** After any run the worksheet has the header first and no row wider
    than it. *)
Lemma run_once_kept env w :
  head (rows_of (run_once env w).2) = Some header ∧
  Forall (λ r : row, length r ≤ 6) (rows_of (run_once env w).2).
Proof.
  rewrite run_once_rows. destruct (get_sheet_kept w) as [Hh Hw].
  fold (rows_of (get_sheet w).2) in Hh, Hw. split.
  - destruct (rows_of (get_sheet w).2); [done | exact Hh].
  - apply Forall_app. split; [exact Hw|].
    apply Forall_fmap, Forall_forall. intros l _. cbn. lia.
Qed.

Lemma get_sheet_cells w :
  url_cells (rows_of (get_sheet w).2) = url_cells (rows_of w) ∨
  url_cells (rows_of (get_sheet w).2) = [].
Proof.
  destruct (decide (head (fill_gaps (default [] (sheet w))) = Some header))
    as [H|H].
  - left. by rewrite get_sheet_keep_read.
  - right. by rewrite get_sheet_reset_read.
Qed.

Lemma candidates_ext env env' :
  (∀ q, reddit env' q = reddit env q) →
  (∀ u, feeds env' u = feeds env u) →
  reddit_candidates env' = reddit_candidates env ∧
  rss_candidates env' = rss_candidates env.
Proof.
  intros Hr Hf. unfold reddit_candidates, rss_candidates. split.
  - induction SEARCH_QUERIES as [|q qs IH]; [done|]. cbn [flat_map].
    rewrite IH. f_equal. unfold reddit_query_candidates. by rewrite Hr.
  - induction SYNC_RSS_FEEDS as [|u us IH]; [done|]. cbn [flat_map].
    rewrite IH. f_equal. unfold rss_feed_candidates. by rewrite Hf.
Qed.

Lemma url_untimed (leads : list Lead) :
  url <$> (untimed <$> leads) = url <$> leads.
Proof. rewrite <- list_fmap_compose. by apply list_fmap_ext. Qed.

Lemma deliver_nil env w :
  deliver env [] w
  = (true, {| sheet := sheet w; outbox := outbox w; ticks := ticks w;
              stdout := (stdout w ++ [NoNewLeads]) ++ [NoNewRows] |}).
Proof.
  unfold deliver, persist, email_csv. cbn [fmap list_fmap].
  rewrite bind_run, (bool_decide_eq_true_2 ([] = [])) by done.
  by rewrite bind_run, !print_run, ret_run.
Qed.

Lemma sum_values_nonzero (counts : list (string * nat)) :
  sum_values (filter (λ kv, kv.2 ≠ 0) counts) = sum_values counts.
Proof.
  induction counts as [|[k v] counts IH]; [done|].
  rewrite filter_cons. cbn [snd]. destruct (decide (v ≠ 0)) as [Hv|Hv].
  - cbn. unfold sum_values in IH. by rewrite IH.
  - assert (v = 0) as -> by lia. cbn. exact IH.
Qed.

End Runs.

(** X15.  A run never writes a url twice: a ledger whose urls are pairwise
    distinct stays so, whether the header matched or the store was reset,
    and whether or not the mail went out. *)
Theorem run_keeps_urls_unique (env : Env) (w : World) :
  NoDup (url_cells (rows_of w)) →
  NoDup (url_cells (rows_of (run_once env w).2)).
Proof.
  intros Hnd. rewrite run_once_cells. apply NoDup_app. split; [|split].
  - destruct (get_sheet_cells w) as [-> | ->]; [done | constructor].
  - intros u Hu (l & -> & Hl)%list_elem_of_fmap.
    by apply new_urls_fresh in Hl.
  - rewrite gather_items. apply dedup_NoDup.
Qed.

(** A ledger with one url, and a run that finds two new ones. *)
Lemma run_keeps_urls_unique_witness :
  NoDup (url_cells (rows_of MoreFixtures.ledger)) ∧
  NoDup (url_cells (rows_of (run_once Fixtures.online MoreFixtures.ledger).2)) ∧
  length (url_cells (rows_of (run_once Fixtures.online MoreFixtures.ledger).2))
  = 3.
Proof.
  assert (H : NoDup (url_cells (rows_of MoreFixtures.ledger))).
  { vm_compute. apply NoDup_singleton. }
  split; [exact H|]. split.
  - exact (run_keeps_urls_unique Fixtures.online MoreFixtures.ledger H).
  - vm_compute. reflexivity.
Defined.

(** X16.  When the first row is the header and no row is wider than the
    header, a run only appends: the rows already there stay as they were at
    the head of the worksheet, followed by one row of six cells for each
    lead the run kept; and the worksheet is again one whose first row is the
    header and whose rows are no wider, so the next run only appends too. *)
Theorem run_is_append_only (env : Env) (w : World) :
  head (rows_of w) = Some header →
  Forall (λ r : row, length r ≤ 6) (rows_of w) →
  let new_rows := row_of <$> (gather env w).1 in
  rows_of (run_once env w).2 = rows_of w ++ new_rows ∧
  Forall (λ r : row, length r = 6) new_rows ∧
  head (rows_of (run_once env w).2) = Some header ∧
  Forall (λ r : row, length r ≤ 6) (rows_of (run_once env w).2).
Proof.
  intros Hhead Hwide new_rows. split; [|split].
  - rewrite run_once_rows. by rewrite get_sheet_keep.
  - apply Forall_fmap, Forall_forall. by intros l _.
  - apply run_once_kept.
Qed.

(** The three rows of [MoreFixtures.ledger] are still there after a run. *)
Lemma run_is_append_only_witness :
  head (rows_of MoreFixtures.ledger) = Some header ∧
  Forall (λ r : row, length r ≤ 6) (rows_of MoreFixtures.ledger) ∧
  take 3 (rows_of (run_once Fixtures.online MoreFixtures.ledger).2)
  = rows_of MoreFixtures.ledger.
Proof.
  assert (H : head (rows_of MoreFixtures.ledger) = Some header) by done.
  assert (Hw : Forall (λ r : row, length r ≤ 6) (rows_of MoreFixtures.ledger))
    by (repeat constructor).
  split; [exact H|]. split; [exact Hw|].
  destruct (run_is_append_only Fixtures.online MoreFixtures.ledger H Hw)
    as [-> _].
  by rewrite take_app_length'.
Defined.

(** X17.  The rows are written before the mail is sent.  When sending
    raises, [run_once] raises too, no message has gone out, and the new rows
    are in the worksheet all the same. *)
Theorem failed_mail_keeps_rows (env : Env) (w : World) :
  smtp_ok env = false →
  (gather env w).1 ≠ [] →
  (run_once env w).1 = false ∧
  outbox (run_once env w).2 = outbox w ∧
  rows_of (run_once env w).2
  = rows_of (get_sheet w).2 ++ (row_of <$> (gather env w).1).
Proof.
  intros Hsmtp Hitems. split; [|split; [|apply run_once_rows]].
  - rewrite run_once_run. unfold deliver. rewrite bind_run.
    unfold email_csv. rewrite bool_decide_eq_false_2.
    + by rewrite Hsmtp.
    + by destruct (gather env w).1.
  - rewrite run_once_run. unfold deliver. rewrite bind_run.
    rewrite email_csv_silent by by right.
    rewrite persist_outbox. by destruct (gather_frame env w) as [_ ->].
Qed.

(** The scenario of [Fixtures.online] with the mail server down. *)
Lemma failed_mail_keeps_rows_witness :
  smtp_ok MoreFixtures.no_mail = false ∧
  (gather MoreFixtures.no_mail Fixtures.no_spreadsheet).1 ≠ [] ∧
  (run_once MoreFixtures.no_mail Fixtures.no_spreadsheet).1 = false ∧
  outbox (run_once MoreFixtures.no_mail Fixtures.no_spreadsheet).2 = [] ∧
  length (rows_of (run_once MoreFixtures.no_mail Fixtures.no_spreadsheet).2)
  = 3.
Proof.
  assert (H1 : smtp_ok MoreFixtures.no_mail = false) by reflexivity.
  assert (H2 : (gather MoreFixtures.no_mail Fixtures.no_spreadsheet).1 ≠ [])
    by (vm_compute; discriminate).
  split; [exact H1|]. split; [exact H2|].
  destruct (failed_mail_keeps_rows _ _ H1 H2) as (Hr & Ho & Hrows).
  split; [exact Hr|]. split; [exact Ho|].
  rewrite Hrows. vm_compute. reflexivity.
Defined.

(** X18.  A run right after another, over sources that answer the same,
    finds nothing new: every candidate's url is in the ledger by then, so
    nothing is appended and nothing is sent.  This holds also when the first
    run failed to send its mail, whose leads are therefore never mailed. *)
Theorem second_run_finds_nothing (env env' : Env) (w : World) :
  (∀ q, reddit env' q = reddit env q) →
  (∀ u, feeds env' u = feeds env u) →
  let w' := (run_once env w).2 in
  (gather env' w').1 = [] ∧
  (run_once env' w').1 = true ∧
  rows_of (run_once env' w').2 = rows_of w' ∧
  outbox (run_once env' w').2 = outbox w'.
Proof.
  intros Hr Hf w'.
  assert (Hhead : head (rows_of w') = Some header).
  { unfold w'. rewrite run_once_rows.
    pose proof (get_sheet_head w) as Hh.
    destruct (rows_of (get_sheet w).2); [done | exact Hh]. }
  assert (Hkeep : get_sheet w' = (tt, w')).
  { apply get_sheet_keep; apply run_once_kept. }
  assert (Hnil : (gather env' w').1 = []).
  { rewrite gather_items, Hkeep. cbn [snd].
    rewrite dedup_all_seen; [done|]. intros l Hl.
    apply elem_of_list_to_set. unfold w'. rewrite run_once_cells.
    assert (Hu : url l ∈
              url <$> ((search_reddit env (get_sheet w).2).1 ++
                       (search_sync_rss env
                          (search_reddit env (get_sheet w).2).2).1)).
    { rewrite <- url_untimed, fmap_app, search_reddit_untimed,
        search_sync_rss_untimed.
      destruct (candidates_ext env env' Hr Hf) as [<- <-].
      rewrite <- (search_reddit_untimed env' w'),
        <- (search_sync_rss_untimed env' (search_reddit env' w').2),
        <- fmap_app, url_untimed.
      by apply list_elem_of_fmap_2. }
    apply list_elem_of_fmap in Hu as (l0 & Hurl & Hl0).
    pose proof (dedup_keeps := dedup_seen_grows
      (list_to_set (url_cells (rows_of (get_sheet w).2)))
      ((search_reddit env (get_sheet w).2).1 ++
       (search_sync_rss env (search_reddit env (get_sheet w).2).2).1)).
    rewrite dedup_covers in dedup_keeps.
    assert (Hin : url l0 ∈
      (list_to_set (url_cells (rows_of (get_sheet w).2)) : gset string) ∪
      list_to_set
        (url <$> (search_reddit env (get_sheet w).2).1 ++
                 (search_sync_rss env (search_reddit env (get_sheet w).2).2).1)).
    { apply elem_of_union_r, elem_of_list_to_set.
      by apply list_elem_of_fmap_2. }
    rewrite dedup_keeps, <- gather_items in Hin. rewrite Hurl.
    apply elem_of_app.
    apply elem_of_union in Hin as [Hin|Hin];
      [left | right]; by apply elem_of_list_to_set in Hin. }
  split; [exact Hnil|].
  rewrite run_once_run, Hnil, deliver_nil. cbn [fst snd].
  split; [done|]. unfold rows_of. cbn [sheet outbox].
  destruct (gather_frame env' w') as [-> ->]. by rewrite Hkeep.
Qed.

(** The run of [Fixtures.online] with the mail server down, then the same
    sources with the server up: the two leads are in the ledger and no
    message ever reports them. *)
Lemma second_run_finds_nothing_witness :
  let w' := (run_once MoreFixtures.no_mail Fixtures.no_spreadsheet).2 in
  (∀ q, reddit Fixtures.online q = reddit MoreFixtures.no_mail q) ∧
  (∀ u, feeds Fixtures.online u = feeds MoreFixtures.no_mail u) ∧
  length (rows_of w') = 3 ∧
  (gather Fixtures.online w').1 = [] ∧
  outbox (run_once Fixtures.online w').2 = [].
Proof.
  intros w'.
  assert (H1 : ∀ q, reddit Fixtures.online q = reddit MoreFixtures.no_mail q)
    by reflexivity.
  assert (H2 : ∀ u, feeds Fixtures.online u = feeds MoreFixtures.no_mail u)
    by reflexivity.
  split; [exact H1|]. split; [exact H2|]. split; [vm_compute; reflexivity|].
  destruct (second_run_finds_nothing MoreFixtures.no_mail Fixtures.online
              Fixtures.no_spreadsheet H1 H2) as (Hnil & _ & _ & Hout).
  split; [exact Hnil|]. fold w' in Hout. rewrite Hout.
  vm_compute. reflexivity.
Defined.

(** X19.  When there are rows and the server accepts, [email_csv] reads the
    clock once and sends one message: its attachment is the header followed
    by the rows, its total is the sum of the counts it was given, and its
    totals line lists the counts that are not zero, which add up to that
    total.  The worksheet is not touched. *)
Theorem email_csv_message (env : Env) (new_rows : list row)
    (counts : list (string * nat)) (w : World) :
  new_rows ≠ [] →
  smtp_ok env = true →
  ∃ m, email_csv env new_rows counts w
       = (true, {| sheet := sheet w; outbox := outbox w ++ [m];
                   ticks := S (ticks w);
                   stdout := stdout w ++ [Emailed (sum_values counts)] |}) ∧
       mail_csv m = header :: new_rows ∧
       mail_total m = sum_values counts ∧
       Forall (λ kv, kv.2 ≠ 0) (mail_totals m) ∧
       sum_values (mail_totals m) = mail_total m.
Proof.
  intros Hrows Hsmtp. eexists. split.
  - rewrite email_csv_run, Hsmtp by done. reflexivity.
  - cbn. split; [done|]. split; [done|]. case_bool_decide as Htotal.
    + split; [|apply sum_values_nonzero].
      apply Forall_forall. by intros kv [? _]%list_elem_of_filter.
    + split; [constructor|]. cbn. lia.
Qed.

(** One row, counted under a source that has a zero beside it. *)
Lemma email_csv_message_witness :
  mail_totals <$>
    outbox (email_csv Fixtures.online [ row_of (Fixtures.lead_at "u1") ]
              [ ("Reddit", 1); ("Sync RSS", 0) ] Fixtures.no_spreadsheet).2
  = [ [ ("Reddit", 1) ] ].
Proof.
  destruct (email_csv_message Fixtures.online
              [ row_of (Fixtures.lead_at "u1") ]
              [ ("Reddit", 1); ("Sync RSS", 0) ] Fixtures.no_spreadsheet)
    as (m & Hrun & _); [done | reflexivity |].
  vm_compute. reflexivity.
Defined.
